(** * Data Analyzer app (src/app.py): credential store, session marker,
      feedback store, analysis window and chart builder.

    The Python module is embedded shallowly:
    - the SQLite file is a record of tables ([users], [users_new],
      [feedback]); a table records the column names PRAGMA table_info would
      list, the constraints its CREATE TABLE declared and its rows in rowid
      order; a value of a TEXT column is NULL or a text, an id NULL or an
      integer; for the AUTOINCREMENT tables the record holds what
      [sqlite_sequence] holds; SQLite finds a column whatever the letter
      case of its name, Python's [in] on the list of names does not;
    - the flat files under data/ are a finite map from path to text (the
      bytes of a file are UTF-8), with the set of paths that cannot be
      written;
    - a Python function that touches the database or the file system is a
      computation in the monad [py]: it takes the world, returns a value or
      raises, and leaves a new world behind; [try_except] is Python's
      try/except Exception; an SQL statement raises when its table or a
      column it names is missing, or on a UNIQUE violation;
    - Python [str] values are byte strings (their UTF-8 encoding), which is
      what [hashlib.sha256(password.encode('utf-8'))] hashes; [strip]
      removes the Unicode white space, read off the bytes; [lower] folds
      the ASCII letters, and the search filter is embedded for ASCII text;
    - the platform is POSIX: paths are split at "/", a line of a CSV file
      ends with a line feed;
    - [hashlib.sha256] is the FIPS 180-4 function on 32-bit words held in [Z];
    - a DataFrame is its column labels and its rows; the widgets of the
      pages (select boxes, number input, slider, button) are the values
      they return, passed as arguments; plotly.express is a parameter.
*)

From Stdlib Require Import ZArith List String Ascii Lia Bool DecimalString Sorted.
From stdpp Require Import base gmap strings list.
Import ListNotations.

(* ===================================================================== *)
(** * Part I: the embedding                                               *)
(* ===================================================================== *)

(** ** hashlib.sha256 *)

Module Sha256.
Local Open Scope Z_scope.

Definition mask32 : Z := 0xffffffff.
Definition add32 (x y : Z) : Z := Z.land (x + y) mask32.
Definition rotr (n x : Z) : Z :=
  Z.lor (Z.shiftr x n) (Z.land (Z.shiftl x (32 - n)) mask32).
Definition Ch (x y z : Z) : Z :=
  Z.lxor (Z.land x y) (Z.land (Z.lxor x mask32) z).
Definition Maj (x y z : Z) : Z :=
  Z.lxor (Z.lxor (Z.land x y) (Z.land x z)) (Z.land y z).
Definition bsig0 (x : Z) : Z := Z.lxor (Z.lxor (rotr 2 x) (rotr 13 x)) (rotr 22 x).
Definition bsig1 (x : Z) : Z := Z.lxor (Z.lxor (rotr 6 x) (rotr 11 x)) (rotr 25 x).
Definition ssig0 (x : Z) : Z := Z.lxor (Z.lxor (rotr 7 x) (rotr 18 x)) (Z.shiftr x 3).
Definition ssig1 (x : Z) : Z := Z.lxor (Z.lxor (rotr 17 x) (rotr 19 x)) (Z.shiftr x 10).

(** The constants of FIPS 180-4 are fractional parts of roots of the first
    primes, cut to 32 bits; they are computed here rather than listed. *)
Definition is_prime (n : Z) : bool :=
  (1 <? n) && forallb (fun d => negb (n mod d =? 0)) (map Z.of_nat (seq 2 (Z.to_nat n - 2))).

(** The first sixty-four primes, 2 to 311. *)
Definition primes : list Z := List.filter is_prime (map Z.of_nat (seq 2 310)).

(** Integer cube root, found bit by bit from the top. *)
Fixpoint cbrt_bits (k : nat) (acc n : Z) : Z :=
  match k with
  | O => acc
  | S k' =>
      let c := acc + 2 ^ Z.of_nat k' in
      if c * c * c <=? n then cbrt_bits k' c n else cbrt_bits k' acc n
  end.

Definition frac_cbrt32 (p : Z) : Z := Z.land (cbrt_bits 36 0 (p * 2 ^ 96)) mask32.
Definition frac_sqrt32 (p : Z) : Z := Z.land (Z.sqrt (p * 2 ^ 64)) mask32.

(** Round constants: cube roots of the first sixty-four primes. *)
Definition K : list Z := Eval vm_compute in map frac_cbrt32 primes.

(** The eight working words. A record keeps the digest's width structural. *)
Record state := mk_state { sa : Z; sb : Z; sc : Z; sd : Z; se : Z; sf : Z; sg : Z; sh : Z }.

(** Initial hash value: square roots of the first eight primes. *)
Definition init : state :=
  Eval vm_compute in
    mk_state (frac_sqrt32 2) (frac_sqrt32 3) (frac_sqrt32 5) (frac_sqrt32 7)
             (frac_sqrt32 11) (frac_sqrt32 13) (frac_sqrt32 17) (frac_sqrt32 19).

Definition be_bytes (n : nat) (x : Z) : list Z :=
  map (fun i => Z.land (Z.shiftr x (8 * Z.of_nat i)) 0xff) (rev (seq 0 n)).

(** Padding: 0x80, zero bytes up to 56 mod 64, then the bit length on 64 bits. *)
Definition pad (msg : list Z) : list Z :=
  let len := Z.of_nat (length msg) in
  msg ++ [0x80] ++ repeat 0 (Z.to_nat ((55 - len) mod 64)) ++ be_bytes 8 (8 * len).

Definition be_word (bs : list Z) : Z :=
  fold_left (fun acc b => Z.lor (Z.shiftl acc 8) b) bs 0.

Fixpoint words (n : nat) (bs : list Z) : list Z :=
  match n with
  | O => []
  | S n' => be_word (firstn 4 bs) :: words n' (skipn 4 bs)
  end.

(** Message schedule, the most recent word first. *)
Fixpoint expand (n : nat) (recent : list Z) : list Z :=
  match n with
  | O => recent
  | S n' =>
      let w := add32 (add32 (ssig1 (nth 1 recent 0)) (nth 6 recent 0))
                     (add32 (ssig0 (nth 14 recent 0)) (nth 15 recent 0)) in
      expand n' (w :: recent)
  end.

Definition schedule (block : list Z) : list Z :=
  rev (expand 48 (rev (words 16 block))).

Definition round (s : state) (kw : Z * Z) : state :=
  let t1 := add32 (add32 (add32 (sh s) (bsig1 (se s))) (Ch (se s) (sf s) (sg s)))
                  (add32 (fst kw) (snd kw)) in
  let t2 := add32 (bsig0 (sa s)) (Maj (sa s) (sb s) (sc s)) in
  mk_state (add32 t1 t2) (sa s) (sb s) (sc s) (add32 (sd s) t1) (se s) (sf s) (sg s).

Definition compress (s : state) (block : list Z) : state :=
  let r := fold_left round (combine K (schedule block)) s in
  mk_state (add32 (sa s) (sa r)) (add32 (sb s) (sb r)) (add32 (sc s) (sc r))
           (add32 (sd s) (sd r)) (add32 (se s) (se r)) (add32 (sf s) (sf r))
           (add32 (sg s) (sg r)) (add32 (sh s) (sh r)).

Fixpoint absorb (n : nat) (s : state) (bs : list Z) : state :=
  match n with
  | O => s
  | S n' => absorb n' (compress s (firstn 64 bs)) (skipn 64 bs)
  end.

Definition digest (msg : list Z) : state :=
  let p := pad msg in absorb (length p / 64)%nat init p.

Definition hex_alphabet : list ascii := list_ascii_of_string "0123456789abcdef".

Definition hexdigit (n : Z) : ascii :=
  nth (Z.to_nat (Z.land n 0xf)) hex_alphabet "0"%char.

Definition hex_word (x : Z) : list ascii :=
  map (fun i => hexdigit (Z.shiftr x (4 * Z.of_nat i))) (rev (seq 0 8)).

Definition hex_state (s : state) : list ascii :=
  hex_word (sa s) ++ hex_word (sb s) ++ hex_word (sc s) ++ hex_word (sd s) ++
  hex_word (se s) ++ hex_word (sf s) ++ hex_word (sg s) ++ hex_word (sh s).

Definition bytes_of_string (s : string) : list Z :=
  map (fun c => Z.of_N (N_of_ascii c)) (list_ascii_of_string s).

(** [hashlib.sha256(data).hexdigest()] *)
Definition hexdigest (s : string) : string :=
  string_of_list_ascii (hex_state (digest (bytes_of_string s))).

End Sha256.

Arguments Sha256.hexdigest : simpl never.
Arguments Sha256.digest : simpl never.

(** ** Python text helpers *)

(** [c in '0123456789abcdef'] for a one-character string [c]. *)
Definition is_hex_char (c : ascii) : bool :=
  existsb (Ascii.eqb c) Sha256.hex_alphabet.

(** [str.lower()] on ASCII text, and the case folding SQLite applies to
    identifiers: A-Z become a-z, every other byte is left alone. On a text
    with a character outside ASCII [str.lower()] can differ; the module
    lowers such a text only to test it against ASCII characters (the
    hexadecimal digits, ".csv"), and no character outside ASCII lowers to
    one of those, so the tests come out the same. *)
Definition lower_char (c : ascii) : ascii :=
  let n := nat_of_ascii c in
  if (65 <=? n)%nat && (n <=? 90)%nat then ascii_of_nat (n + 32) else c.

Definition lower (s : string) : string :=
  string_of_list_ascii (map lower_char (list_ascii_of_string s)).

(** The white space [str.strip()] removes, read off the UTF-8 bytes of
    the text. One byte: space, \t \n \v \f \r and the separators
    0x1c..0x1f. *)
Definition is_space (c : ascii) : bool :=
  let n := nat_of_ascii c in
  (n =? 32)%nat || ((9 <=? n)%nat && (n <=? 13)%nat) || ((28 <=? n)%nat && (n <=? 31)%nat).

(** Two bytes: U+0085 (C2 85) and U+00A0 (C2 A0). *)
Definition is_space2 (a b : ascii) : bool :=
  (nat_of_ascii a =? 194)%nat
  && ((nat_of_ascii b =? 133)%nat || (nat_of_ascii b =? 160)%nat).

(** Three bytes: U+1680 (E1 9A 80), U+2000..U+200A (E2 80 80..8A), U+2028,
    U+2029 and U+202F (E2 80 A8, A9, AF), U+205F (E2 81 9F) and U+3000
    (E3 80 80). With the two above these are all the characters for which
    [str.isspace()] holds. *)
Definition is_space3 (a b c : ascii) : bool :=
  let x := nat_of_ascii a in
  let y := nat_of_ascii b in
  let z := nat_of_ascii c in
  ((x =? 225)%nat && (y =? 154)%nat && (z =? 128)%nat)
  || ((x =? 226)%nat && (y =? 128)%nat
      && (((128 <=? z)%nat && (z <=? 138)%nat)
          || (z =? 168)%nat || (z =? 169)%nat || (z =? 175)%nat))
  || ((x =? 226)%nat && (y =? 129)%nat && (z =? 159)%nat)
  || ((x =? 227)%nat && (y =? 128)%nat && (z =? 128)%nat).

(** The text without the white space it starts with. With [backwards] the
    bytes come last byte first, so the bytes of a character are met in
    reverse. In UTF-8 a lead byte is never a continuation byte, so the
    bytes matched at either end of a text are whole characters. *)
Fixpoint drop_spaces (backwards : bool) (l : list ascii) : list ascii :=
  match l with
  | a :: l1 =>
      if is_space a then drop_spaces backwards l1
      else
        match l1 with
        | b :: l2 =>
            if (if backwards then is_space2 b a else is_space2 a b)
            then drop_spaces backwards l2
            else
              match l2 with
              | c :: l3 =>
                  if (if backwards then is_space3 c b a else is_space3 a b c)
                  then drop_spaces backwards l3
                  else l
              | [] => l
              end
        | [] => l
        end
  | [] => []
  end.

(** [str.lstrip()] and [str.rstrip()] on the bytes. *)
Definition lstrip (l : list ascii) : list ascii := drop_spaces false l.
Definition rstrip (l : list ascii) : list ascii := rev (drop_spaces true (rev l)).

(** [str.strip()] *)
Definition strip (s : string) : string :=
  string_of_list_ascii (rstrip (lstrip (list_ascii_of_string s))).

(** What a file opened in text mode reads for its bytes: with [newline]
    left at its default, \r\n and a lone \r are read as \n. *)
Fixpoint universal_newlines (l : list ascii) : list ascii :=
  match l with
  | c :: rest =>
      if Ascii.eqb c (ascii_of_nat 13) then
        ascii_of_nat 10 ::
        match rest with
        | d :: rest' =>
            if Ascii.eqb d (ascii_of_nat 10) then universal_newlines rest'
            else universal_newlines rest
        | [] => []
        end
      else c :: universal_newlines rest
  | [] => []
  end.

Definition text_mode (s : string) : string :=
  string_of_list_ascii (universal_newlines (list_ascii_of_string s)).

(** Truth value of a Python string: non-empty. *)
Definition truthy (s : string) : bool := negb (String.eqb s EmptyString).

(** [name in cols] for a list of column names: Python compares the names
    as they are. *)
Definition has_col (name : string) (cols : list string) : bool :=
  existsb (String.eqb name) cols.

(** Whether SQLite finds the column [name] in a table with the columns
    [cols]: it compares identifiers without regard to the case of the
    ASCII letters. *)
Definition sql_has_col (name : string) (cols : list string) : bool :=
  existsb (fun c => String.eqb (lower c) (lower name)) cols.

(** Every byte of the text is an ASCII character. *)
Definition is_ascii (s : string) : bool :=
  forallb (fun c => (nat_of_ascii c <? 128)%nat) (list_ascii_of_string s).

(** ** File paths *)

Definition CURRENT_USER_FILE : string := "data/current_user.txt".
Definition FEEDBACK_LOG_PATH : string := "data/feedback_log.csv".
Definition USERS_EXPORT_PATH : string := "data/users_export.csv".
Definition USER_ACTIVITY_PATH : string := "data/user_activity.csv".

(** ** The database file and the flat files *)

(** A row of [users]. Every column of the table is declared TEXT except
    [id]; a value is NULL ([None]) or a text, an id NULL or an integer. *)
Record user_row := mk_user {
  u_id : option Z;
  u_username : option string;
  u_password : option string;
  u_created_at : option string }.

(** A [users] table: the column names PRAGMA table_info lists, whether [id]
    was declared INTEGER PRIMARY KEY, whether [username] was declared UNIQUE,
    and the rows in rowid order. A field of a column the table lacks is not
    read: the statement that names the column raises first. *)
Record users_table := mk_users {
  ut_cols : list string;
  ut_pk : bool;
  ut_unique : bool;
  ut_rows : list user_row }.

Record feedback_row := mk_feedback {
  f_id : Z;
  f_username : string;
  f_user_id : option Z;
  f_feedback : string;
  f_feedback_at : string }.

(** The [feedback] table, declared [id INTEGER PRIMARY KEY AUTOINCREMENT]:
    its column names, its rows in rowid order, and the value SQLite keeps
    for it in [sqlite_sequence], the largest id the table has ever held
    (0 for a table that never held a row). *)
Record feedback_table := mk_feedbacks {
  ft_cols : list string;
  ft_rows : list feedback_row;
  ft_seq : Z }.

(** The state the module's functions act on. [users_seq] is what
    [sqlite_sequence] holds for [users]: [None] when the table was declared
    without AUTOINCREMENT (the table the migration leaves, or one of an
    older version), and otherwise the largest id the table has ever held,
    0 at first. The table [users_new] is the one [ensure_users_table]
    creates, without AUTOINCREMENT. [write_denied] holds the paths a write
    to which raises (missing permission, read-only directory); [clock] is
    what [datetime.datetime.now().strftime(...)] and SQLite's
    [datetime('now')] return. *)
Record world := mk_world {
  users : option users_table;
  users_new : option users_table;
  feedback : option feedback_table;
  users_seq : option Z;
  files : gmap string string;
  write_denied : gset string;
  clock : string }.

Definition set_users (t : option users_table) (w : world) : world :=
  mk_world t (users_new w) (feedback w) (users_seq w) (files w) (write_denied w) (clock w).
Definition set_users_new (t : option users_table) (w : world) : world :=
  mk_world (users w) t (feedback w) (users_seq w) (files w) (write_denied w) (clock w).
Definition set_feedback (t : option feedback_table) (w : world) : world :=
  mk_world (users w) (users_new w) t (users_seq w) (files w) (write_denied w) (clock w).
Definition set_users_seq (q : option Z) (w : world) : world :=
  mk_world (users w) (users_new w) (feedback w) q (files w) (write_denied w) (clock w).
Definition set_files (fs : gmap string string) (w : world) : world :=
  mk_world (users w) (users_new w) (feedback w) (users_seq w) fs (write_denied w) (clock w).

(** ** Python computations: state and exceptions *)

Inductive outcome (A : Type) : Type :=
| Ok (a : A)
| Raise (exn : string).
Arguments Ok {A} a.
Arguments Raise {A} exn.

Definition py (A : Type) : Type := world -> outcome A * world.

Definition ret {A} (a : A) : py A := fun w => (Ok a, w).
Definition raise {A} (exn : string) : py A := fun w => (Raise exn, w).
Definition bind {A B} (c : py A) (k : A -> py B) : py B :=
  fun w => match c w with
           | (Ok a, w') => k a w'
           | (Raise exn, w') => (Raise exn, w')
           end.

(** [try: body  except Exception as e: handler(e)] *)
Definition try_except {A} (body : py A) (handler : string -> py A) : py A :=
  fun w => match body w with
           | (Ok a, w') => (Ok a, w')
           | (Raise exn, w') => handler exn w'
           end.

(** [try: body  except Exception: pass] *)
Definition try_pass (body : py unit) : py unit :=
  try_except body (fun _ => ret tt).

Notation "'let*' x ':=' c 'in' k" := (bind c (fun x => k))
  (at level 10, x pattern, c at level 100, k at level 200).
Notation "c ';;' k" := (bind c (fun _ => k))
  (at level 100, k at level 200, right associativity).

(** [datetime.datetime.now().strftime("%Y-%m-%d %H:%M:%S")] *)
Definition now : py string := fun w => (Ok (clock w), w).

(** ** SQL statements of the module *)

Definition canonical_cols : list string := ["id"; "username"; "password"; "created_at"].

(** The first of the column names an SQL statement uses that SQLite does
    not find in the table, if any. *)
Definition missing_col (names cols : list string) : option string :=
  find (fun n => negb (sql_has_col n cols)) names.

(** [username = ?] with a text parameter: NULL equals nothing. *)
Definition username_is (name : string) (r : user_row) : bool :=
  match u_username r with
  | Some s => String.eqb s name
  | None => false
  end.

(** [id = ?]: NULL equals nothing, on either side. *)
Definition id_is (uid : option Z) (r : user_row) : bool :=
  match u_id r, uid with
  | Some a, Some b => Z.eqb a b
  | _, _ => false
  end.

(** [SELECT <selected> FROM users WHERE username=?] followed by
    [fetchone()]: the first matching row in rowid order. *)
Definition select_user (selected : list string) (name : string) : py (option user_row) :=
  fun w =>
    match users w with
    | None => (Raise "no such table: users", w)
    | Some t =>
        match missing_col (selected ++ ["username"]) (ut_cols t) with
        | Some c => (Raise ("no such column: " ++ c), w)
        | None => (Ok (find (username_is name) (ut_rows t)), w)
        end
    end.

(** The largest id of the rows, if any has one. *)
Definition largest_id (rows : list user_row) : option Z :=
  fold_right (fun r m => match u_id r, m with
                         | Some i, Some j => Some (Z.max i j)
                         | Some i, None => Some i
                         | None, _ => m
                         end) None rows.

(** The largest rowid, 2^63-1. *)
Definition max_rowid : Z := 9223372036854775807.

(** The rowid SQLite gives a row inserted without one into a table whose
    [id] is the INTEGER PRIMARY KEY, declared without AUTOINCREMENT: one
    more than the largest in the table, 1 in an empty table. (Once the
    largest id is 2^63-1 SQLite tries ids drawn at random instead; see
    [users_full] for the INSERT of [signup]. The copy of the migration
    takes [next_rowid] as it is: what is stated of the migrated table
    does not depend on the ids given.) *)
Definition next_rowid (rows : list user_row) : Z :=
  match largest_id rows with
  | Some m => m + 1
  | None => 1
  end.

(** The rowid an AUTOINCREMENT table gives: the larger of that and of one
    more than the sequence. SQLite refuses the insert when the sequence,
    or the largest id in the table, is the largest rowid. *)
Definition next_autoincrement (rows : list user_row) (seq : Z) : Z :=
  Z.max (next_rowid rows) (seq + 1).

Definition rowid_exhausted (rows : list user_row) : bool :=
  match largest_id rows with
  | Some m => (max_rowid <=? m)%Z
  | None => false
  end.

Definition sequence_full (rows : list user_row) (seq : Z) : bool :=
  (max_rowid <=? seq)%Z || rowid_exhausted rows.

(** The id a row inserted without one gets in a table whose sequence is
    [seq]: none when [id] is not the INTEGER PRIMARY KEY. *)
Definition new_user_id (t : users_table) (seq : option Z) : option Z :=
  if ut_pk t
  then Some match seq with
            | Some q => next_autoincrement (ut_rows t) q
            | None => next_rowid (ut_rows t)
            end
  else None.

(** The INSERT fails with SQLITE_FULL: in an AUTOINCREMENT table when the
    sequence or the largest id is 2^63-1. In a table without
    AUTOINCREMENT whose largest id is 2^63-1 SQLite tries ids drawn at
    random and fails when it finds none unused; the embedding has no
    source of random numbers and takes the failure, so that what is
    stated of an insert that went through leaves that case out. *)
Definition users_full (t : users_table) (seq : option Z) : bool :=
  ut_pk t && match seq with
             | Some q => sequence_full (ut_rows t) q
             | None => rowid_exhausted (ut_rows t)
             end.

(** The sequence after the insert: an AUTOINCREMENT table records the id
    it gave. *)
Definition new_users_seq (t : users_table) (seq : option Z) : option Z :=
  match seq with
  | Some q => if ut_pk t then new_user_id t seq else seq
  | None => None
  end.

(** [INSERT INTO users (username, password, created_at) VALUES (?,?,?)]
    and the commit. The rowid is chosen before the UNIQUE constraint is
    checked. *)
Definition insert_user (name pw created : string) : py unit :=
  fun w =>
    match users w with
    | None => (Raise "no such table: users", w)
    | Some t =>
        match missing_col ["username"; "password"; "created_at"] (ut_cols t) with
        | Some c => (Raise ("table users has no column named " ++ c), w)
        | None =>
            if users_full t (users_seq w)
            then (Raise "database or disk is full", w)
            else if ut_unique t && existsb (username_is name) (ut_rows t)
            then (Raise "UNIQUE constraint failed: users.username", w)
            else
              let r := mk_user (new_user_id t (users_seq w))
                               (Some name) (Some pw) (Some created) in
              (Ok tt, set_users_seq (new_users_seq t (users_seq w))
                        (set_users (Some (mk_users (ut_cols t) (ut_pk t) (ut_unique t)
                                                   (ut_rows t ++ [r]))) w))
        end
    end.

Definition set_password (pw : string) (r : user_row) : user_row :=
  mk_user (u_id r) (u_username r) (Some pw) (u_created_at r).

(** The table [UPDATE users SET password=? WHERE id=?] leaves. *)
Definition with_password (pw : string) (uid : option Z) (t : users_table) : users_table :=
  mk_users (ut_cols t) (ut_pk t) (ut_unique t)
           (map (fun r => if id_is uid r then set_password pw r else r) (ut_rows t)).

(** [UPDATE users SET password=? WHERE id=?] and the commit. *)
Definition update_password (pw : string) (uid : option Z) : py unit :=
  fun w =>
    match users w with
    | None => (Raise "no such table: users", w)
    | Some t =>
        match missing_col ["password"; "id"] (ut_cols t) with
        | Some c => (Raise ("no such column: " ++ c), w)
        | None =>
            (Ok tt, set_users (Some (with_password pw uid t)) w)
        end
    end.

(** [PRAGMA table_info(feedback)]: no row for a table that does not exist. *)
Definition feedback_columns : py (list string) :=
  fun w => (Ok (match feedback w with Some t => ft_cols t | None => [] end), w).

(** The largest id SQLite will not give again: the larger of the sequence
    and the ids in the table. *)
Definition largest_feedback_id (t : feedback_table) : Z :=
  fold_right (fun r m => Z.max (f_id r) m) (ft_seq t) (ft_rows t).

(** The id AUTOINCREMENT gives the next row: one more than the largest
    id in the table, 1 in an empty table, and at least one more than the
    sequence. *)
Definition next_feedback_id (t : feedback_table) : Z :=
  match ft_rows t with
  | [] => Z.max 1 (1 + ft_seq t)
  | _ :: _ => 1 + largest_feedback_id t
  end.

(** [INSERT INTO feedback (<named>) VALUES (...)] and the commit; a column
    the statement does not name is NULL. The id is one more than the
    largest the table ever held, which the sequence then records; when
    that was the largest rowid, SQLite refuses the insert. *)
Definition insert_feedback (named : list string) (name : string) (uid : option Z)
    (text ts : string) : py unit :=
  fun w =>
    match feedback w with
    | None => (Raise "no such table: feedback", w)
    | Some t =>
        match missing_col named (ft_cols t) with
        | Some c => (Raise ("table feedback has no column named " ++ c), w)
        | None =>
            if (max_rowid <=? largest_feedback_id t)%Z
            then (Raise "database or disk is full", w)
            else
              let r := mk_feedback (next_feedback_id t) name uid text ts in
              (Ok tt, set_feedback
                        (Some (mk_feedbacks (ft_cols t) (ft_rows t ++ [r])
                                            (next_feedback_id t))) w)
        end
    end.

(** ** Flat files *)

(** [DataFrame.to_csv] writes through [csv.writer] with QUOTE_MINIMAL,
    the comma as delimiter, the double quote as quote character and the
    line feed as line terminator. A field is quoted when it holds the
    delimiter, the quote character or a character of the line terminator;
    a quote inside a quoted field is doubled. (From Python 3.13 on the
    writer quotes a field with a carriage return as well; the statements
    below that name the content of a file leave such fields out.) *)
Definition double_quote : ascii := ascii_of_nat 34.
Definition line_feed : ascii := ascii_of_nat 10.
Definition carriage_return : ascii := ascii_of_nat 13.

Definition needs_quotes (s : string) : bool :=
  existsb (fun c => Ascii.eqb c "," || Ascii.eqb c double_quote || Ascii.eqb c line_feed)
          (list_ascii_of_string s).

Fixpoint doubled_quotes (l : list ascii) : list ascii :=
  match l with
  | c :: rest =>
      if Ascii.eqb c double_quote then c :: c :: doubled_quotes rest
      else c :: doubled_quotes rest
  | [] => []
  end.

Definition csv_field (s : string) : string :=
  if needs_quotes s
  then string_of_list_ascii
         (double_quote :: doubled_quotes (list_ascii_of_string s) ++ [double_quote])
  else s.

(** One line of [DataFrame.to_csv(index=False)]. A row made of one empty
    field is written as a pair of quotes. *)
Definition csv_line (fields : list string) : string :=
  (match fields with
   | [EmptyString] => string_of_list_ascii [double_quote; double_quote]
   | _ => String.concat "," (map csv_field fields)
   end ++ String line_feed EmptyString)%string.

(** The text holds no carriage return. *)
Definition no_carriage_return (s : string) : bool :=
  forallb (fun c => negb (Ascii.eqb c carriage_return)) (list_ascii_of_string s).

(** The mirror idiom of the module:
    [os.makedirs(dirname, exist_ok=True)], then [to_csv] with the header
    when the file is new and [mode='a', header=False] otherwise. *)
Definition csv_append (path : string) (header row : list string) : py unit :=
  fun w =>
    if bool_decide (path ∈ write_denied w)
    then (Raise "[Errno 13] Permission denied", w)
    else
      match files w !! path with
      | None => (Ok tt, set_files (<[path := (csv_line header ++ csv_line row)%string]> (files w)) w)
      | Some old => (Ok tt, set_files (<[path := (old ++ csv_line row)%string]> (files w)) w)
      end.

(** [os.path.exists(path)] *)
Definition path_exists (path : string) : py bool :=
  fun w => (Ok (bool_decide (is_Some (files w !! path))), w).

(** [open(path, "r").read()] *)
Definition read_text (path : string) : py string :=
  fun w =>
    match files w !! path with
    | Some s => (Ok (text_mode s), w)
    | None => (Raise "[Errno 2] No such file or directory", w)
    end.

(** ** Credential store *)

(** [hash_password] *)
Definition hash_password (password : string) : string :=
  Sha256.hexdigest password.

(** [verify_password] *)
Definition verify_password (password hashed : string) : bool :=
  String.eqb (Sha256.hexdigest password) hashed.

Arguments hash_password : simpl never.
Arguments verify_password : simpl never.

(** The test of [check_credentials] on the stored value:
    [stored and isinstance(stored, str) and len(stored) == 64 and
     all(c in '0123456789abcdef' for c in stored.lower())]. *)
Definition looks_like_sha256 (stored : option string) : bool :=
  match stored with
  | None => false
  | Some s =>
      truthy s && (String.length s =? 64)%nat &&
      forallb is_hex_char (list_ascii_of_string (lower s))
  end.

(** [signup] *)
Definition signup (username password : string) : py (bool * string) :=
  try_except
    (let* found := select_user ["id"] username in
     match found with
     | Some _ => ret (false, "Username already exists")
     | None =>
         let* created_at := now in
         let hashed := hash_password password in
         insert_user username hashed created_at ;;
         try_pass (csv_append USERS_EXPORT_PATH
                     ["username"; "created_at"; "password"]
                     [username; created_at; hashed]) ;;
         ret (true, "Account created")
     end)
    (fun e => ret (false, e)).

(** The local [log_login] of [check_credentials]. *)
Definition log_login (u : string) : py unit :=
  try_pass (let* ts := now in
            csv_append USER_ACTIVITY_PATH ["username"; "event"; "at"] [u; "login"; ts]).

(** [check_credentials] *)
Definition check_credentials (username password : string) : py bool :=
  let* row := select_user ["id"; "password"] username in
  match row with
  | None => ret false
  | Some r =>
      let user_id := u_id r in
      let stored := u_password r in
      if looks_like_sha256 stored then
        let ok := verify_password password (default EmptyString stored) in
        (if ok then log_login username else ret tt) ;;
        ret ok
      else if bool_decide (stored = Some password) then
        try_pass (let hashed := hash_password password in
                  update_password hashed user_id) ;;
        log_login username ;;
        ret true
      else ret false
  end.

(** ** Session marker *)

(** The dict [{"id": ..., "username": ...}] that [current_user] returns. *)
Record identity := mk_identity {
  ident_id : option Z;
  ident_username : option string }.

(** The username [current_user] looks up for a marker file with the bytes
    [content]: the text read, stripped. *)
Definition marker_name (content : string) : string := strip (text_mode content).

(** [current_user] *)
Definition current_user : py (option identity) :=
  let* present := path_exists CURRENT_USER_FILE in
  if present then
    let* content := read_text CURRENT_USER_FILE in
    let username := strip content in
    if truthy username then
      let* row := select_user ["id"; "username"] username in
      match row with
      | Some r => ret (Some (mk_identity (u_id r) (u_username r)))
      | None => ret None
      end
    else ret None
  else ret None.

(** [set_current_user] *)
Definition set_current_user (username : string) : py unit :=
  fun w =>
    if bool_decide (CURRENT_USER_FILE ∈ write_denied w)
    then (Raise "[Errno 13] Permission denied", w)
    else (Ok tt, set_files (<[CURRENT_USER_FILE := username]> (files w)) w).

(** [clear_current_user] *)
Definition clear_current_user : py unit :=
  let* present := path_exists CURRENT_USER_FILE in
  if present then
    fun w =>
      if bool_decide (CURRENT_USER_FILE ∈ write_denied w)
      then (Raise "[Errno 13] Permission denied", w)
      else (Ok tt, set_files (delete CURRENT_USER_FILE (files w)) w)
  else ret tt.

(** ** Feedback store *)

(** Lines 100-106 of [save_feedback]: the id of the user the feedback is
    linked to, NULL for an empty or unknown username. *)
Definition resolve_user_id (username : string) : py (option Z) :=
  if truthy username then
    let* r := select_user ["id"] username in
    ret (match r with Some row => u_id row | None => None end)
  else ret None.

(** Lines 108-122: the insert, with the [user_id] column when the table has
    it, and the commit. *)
Definition store_feedback (username : string) (user_id : option Z)
    (feedback_text ts : string) : py unit :=
  let* cols := feedback_columns in
  if has_col "user_id" cols then
    insert_feedback ["username"; "user_id"; "feedback"; "feedback_at"]
                    username user_id feedback_text ts
  else
    insert_feedback ["username"; "feedback"; "feedback_at"]
                    username None feedback_text ts.

(** [save_feedback] *)
Definition save_feedback (username feedback_text : string) : py (bool * string) :=
  try_except
    (let* ts := now in
     let* user_id := resolve_user_id username in
     store_feedback username user_id feedback_text ts ;;
     try_pass (csv_append FEEDBACK_LOG_PATH
                 ["username"; "feedback"; "feedback_at"]
                 [username; feedback_text; ts]) ;;
     ret (true, "Saved"))
    (fun e => ret (false, e)).

(** ** Schema of the users table *)

(** [set(cols) == needed] *)
Definition same_set (a b : list string) : bool :=
  forallb (fun x => has_col x b) a && forallb (fun x => has_col x a) b.

(** [SELECT name FROM sqlite_master WHERE type='table' AND name='users'] *)
Definition users_exists : py bool :=
  fun w => (Ok (match users w with Some _ => true | None => false end), w).

(** [CREATE TABLE users (id INTEGER PRIMARY KEY AUTOINCREMENT,
     username TEXT UNIQUE, password TEXT, created_at TEXT)] *)
Definition create_users : py unit :=
  fun w =>
    match users w with
    | Some _ => (Raise "table users already exists", w)
    | None => (Ok tt, set_users_seq (Some 0%Z)
                        (set_users (Some (mk_users canonical_cols true true [])) w))
    end.

(** [PRAGMA table_info(users)], the names *)
Definition users_columns : py (list string) :=
  fun w => (Ok (match users w with Some t => ut_cols t | None => [] end), w).

(** [CREATE TABLE IF NOT EXISTS users_new (id INTEGER PRIMARY KEY,
     username TEXT UNIQUE, password TEXT, created_at TEXT)] *)
Definition create_users_new : py unit :=
  fun w =>
    match users_new w with
    | Some _ => (Ok tt, w)
    | None => (Ok tt, set_users_new (Some (mk_users canonical_cols true true [])) w)
    end.

(** [COALESCE(v, d)] *)
Definition coalesce (v : option string) (d : string) : option string :=
  match v with
  | Some s => Some s
  | None => Some d
  end.

(** One row of the SELECT that feeds the copy: [id] when the legacy table
    has the column, [COALESCE(username,'')], [COALESCE(password,'')], and
    [COALESCE(created_at, datetime('now'))] or [datetime('now')]. *)
Definition selected_row (with_id with_created : bool) (ts : string) (r : user_row) : user_row :=
  mk_user (if with_id then u_id r else None)
          (coalesce (u_username r) EmptyString)
          (coalesce (u_password r) EmptyString)
          (if with_created then coalesce (u_created_at r) ts else Some ts).

(** [username = v] between two column values. *)
Definition same_username (v : option string) (r : user_row) : bool :=
  match v with
  | Some n => username_is n r
  | None => false
  end.

(** The row INSERT OR IGNORE would store in [users_new], a table without
    AUTOINCREMENT: the given one, with the next rowid for a NULL primary
    key. *)
Definition keyed_row (t : users_table) (r : user_row) : user_row :=
  if ut_pk t
  then match u_id r with
       | Some _ => r
       | None => mk_user (Some (next_rowid (ut_rows t)))
                         (u_username r) (u_password r) (u_created_at r)
       end
  else r.

(** INSERT OR IGNORE of one row: a row that would break the primary key
    or the UNIQUE constraint is skipped. *)
Definition insert_or_ignore (t : users_table) (r : user_row) : users_table :=
  let r' := keyed_row t r in
  if (ut_pk t && existsb (id_is (u_id r')) (ut_rows t))
     || (ut_unique t && existsb (same_username (u_username r')) (ut_rows t))
  then t
  else mk_users (ut_cols t) (ut_pk t) (ut_unique t) (ut_rows t ++ [r']).

(** [INSERT OR IGNORE INTO users_new (...) SELECT ... FROM users] and the
    commit. *)
Definition copy_users (with_id with_created : bool) : py unit :=
  fun w =>
    match users w, users_new w with
    | None, _ => (Raise "no such table: users", w)
    | _, None => (Raise "no such table: users_new", w)
    | Some t, Some n =>
        match missing_col ((if with_id then ["id"] else []) ++ ["username"; "password"]
                           ++ (if with_created then ["created_at"] else []))
                          (ut_cols t) with
        | Some c => (Raise ("no such column: " ++ c), w)
        | None =>
            match missing_col ((if with_id then ["id"] else [])
                               ++ ["username"; "password"; "created_at"]) (ut_cols n) with
            | Some c => (Raise ("table users_new has no column named " ++ c), w)
            | None =>
                (Ok tt,
                 set_users_new
                   (Some (fold_left insert_or_ignore
                            (map (selected_row with_id with_created (clock w)) (ut_rows t)) n))
                   w)
            end
        end
    end.

(** [DROP TABLE users], which takes the table's sequence with it. *)
Definition drop_users : py unit :=
  fun w =>
    match users w with
    | None => (Raise "no such table: users", w)
    | Some _ => (Ok tt, set_users_seq None (set_users None w))
    end.

(** [ALTER TABLE users_new RENAME TO users] and the commit. *)
Definition rename_users_new : py unit :=
  fun w =>
    match users_new w, users w with
    | None, _ => (Raise "no such table: users_new", w)
    | Some _, Some _ => (Raise "there is already another table or index with this name: users", w)
    | Some n, None => (Ok tt, set_users_seq None (set_users_new None (set_users (Some n) w)))
    end.

(** [ensure_users_table] *)
Definition ensure_users_table : py unit :=
  let* present := users_exists in
  if negb present then create_users
  else
    let* cols := users_columns in
    if same_set cols canonical_cols
       || (has_col "username" cols && has_col "password" cols && has_col "created_at" cols)
    then ret tt
    else
      create_users_new ;;
      copy_users (has_col "id" cols) (has_col "created_at" cols) ;;
      drop_users ;;
      rename_users_new.

(** ** Data Analysis page *)

Module Analysis.

(** A cell of an uploaded table. *)
Inductive cell :=
| CStr (s : string)
| CInt (n : Z)
| CBool (b : bool)
| CNaN.

(** A DataFrame: the column labels and the rows, both in order. *)
Record dataframe := mk_df {
  df_columns : list string;
  df_rows : list (list cell) }.

(** [len(df)] *)
Definition len (df : dataframe) : Z := Z.of_nat (length (df_rows df)).

(** [Series.astype(str)] on one cell. *)
Definition astype_str (c : cell) : string :=
  match c with
  | CStr s => s
  | CInt n => NilZero.string_of_int (Z.to_int n)
  | CBool true => "True"
  | CBool false => "False"
  | CNaN => "nan"
  end.

(** The cell of a row in the column at position [j] of [df.columns]. *)
Definition cell_at (j : nat) (row : list cell) : cell := nth j row CNaN.

(** *** [Series.str.contains(pat, case=False, na=False)]

    pandas compiles [pat] as a regular expression ([regex=True] is the
    default) with [re.IGNORECASE] and keeps the rows where [re.search]
    finds a match. The embedding covers ASCII text, where a byte is a
    character and the case folding of [re] is that of the letters A-Z,
    and the patterns made of ordinary characters and of [.]; for a
    pattern with another metacharacter [compile] gives [None], for a
    pattern or a text with a character outside ASCII [str_contains] gives
    [None], and the embedding says nothing. *)

Inductive atom :=
| Lit (c : ascii)
| Dot.

Definition regex_meta : list ascii := list_ascii_of_string ".^$*+?{}[]\|()".

Definition is_meta (c : ascii) : bool := existsb (Ascii.eqb c) regex_meta.

Fixpoint compile (pat : list ascii) : option (list atom) :=
  match pat with
  | [] => Some []
  | c :: rest =>
      match compile rest with
      | None => None
      | Some atoms =>
          if Ascii.eqb c "."%char then Some (Dot :: atoms)
          else if is_meta c then None
          else Some (Lit c :: atoms)
      end
  end.

Definition newline : ascii := ascii_of_nat 10.

(** One atom against one ASCII character, ignoring case; [.] is any
    character but a newline. *)
Definition atom_matches (a : atom) (c : ascii) : bool :=
  match a with
  | Lit x => Ascii.eqb (lower_char x) (lower_char c)
  | Dot => negb (Ascii.eqb c newline)
  end.

(** [re.match]: the atoms against a prefix of the text. *)
Fixpoint match_here (atoms : list atom) (text : list ascii) : bool :=
  match atoms, text with
  | [], _ => true
  | _ :: _, [] => false
  | a :: atoms', c :: text' => atom_matches a c && match_here atoms' text'
  end.

(** [re.search]: a match starting anywhere. *)
Fixpoint search (atoms : list atom) (text : list ascii) : bool :=
  match_here atoms text ||
  match text with
  | [] => false
  | _ :: text' => search atoms text'
  end.

Definition str_contains (pat text : string) : option bool :=
  if is_ascii pat && is_ascii text then
    match compile (list_ascii_of_string pat) with
    | Some atoms => Some (search atoms (list_ascii_of_string text))
    | None => None
    end
  else None.

(** Boolean-mask indexing [df[mask]]. *)
Fixpoint mask_rows (rows : list (list cell)) (mask : list bool) : list (list cell) :=
  match rows, mask with
  | r :: rows', b :: mask' => if b then r :: mask_rows rows' mask' else mask_rows rows' mask'
  | _, _ => []
  end.

(** The mask [df[search_col].astype(str).str.contains(search_val, ...)]. *)
Fixpoint contains_mask (pat : string) (texts : list string) : option (list bool) :=
  match texts with
  | [] => Some []
  | t :: texts' =>
      match str_contains pat t, contains_mask pat texts' with
      | Some b, Some bs => Some (b :: bs)
      | _, _ => None
      end
  end.

(** Lines 461-463 of [page_analysis]: [filtered_df]. [search_col] is the
    position in [df.columns] of the column picked in the select box. *)
Definition search_filter (df : dataframe) (search_col : nat) (search_val : string)
    : option dataframe :=
  let filtered_df := df in
  if truthy search_val then
    match contains_mask search_val (map (fun r => astype_str (cell_at search_col r)) (df_rows df)) with
    | Some mask => Some (mk_df (df_columns filtered_df) (mask_rows (df_rows filtered_df) mask))
    | None => None
    end
  else Some filtered_df.

(** A bound of a Python slice, brought into [0, len]. *)
Definition slice_index (n i : Z) : Z :=
  if (i <? 0)%Z then Z.max 0 (i + n) else Z.min i n.

(** [l[start:stop]] *)
Definition slice {A} (l : list A) (start stop : Z) : list A :=
  let n := Z.of_nat (length l) in
  let a := slice_index n start in
  let b := slice_index n stop in
  firstn (Z.to_nat (b - a)) (skipn (Z.to_nat a) l).

(** [df.iloc[start:stop]] *)
Definition iloc (df : dataframe) (start stop : Z) : dataframe :=
  mk_df (df_columns df) (slice (df_rows df) start stop).

(** [df[display_columns]], the columns given by position. *)
Definition take_columns (df : dataframe) (display_columns : list nat) : dataframe :=
  mk_df (map (fun j => nth j (df_columns df) EmptyString) display_columns)
        (map (fun r => map (fun j => cell_at j r) display_columns) (df_rows df)).

(** What lines 466-515 of [page_analysis] put on the page and in the
    session. *)
Record view := mk_view {
  v_range : Z * Z;                   (* data_min, data_max *)
  v_slider : bool;                   (* the start-row slider is drawn *)
  v_window : dataframe;              (* filtered_range_df *)
  v_displayed : dataframe;           (* the frame given to st.dataframe *)
  v_result : option dataframe;       (* session_state['analysis_result_df'] *)
  v_info : option string }.

(** Lines 466-515. [rows] is the value of the number input, [data_from]
    the value the slider returns when it is drawn, [display_columns] the
    positions picked in the multiselect; [previous] is the analysis result
    already in the session. *)
Definition select_range (filtered_df : dataframe) (rows data_from : Z)
    (display_columns : list nat) (previous : option dataframe) : view :=
  let data_min := 0%Z in
  let data_max := Z.max 0 (len filtered_df - rows) in
  if (data_max >? 0)%Z then
    let data_to := (data_from + rows)%Z in
    let filtered_range_df := iloc filtered_df data_from data_to in
    let shown := take_columns filtered_range_df display_columns in
    mk_view (data_min, data_max) true filtered_range_df shown (Some shown) None
  else
    let filtered_range_df := iloc filtered_df 0 0 in
    mk_view (data_min, data_max) false filtered_range_df filtered_range_df previous
            (Some "No data to display for the selected filters."%string).

(** The rows of the window for a start row. *)
Definition shown_window (filtered_df : dataframe) (rows data_from : Z)
    (display_columns : list nat) (previous : option dataframe) : list (list cell) :=
  df_rows (v_window (select_range filtered_df rows data_from display_columns previous)).

(** [page_analysis] from the search filter on: the view for the values the
    widgets returned, or [None] for a search value the embedding does not
    cover. *)
Definition page_analysis (df : dataframe) (rows : Z) (search_col : nat) (search_val : string)
    (data_from : Z) (display_columns : list nat) (previous : option dataframe) : option view :=
  match search_filter df search_col search_val with
  | Some filtered_df => Some (select_range filtered_df rows data_from display_columns previous)
  | None => None
  end.

(** *** The filter as the specification words it

    "every value in the search column (coerced to text, case-insensitive)
    contains the substring": both texts lowered, then a plain substring
    test. It is compared with the code on ASCII text, where [lower] is
    [str.lower()]. *)





(** *** Sample tables *)

(** Five rows, two columns. *)
Definition five_rows : dataframe :=
  mk_df ["name"; "qty"]%string
        [[CStr "ant"; CInt 1]; [CStr "bee"; CInt 2]; [CStr "cat"; CInt 3];
         [CStr "dog"; CInt 4]; [CStr "eel"; CInt 5]].

(** Twelve rows, one column: the numbers 0 to 11. *)
Definition twelve_rows : dataframe :=
  mk_df ["n"]%string (map (fun i => [CInt (Z.of_nat i)]) (seq 0 12)).

(** Three rows, two columns. *)
Definition three_rows : dataframe :=
  mk_df ["k"; "v"]%string [[CStr "a"; CInt 10]; [CStr "b"; CInt 20]; [CStr "c"; CInt 30]].

(** A column of version labels. *)
Definition versions : dataframe :=
  mk_df ["version"]%string [[CStr "1.5"]; [CStr "125"]; [CStr "2.0"]].

End Analysis.

(** ** Charts page *)

Module Charts.

Inductive chart_type :=
| Bar | Line | Pie | Scatter | Histogram | Box | Area | Violin
| DensityHeatmap | Funnel | Sunburst | Treemap | Heatmap.

(** [plot_kwargs] *)
Record plot_kwargs := mk_kwargs {
  kw_names : option string;
  kw_values : option string;
  kw_x : option string;
  kw_y : option string;
  kw_color : option string }.

(** A call into plotly.express. *)
Inductive px_call :=
| px_bar (kw : plot_kwargs)
| px_line (kw : plot_kwargs)
| px_pie (kw : plot_kwargs)
| px_scatter (kw : plot_kwargs)
| px_histogram (kw : plot_kwargs)
| px_box (kw : plot_kwargs)
| px_area (kw : plot_kwargs)
| px_violin (kw : plot_kwargs)
| px_density_heatmap (x y : string)
| px_funnel (kw : plot_kwargs)
| px_sunburst (path : list string)
| px_treemap (path : list string).

Inductive notice :=
| st_success (msg : string)
| st_error (msg : string).

(** Truth value of a select-box choice: [None] and the empty label are false. *)
Definition chosen (col : option string) : bool :=
  match col with
  | Some c => truthy c
  | None => false
  end.

Section Builder.

(** The figure type of plotly and plotly.express itself, which returns a
    figure or raises on columns it cannot plot. *)
Variable figure : Type.
Variable px : px_call -> Analysis.dataframe -> outcome figure.

(** The part of [st.session_state] the chart builder writes. *)
Record session := mk_session {
  last_chart : option figure;
  last_chart_created : bool }.

(** Lines 556-566: [plot_kwargs]. *)
Definition build_kwargs (kind : chart_type) (x_col : string) (y_col color_col : option string)
    : plot_kwargs :=
  match kind with
  | Pie => mk_kwargs (Some x_col) (if chosen y_col then y_col else None) None None None
  | _ => mk_kwargs None None (Some x_col)
                   (if chosen y_col then y_col else None)
                   (if chosen color_col then color_col else None)
  end.

(** The dispatch of lines 570-603: the plotly call to make, or the
    validation message. *)
Definition dispatch (kind : chart_type) (x_col : string) (y_col : option string)
    (kw : plot_kwargs) : px_call + string :=
  match kind with
  | Bar => inl (px_bar kw)
  | Line => inl (px_line kw)
  | Pie => inl (px_pie kw)
  | Scatter => inl (px_scatter kw)
  | Histogram => inl (px_histogram kw)
  | Box => inl (px_box kw)
  | Area => inl (px_area kw)
  | Violin => inl (px_violin kw)
  | DensityHeatmap =>
      if chosen y_col then inl (px_density_heatmap x_col (default EmptyString y_col))
      else inr "Density Heatmap requires both X and Y numeric columns"%string
  | Funnel => inl (px_funnel kw)
  | Sunburst => inl (px_sunburst [x_col])
  | Treemap => inl (px_treemap [x_col])
  | Heatmap =>
      if chosen y_col then inl (px_density_heatmap x_col (default EmptyString y_col))
      else inr "Heatmap requires both X and Y columns"%string
  end.

(** Lines 568-612: the body run when "Create Chart" is pressed. It returns
    the session and the messages shown. *)
Definition create_chart (df : Analysis.dataframe) (kind : chart_type) (x_col : string)
    (y_col color_col : option string) (s : session) : session * list notice :=
  let kw := build_kwargs kind x_col y_col color_col in
  match dispatch kind x_col y_col kw with
  | inr msg => (s, [st_error msg])
  | inl call =>
      match px call df with
      | Ok fig => (mk_session (Some fig) true, [st_success "Chart created"])
      | Raise e => (s, [st_error ("Chart creation failed: " ++ e)])
      end
  end.

End Builder.

End Charts.

(** ** Observations on the store *)

(** The value in the password column of the row [check_credentials] reads
    for [u]. *)
Definition stored_password (u : string) (w : world) : option (option string) :=
  match users w with
  | Some t => option_map u_password (find (username_is u) (ut_rows t))
  | None => None
  end.

(** The number of rows of the users table with username [u]. *)
Definition count_username (u : string) (w : world) : nat :=
  match users w with
  | Some t => length (List.filter (username_is u) (ut_rows t))
  | None => O
  end.

(** What SQLite maintains for the declared constraints: an INTEGER PRIMARY
    KEY is never NULL and never repeated, a UNIQUE column never repeats a
    value that is not NULL. *)
Definition keys_ok (t : users_table) : Prop :=
  (ut_pk t = true ->
     Forall (fun r => u_id r <> None) (ut_rows t) /\ NoDup (map u_id (ut_rows t)))
  /\ (ut_unique t = true -> NoDup (omap u_username (ut_rows t))).

(** The schema both CREATE TABLE statements of [ensure_users_table] give. *)
Definition canonical (t : users_table) : Prop :=
  ut_cols t = canonical_cols /\ ut_pk t = true /\ ut_unique t = true /\ keys_ok t.

(** [n] calls of [check_credentials u p] in a row: the values returned,
    first call first, and the world left. *)
Fixpoint logins (n : nat) (u p : string) (w : world) : list (outcome bool) * world :=
  match n with
  | O => ([], w)
  | S n' =>
      let (res, w1) := check_credentials u p w in
      let (rest, w2) := logins n' u p w1 in
      (res :: rest, w2)
  end.

(** Two worlds with the same database and clock; the files and the
    permissions on them may differ. *)
Definition same_db (w w' : world) : Prop :=
  users w = users w' /\ users_new w = users_new w'
  /\ feedback w = feedback w' /\ users_seq w = users_seq w' /\ clock w = clock w'.

(** A computation whose value and whose effect on the database do not
    depend on the files. *)
Definition db_only {A} (c : py A) : Prop :=
  forall w w', same_db w w' ->
    fst (c w) = fst (c w') /\ same_db (snd (c w)) (snd (c w')).

(** The usernames of a table, NULLs left out. *)
Definition usernames (t : users_table) : list string := omap u_username (ut_rows t).



(** ** Sample states *)

(** The database right after the first start-up: an empty [users] table with
    the schema [ensure_users_table] creates, an empty [feedback] table with
    the [user_id] column, no flat file yet. *)
Definition started_world : world :=
  mk_world (Some (mk_users canonical_cols true true []))
           None
           (Some (mk_feedbacks ["id"; "username"; "feedback"; "feedback_at"; "user_id"] [] 0))
           (Some 0%Z) ∅ ∅ "2025-07-01 09:30:00".

(** The same, on a data directory in which none of the three mirror files
    can be written. *)
Definition mirrorless_world : world :=
  mk_world (users started_world) None (feedback started_world) (users_seq started_world) ∅
           {[USERS_EXPORT_PATH; FEEDBACK_LOG_PATH; USER_ACTIVITY_PATH]}
           (clock started_world).

(** A users table that came with passwords in clear: "bob" has the
    password "hunter2", "carol" a password of 64 hexadecimal digits. *)
Definition hex64 : string :=
  "0000000000000000000000000000000000000000000000000000000000000000".

Definition bob_row : user_row :=
  mk_user (Some 1%Z) (Some "bob") (Some "hunter2") (Some "2024-01-05 10:00:00").

Definition carol_row : user_row :=
  mk_user (Some 2%Z) (Some "carol") (Some hex64) (Some "2024-01-06 11:00:00").

Definition legacy_users : users_table :=
  mk_users canonical_cols true true [bob_row; carol_row].

Definition legacy_world : world :=
  mk_world (Some legacy_users)
           None
           (Some (mk_feedbacks ["id"; "username"; "feedback"; "feedback_at"; "user_id"] [] 0))
           (Some 2%Z) ∅ ∅ "2025-07-01 09:30:00".

(** [legacy_world] with a session marker for "bob" (written with a
    trailing newline), and with a marker left behind for "zed", who has no
    row. *)
Definition logged_in_world : world :=
  set_files {[CURRENT_USER_FILE := String.append "bob" (String (ascii_of_nat 10) EmptyString)]} legacy_world.

Definition stale_world : world :=
  set_files {[CURRENT_USER_FILE := "zed"%string]} legacy_world.

(** A users table of the first version of the app: two columns, no
    constraint, "bob" entered twice. *)
Definition first_version_users : users_table :=
  mk_users ["username"; "password"] false false
           [mk_user None (Some "bob") (Some "pw1") None;
            mk_user None (Some "amy") (Some "pw2") None;
            mk_user None (Some "bob") (Some "pw3") None].

Definition first_version_world : world :=
  mk_world (Some first_version_users) None None None ∅ ∅ "2025-07-01 09:30:00".

(** A users table with the three columns the start-up check asks for,
    created without UNIQUE, "bob" entered twice. *)
Definition unconstrained_users : users_table :=
  mk_users ["username"; "password"; "created_at"] false false
           [mk_user None (Some "bob") (Some "pw1") (Some "2024-01-05 10:00:00");
            mk_user None (Some "bob") (Some "pw3") (Some "2024-02-11 08:15:00")].

Definition unconstrained_world : world :=
  mk_world (Some unconstrained_users) None None None ∅ ∅ "2025-07-01 09:30:00".

(** A users table of an older version with an [id] column that is no key:
    "bob" and "amy" both carry the id 1. *)
Definition repeated_id_users : users_table :=
  mk_users ["id"; "username"; "password"] false false
           [mk_user (Some 1%Z) (Some "bob") (Some "pw1") None;
            mk_user (Some 1%Z) (Some "amy") (Some "pw2") None].

Definition repeated_id_world : world :=
  mk_world (Some repeated_id_users) None None None ∅ ∅ "2025-07-01 09:30:00".

(** A users table with the four columns, created without PRIMARY KEY and
    without UNIQUE, in which two rows carry the id 1: "bob", with the
    password "hunter2" in clear, and "carol". *)
Definition shared_id_users : users_table :=
  mk_users ["id"; "username"; "password"; "created_at"] false false
           [mk_user (Some 1%Z) (Some "bob") (Some "hunter2") (Some "2024-01-05 10:00:00");
            mk_user (Some 1%Z) (Some "carol") (Some "opensesame") (Some "2024-01-06 11:00:00")].

Definition shared_id_world : world :=
  mk_world (Some shared_id_users) None None None ∅ ∅ "2025-07-01 09:30:00".

(* ===================================================================== *)
(** * Part I, continued: the rest of the module                           *)
(* ===================================================================== *)

(** ** Observations on the files *)

(** The files after a best-effort append: untouched when the path cannot be
    written, else the old content (or the header) followed by the line. *)
Definition appended (path : string) (header row : list string) (w : world)
    : gmap string string :=
  if bool_decide (path ∈ write_denied w) then files w
  else <[path := (default (csv_line header) (files w !! path) ++ csv_line row)%string]> (files w).

(** The id [save_feedback] links a feedback to: that of the first row with
    the username; NULL for the empty username, for an unknown one and when
    the feedback table has no [user_id] column. *)
Definition linked_user_id (username : string) (w : world) : option Z :=
  if truthy username
     && has_col "user_id" (match feedback w with Some t => ft_cols t | None => [] end)
  then match users w with
       | Some t => match find (username_is username) (ut_rows t) with
                   | Some r => u_id r
                   | None => None
                   end
       | None => None
       end
  else None.

(** ** Observations on the migration *)




(** ** Messages of the pages *)

(** [st.success], [st.error], [st.info], [st.warning] *)
Inductive message :=
| msg_success (text : string)
| msg_error (text : string)
| msg_info (text : string)
| msg_warning (text : string).

(** ** Login and signup pages *)

Inductive login_button := press_login | press_go_to_signup.
Inductive signup_button := press_create_account | press_back_to_login.

(** What a run of an authentication page leaves: the messages shown, the
    value of [st.session_state['mode']] and whether [st.rerun()] was
    called. *)
Record auth_result := mk_auth {
  auth_messages : list message;
  auth_mode : string;
  auth_rerun : bool }.

(** [show_login]: [uname] and [pwd] are the two text inputs, [pressed] the
    button pressed in this run, if any. *)
Definition show_login (uname pwd : string) (pressed : option login_button) (mode : string)
    : py auth_result :=
  match pressed with
  | Some press_login =>
      let* ok := check_credentials uname pwd in
      if ok then
        set_current_user uname ;;
        ret (mk_auth [msg_success "Logged in ‚Äî opening project..."] mode true)
      else ret (mk_auth [msg_error "Invalid credentials"] mode false)
  | Some press_go_to_signup => ret (mk_auth [] "signup" true)
  | None => ret (mk_auth [] mode false)
  end.

(** [show_signup] *)
Definition show_signup (uname pwd : string) (pressed : option signup_button) (mode : string)
    : py auth_result :=
  match pressed with
  | Some press_create_account =>
      if negb (truthy uname) || negb (truthy pwd) then
        ret (mk_auth [msg_error "Enter both username and password"] mode false)
      else
        let* res := signup uname pwd in
        let (ok, msg) := res in
        if ok then
          set_current_user uname ;;
          ret (mk_auth [msg_success "Account created and logged in. Opening project..."]
                       mode true)
        else ret (mk_auth [msg_error ("Signup failed: " ++ msg)] mode false)
  | Some press_back_to_login => ret (mk_auth [] "login" true)
  | None => ret (mk_auth [] mode false)
  end.

(** ** Navigation ([main]) *)

(** [user['username'] == 'admin'] *)
Definition is_admin (user : identity) : bool :=
  match ident_username user with
  | Some name => String.eqb name "admin"
  | None => false
  end.

(** [list.insert(i, x)] for an index that is not negative. *)
Definition list_insert_at {A} (i : nat) (x : A) (l : list A) : list A :=
  firstn i l ++ x :: skipn i l.

(** The entries of the sidebar (lines 792-794 of [main]). *)
Definition nav_items (user : identity) : list string :=
  let items := ["Home"; "Data Analysis"; "Charts Analysis"; "About"] in
  if is_admin user then list_insert_at 3 "Admin" items else items.

(** The Logout button of [main] (lines 786-789): the new mode. *)
Definition logout : py string :=
  clear_current_user ;; ret "login".

(** ** Admin page *)

(** [ORDER BY id DESC], by insertion. *)
Fixpoint insert_desc (r : feedback_row) (l : list feedback_row) : list feedback_row :=
  match l with
  | [] => [r]
  | x :: l' => if (f_id x <? f_id r)%Z then r :: l else x :: insert_desc r l'
  end.

Definition order_by_id_desc (rows : list feedback_row) : list feedback_row :=
  fold_right insert_desc [] rows.

(** [SELECT id, username, user_id, feedback, feedback_at FROM feedback
     ORDER BY id DESC LIMIT 200] and [fetchall()]. *)
Definition select_recent_feedback : py (list feedback_row) :=
  fun w =>
    match feedback w with
    | None => (Raise "no such table: feedback", w)
    | Some t =>
        match missing_col ["id"; "username"; "user_id"; "feedback"; "feedback_at"] (ft_cols t) with
        | Some c => (Raise ("no such column: " ++ c), w)
        | None => (Ok (firstn 200 (order_by_id_desc (ft_rows t))), w)
        end
    end.

(** [DELETE FROM feedback WHERE id=?]; the sequence is left as it is. *)
Definition delete_feedback_id (i : Z) : py unit :=
  fun w =>
    match feedback w with
    | None => (Raise "no such table: feedback", w)
    | Some t =>
        match missing_col ["id"] (ft_cols t) with
        | Some c => (Raise ("no such column: " ++ c), w)
        | None =>
            (Ok tt, set_feedback
                      (Some (mk_feedbacks (ft_cols t)
                               (List.filter (fun r => negb (f_id r =? i)%Z) (ft_rows t))
                               (ft_seq t))) w)
        end
    end.

(** [cur.executemany('DELETE FROM feedback WHERE id=?', ...)] and the commit. *)
Fixpoint delete_feedback (ids : list Z) : py unit :=
  match ids with
  | [] => ret tt
  | i :: ids' => delete_feedback_id i ;; delete_feedback ids'
  end.

Record admin_result := mk_admin {
  admin_messages : list message;
  admin_rows : list feedback_row }.

(** [page_admin]: [to_delete] is the value of the multiselect,
    [delete_pressed] that of the "Delete selected" button; the rows
    returned are those of the table drawn. *)
Definition page_admin (user : identity) (to_delete : list Z) (delete_pressed : bool)
    : py admin_result :=
  if negb (is_admin user) then ret (mk_admin [msg_error "Admin access required"] [])
  else
    let* rows := select_recent_feedback in
    match rows with
    | [] => ret (mk_admin [msg_info "No feedback entries found"] [])
    | _ :: _ =>
        if delete_pressed && match to_delete with [] => false | _ :: _ => true end then
          delete_feedback to_delete ;;
          ret (mk_admin [msg_success "Deleted selected entries ‚Äî refresh the page"] rows)
        else ret (mk_admin [] rows)
    end.

(** ** About page: the feedback form *)

(** The keys of [st.session_state] the callback reads and writes. *)
Record feedback_form := mk_form {
  about_feedback : string;
  feedback_username : string;
  feedback_msg : option (bool * string) }.

(** [_submit_feedback], the callback of the "Submit Feedback" button. *)
Definition submit_feedback (form : feedback_form) : py feedback_form :=
  let fb := strip (about_feedback form) in
  if negb (truthy fb) then
    ret (mk_form (about_feedback form) (feedback_username form)
                 (Some (false, "Please enter some feedback before submitting.")))
  else
    let* cu := current_user in
    let uname := match cu with
                 | Some who => default EmptyString (ident_username who)
                 | None => strip (feedback_username form)
                 end in
    let* res := save_feedback uname fb in
    let (ok, msg) := res in
    ret (mk_form (if ok then EmptyString else about_feedback form)
                 (feedback_username form) (Some (ok, msg))).

(** ** Schema of the feedback table *)

(** [CREATE TABLE IF NOT EXISTS feedback (id INTEGER PRIMARY KEY
     AUTOINCREMENT, username TEXT, feedback TEXT, feedback_at TEXT)] *)
Definition create_feedback : py unit :=
  fun w =>
    match feedback w with
    | Some _ => (Ok tt, w)
    | None => (Ok tt, set_feedback
                        (Some (mk_feedbacks ["id"; "username"; "feedback"; "feedback_at"] [] 0)) w)
    end.

(** [ALTER TABLE feedback ADD COLUMN user_id INTEGER]: SQLite refuses a
    name the table already has, in whatever letter case; otherwise the
    rows already there read NULL in the new column. *)
Definition add_user_id_column : py unit :=
  fun w =>
    match feedback w with
    | None => (Raise "no such table: feedback", w)
    | Some t =>
        if sql_has_col "user_id" (ft_cols t) then (Raise "duplicate column name: user_id", w)
        else (Ok tt, set_feedback
                       (Some (mk_feedbacks (ft_cols t ++ ["user_id"])
                                (map (fun r => mk_feedback (f_id r) (f_username r) None
                                                           (f_feedback r) (f_feedback_at r))
                                     (ft_rows t))
                                (ft_seq t))) w)
    end.

(** Lines 147-173 of [ensure_feedback_table], the part that settles the
    schema; it returns [existing], the column names. *)
Definition ensure_feedback_schema : py (list string) :=
  create_feedback ;;
  let* existing := feedback_columns in
  if negb (has_col "user_id" existing) then
    try_except (add_user_id_column ;; feedback_columns) (fun _ => ret existing)
  else ret existing.

(** The ids of the feedback rows: an INTEGER PRIMARY KEY never repeats. *)
Definition feedback_ids (w : world) : list Z :=
  match feedback w with
  | Some t => map f_id (ft_rows t)
  | None => []
  end.

(** ** Home page: the upload loop *)

Module Home.

Import Analysis.

(** [p.rfind(c)]: the last position of [c], or -1. *)
Fixpoint rfind_from (c : ascii) (p : list ascii) (i found : Z) : Z :=
  match p with
  | [] => found
  | a :: rest => rfind_from c rest (i + 1) (if Ascii.eqb a c then i else found)
  end.

Definition rfind (c : ascii) (p : list ascii) : Z := rfind_from c p 0 (-1).

(** [os.path.splitext(p)[1]] of posixpath: the text from the last dot of
    the last component on, unless that component has nothing but dots
    before it. *)
Definition splitext_ext (p : string) : string :=
  let cs := list_ascii_of_string p in
  let sepIndex := rfind "/" cs in
  let dotIndex := rfind "." cs in
  if (dotIndex >? sepIndex)%Z
     && existsb (fun c => negb (Ascii.eqb c ".")) (slice cs (sepIndex + 1) dotIndex)
  then string_of_list_ascii (skipn (Z.to_nat dotIndex) cs)
  else EmptyString.

(** An uploaded file: its name and its bytes. *)
Record uploaded_file := mk_upload {
  up_name : string;
  up_data : string }.

(** [st.session_state['uploaded_dfs']]: a dict, which keeps its keys in
    the order of their first insertion. *)
Definition datasets := list (string * dataframe).

Fixpoint dict_set (k : string) (v : dataframe) (d : datasets) : datasets :=
  match d with
  | [] => [(k, v)]
  | (k', v') :: rest =>
      if String.eqb k' k then (k', v) :: rest else (k', v') :: dict_set k v rest
  end.

Fixpoint dict_get (k : string) (d : datasets) : option dataframe :=
  match d with
  | [] => None
  | (k', v) :: rest => if String.eqb k' k then Some v else dict_get k rest
  end.

(** [list(d.keys())] *)
Definition keys (d : datasets) : list string := map fst d.

(** [str(n)] of a count. *)
Definition str_of_nat (n : nat) : string := NilZero.string_of_uint (Nat.to_uint n).

Section Upload.

(** [pd.read_csv] and [pd.read_excel] on the bytes of a file: a frame, or
    the exception of the parser. *)
Variable read_csv : string -> outcome dataframe.
Variable read_excel : string -> outcome dataframe.

(** Lines 399-404: the parser is chosen by the extension of the name. *)
Definition load (up : uploaded_file) : outcome dataframe :=
  let ext := lower (splitext_ext (up_name up)) in
  if String.eqb ext ".csv" then read_csv (up_data up) else read_excel (up_data up).

(** Lines 396-408: the body of the loop for one file. *)
Definition upload_one (st : datasets * list message) (up : uploaded_file)
    : datasets * list message :=
  let (d, shown) := st in
  match load up with
  | Ok df =>
      (dict_set (up_name up) df d,
       shown ++ [msg_success ("Loaded " ++ up_name up ++ " ‚Äî "
                              ++ str_of_nat (length (df_rows df)) ++ " rows, "
                              ++ str_of_nat (length (df_columns df)) ++ " columns")])
  | Raise e =>
      (d, shown ++ [msg_error ("Failed to load " ++ up_name up ++ ": " ++ e)])
  end.

(** Lines 395-408: [for up in uploaded_files]. *)
Definition upload_files (ups : list uploaded_file) (d : datasets) : datasets * list message :=
  fold_left upload_one ups (d, []).

(** The frame the loop stores last under [name], if it stores one. *)
Definition last_loaded (name : string) (ups : list uploaded_file) : option dataframe :=
  fold_left (fun acc up =>
               if String.eqb (up_name up) name
               then match load up with Ok df => Some df | Raise _ => acc end
               else acc)
            ups None.

End Upload.

End Home.

(** ** Charts page: the dataset and the download *)

Module ChartsPage.

Import Analysis Home.

(** The keys of [st.session_state] the page reads before the builder. *)
Record chart_state := mk_chart_state {
  uploaded_dfs : option datasets;
  analysis_result_df : option dataframe;
  analysis_result_name : option string }.

(** [use_analysis_label] (lines 531-534). *)
Definition use_analysis_label (s : chart_state) : option string :=
  match analysis_result_df s with
  | Some _ => Some ("Last analysis: " ++ default "result" (analysis_result_name s))%string
  | None => None
  end.

(** [files], the options of the select box (lines 530-535). *)
Definition chart_options (s : chart_state) : list string :=
  let files := keys (default [] (uploaded_dfs s)) in
  match use_analysis_label s with
  | Some label => label :: files
  | None => files
  end.

(** [df.empty]: some axis has length 0. *)
Definition df_empty (df : dataframe) : bool :=
  match df_rows df, df_columns df with
  | [], _ => true
  | _, [] => true
  | _, _ => false
  end.

(** Lines 527-546 for the option [selected]: the messages shown and the
    frame handed to the builder, if any. A key that [uploaded_dfs] does
    not have raises KeyError. *)
Definition chart_dataset (s : chart_state) (selected : string)
    : outcome (list message * option dataframe) :=
  match default [] (uploaded_dfs s) with
  | [] => Ok ([msg_info "No dataset uploaded yet. Go to Home and upload CSV/Excel files to create charts."], None)
  | d =>
      let picked :=
        match use_analysis_label s with
        | Some label =>
            if truthy label && String.eqb selected label then
              match analysis_result_df s with
              | Some df => Ok df
              | None => Raise "KeyError: 'analysis_result_df'"
              end
            else match dict_get selected d with
                 | Some df => Ok df
                 | None => Raise ("KeyError: " ++ selected)
                 end
        | None =>
            match dict_get selected d with
            | Some df => Ok df
            | None => Raise ("KeyError: " ++ selected)
            end
        end in
      match picked with
      | Raise e => Raise e
      | Ok df =>
          if df_empty df || (length (df_columns df) =? 0)%nat then
            Ok ([msg_warning "The selected dataset is empty or has no columns to chart. Go to Data Analysis to prepare a dataset."], None)
          else Ok ([], Some df)
      end
  end.

(** The formats of the download select box. *)
Inductive export_format := png | jpeg | svg | pdf | html.

Definition format_name (fmt : export_format) : string :=
  match fmt with
  | png => "png" | jpeg => "jpeg" | svg => "svg" | pdf => "pdf" | html => "html"
  end.

(** [str.upper()] on the ASCII letters. *)
Definition upper_char (c : ascii) : ascii :=
  let n := nat_of_ascii c in
  if (97 <=? n)%nat && (n <=? 122)%nat then ascii_of_nat (n - 32) else c.

Definition upper (s : string) : string :=
  string_of_list_ascii (map upper_char (list_ascii_of_string s)).

(** The arguments of one [st.download_button]. *)
Record download_button := mk_download {
  dl_label : string;
  dl_data : string;
  dl_file_name : string;
  dl_mime : string }.

Section Download.

(** The figure and its two exporters, which return the bytes or raise
    (kaleido missing, for instance). *)
Variable figure : Type.
Variable to_html : figure -> outcome string.
Variable to_image : export_format -> figure -> outcome string.

(** Lines 624-631, the body of the [try]: the bytes, the mime type and
    the extension. *)
Definition render (fmt : export_format) (fig : figure) : outcome (string * string * string) :=
  match fmt with
  | html =>
      match to_html fig with
      | Ok data => Ok (data, "text/html"%string, "html"%string)
      | Raise e => Raise e
      end
  | _ =>
      match to_image fmt fig with
      | Ok data =>
          Ok (data,
              match fmt with
              | pdf => "application/pdf"
              | _ => "image/" ++ (match fmt with jpeg => "jpeg" | _ => format_name fmt end)
              end%string,
              format_name fmt)
      | Raise e => Raise e
      end
  end.

(** Lines 623-635: the download offered for the last chart, with the
    messages shown; an exception of the fallback is not caught. *)
Definition download_chart (fmt : export_format) (fname : string) (fig : figure)
    : outcome (list message * download_button) :=
  match render fmt fig with
  | Ok (data, mime, ext) =>
      Ok ([], mk_download ("Download " ++ upper (format_name fmt)) data
                          (fname ++ "." ++ ext) mime)
  | Raise e =>
      match to_html fig with
      | Ok data =>
          Ok ([msg_error ("Could not generate " ++ format_name fmt
                          ++ " image (is kaleido installed?). Falling back to HTML download. Error: "
                          ++ e)],
              mk_download "Download HTML fallback" data (fname ++ ".html") "text/html")
      | Raise e' => Raise e'
      end
  end.

End Download.

End ChartsPage.

(** ** Sample states, continued *)

(** [unconstrained_world] with a session marker for "bob". *)
Definition idless_session_world : world :=
  set_files {[CURRENT_USER_FILE := "bob"%string]} unconstrained_world.

(** An account created with a trailing blank in its username. *)
Definition blank_suffix_world : world :=
  snd (signup "bob " "hunter2" started_world).

(** The columns of a feedback row other than [user_id]. *)
Definition feedback_entry (r : feedback_row) : Z * string * string * string :=
  (f_id r, f_username r, f_feedback r, f_feedback_at r).

Definition feedback_rows (w : world) : list feedback_row :=
  match feedback w with
  | Some t => ft_rows t
  | None => []
  end.

(** A database with three feedback entries, and the identity of the
    account named "admin". *)
Definition reviewed_world : world :=
  set_feedback
    (Some (mk_feedbacks ["id"; "username"; "feedback"; "feedback_at"; "user_id"]
             [mk_feedback 1 "bob" (Some 1%Z) "nice charts" "2025-06-01 08:00:00";
              mk_feedback 2 EmptyString None "upload is slow" "2025-06-02 08:00:00";
              mk_feedback 3 "carol" (Some 2%Z) "more themes" "2025-06-03 08:00:00"]
             3))
    legacy_world.

(** [ORDER BY id DESC]: of two entries the one with the larger id comes
    first. *)
Definition newer_first (a b : feedback_row) : Prop := (f_id b <= f_id a)%Z.

Definition admin_user : identity := mk_identity (Some 7%Z) (Some "admin"%string).

(** U+00A0, the no-break space, in UTF-8, and a text that has it at
    both ends. *)
Definition nbsp : string :=
  String (ascii_of_nat 194) (String (ascii_of_nat 160) EmptyString).

Definition nbsp_love_it : string :=
  String.append nbsp (String.append " love it " nbsp).

(** A feedback table whose link column was created as [USER_ID]. *)
Definition upper_case_world : world :=
  set_feedback
    (Some (mk_feedbacks ["id"; "username"; "feedback"; "feedback_at"; "USER_ID"]
             [mk_feedback 1 "bob" (Some 1%Z) "nice charts" "2025-06-01 08:00:00"]
             1))
    legacy_world.

(** ** Proof automation *)

(** Closes [db_only] for a single SQL statement: the statement reads the
    tables and the clock, and writes the tables. *)
Ltac db_statement :=
  let H := fresh "H" in
  intros ? ? H; pose proof H as (?Hu & ?Hn & ?Hf & ?Hq & ?Hc);
  repeat match goal with
         | E : ?f ?w = ?f ?w' |- context [?f ?w] => rewrite E
         end;
  repeat match goal with
         | |- context [match ?x with _ => _ end] => destruct x
         end;
  cbn; (split; [try reflexivity | try exact H]);
  unfold same_db, set_users, set_users_new, set_feedback, set_users_seq in *; cbn; try tauto.

(* ===================================================================== *)
(** * Part II: properties                                                 *)
(* ===================================================================== *)

(** ** The digest *)

(** The vectors of FIPS 180-4 and the value [hashlib] gives for "secret123". *)
Example sha256_constants :
  length Sha256.K = 64%nat
  /\ nth 0 Sha256.K 0%Z = 0x428a2f98%Z /\ nth 63 Sha256.K 0%Z = 0xc67178f2%Z
  /\ Sha256.sa Sha256.init = 0x6a09e667%Z /\ Sha256.sh Sha256.init = 0x5be0cd19%Z.
Proof. vm_compute. repeat split; reflexivity. Qed.

Example sha256_empty :
  Sha256.hexdigest EmptyString = "e3b0c44298fc1c149afbf4c8996fb92427ae41e4649b934ca495991b7852b855".
Proof. vm_compute. reflexivity. Qed.

Example sha256_abc :
  Sha256.hexdigest "abc" = "ba7816bf8f01cfea414140de5dae2223b00361a396177a9cb410ff61f20015ad".
Proof. vm_compute. reflexivity. Qed.

Example sha256_two_blocks :
  Sha256.hexdigest "abcdbcdecdefdefgefghfghighijhijkijkljklmklmnlmnomnopnopq"
  = "248d6a61d20638b8e5c026930c3e6039a33ce45964ff2167f6ecedd419db06c1".
Proof. vm_compute. reflexivity. Qed.

Example sha256_secret123 :
  hash_password "secret123" = "fcf730b6d95236ecd3c9fc2d92d7b6b2bb061514961aec041d6c7a7192f592e4".
Proof. vm_compute. reflexivity. Qed.

Section DigestShape.

Lemma hexdigit_in_alphabet (n : Z) : In (Sha256.hexdigit n) Sha256.hex_alphabet.
Proof.
  unfold Sha256.hexdigit.
  change 15%Z with (Z.ones 4). rewrite Z.land_ones by lia.
  assert (Hb : (0 <= n mod 2 ^ 4 < 16)%Z) by (apply Z.mod_pos_bound; lia).
  apply nth_In. change (length Sha256.hex_alphabet) with 16%nat. lia.
Qed.

Lemma hex_word_length (x : Z) : length (Sha256.hex_word x) = 8%nat.
Proof. unfold Sha256.hex_word. rewrite length_map. reflexivity. Qed.

Lemma hex_word_alphabet (x : Z) : Forall (fun c => In c Sha256.hex_alphabet) (Sha256.hex_word x).
Proof.
  unfold Sha256.hex_word. apply List.Forall_forall. intros c Hc.
  apply in_map_iff in Hc. destruct Hc as [i [<- _]]. apply hexdigit_in_alphabet.
Qed.

Lemma hex_state_length (s : Sha256.state) : length (Sha256.hex_state s) = 64%nat.
Proof. unfold Sha256.hex_state. rewrite !length_app, !hex_word_length. reflexivity. Qed.

Lemma hex_state_alphabet (s : Sha256.state) :
  Forall (fun c => In c Sha256.hex_alphabet) (Sha256.hex_state s).
Proof. unfold Sha256.hex_state. repeat apply Forall_app_2; apply hex_word_alphabet. Qed.

Lemma string_length_of_list (l : list ascii) :
  String.length (string_of_list_ascii l) = length l.
Proof. induction l as [|c l IH]; simpl; congruence. Qed.

(** The digest is 64 characters long. *)
Lemma hexdigest_length (p : string) : String.length (Sha256.hexdigest p) = 64%nat.
Proof. unfold Sha256.hexdigest. rewrite string_length_of_list. apply hex_state_length. Qed.

Lemma lower_alphabet (c : ascii) :
  In c Sha256.hex_alphabet -> is_hex_char (lower_char c) = true.
Proof.
  intros H. vm_compute in H.
  repeat (destruct H as [<- | H]; [vm_compute; reflexivity |]).
  destruct H.
Qed.

(** The digest passes the shape test of [check_credentials]. *)
Lemma hash_looks_like_sha256 (p : string) :
  looks_like_sha256 (Some (hash_password p)) = true.
Proof.
  unfold looks_like_sha256, hash_password.
  pose proof (hexdigest_length p) as Hlen.
  rewrite Hlen. change (64 =? 64)%nat with true.
  assert (Ht : truthy (Sha256.hexdigest p) = true).
  { unfold truthy. destruct (Sha256.hexdigest p); [discriminate | reflexivity]. }
  rewrite Ht. rewrite !andb_true_l.
  unfold lower, Sha256.hexdigest.
  rewrite !list_ascii_of_string_of_list_ascii.
  rewrite forallb_forall. intros c Hc.
  apply in_map_iff in Hc. destruct Hc as [d [<- Hd]].
  apply lower_alphabet.
  pose proof (hex_state_alphabet (Sha256.digest (Sha256.bytes_of_string p))) as Hall.
  rewrite List.Forall_forall in Hall. apply Hall. exact Hd.
Qed.

(** [verify_password] accepts the digest of the same password. *)
Lemma verify_hash (p : string) : verify_password p (hash_password p) = true.
Proof. unfold verify_password, hash_password. apply String.eqb_refl. Qed.

(** A text that does not have the digest's shape is not a digest. *)
Lemma hash_differs (p : string) :
  looks_like_sha256 (Some p) = false -> hash_password p <> p.
Proof.
  intros Hshape Heq. pose proof (hash_looks_like_sha256 p) as H.
  rewrite Heq in H. congruence.
Qed.

End DigestShape.

(** ** Statements, one at a time *)

Section StoreFacts.

Lemma missing_col_none (names cols : list string) :
  missing_col names cols = None <-> (forall n, In n names -> sql_has_col n cols = true).
Proof.
  unfold missing_col. split.
  - intros H n Hn. pose proof (find_none _ _ H n Hn) as Hf. simpl in Hf.
    destruct (sql_has_col n cols); [reflexivity | discriminate].
  - intros H. induction names as [|a names IH]; [reflexivity |].
    simpl. rewrite (H a) by (left; reflexivity). simpl.
    apply IH. intros n Hn. apply H. right. exact Hn.
Qed.

(** A name Python finds among the column names is one SQLite finds. *)
Lemma has_col_sql (n : string) (cols : list string) :
  has_col n cols = true -> sql_has_col n cols = true.
Proof.
  unfold has_col, sql_has_col. intros H. apply existsb_exists in H.
  destruct H as [c [Hc He]]. apply String.eqb_eq in He. subst c.
  apply existsb_exists. exists n. split; [exact Hc | apply String.eqb_refl].
Qed.

Lemma missing_col_has (names cols : list string) :
  (forall n, In n names -> has_col n cols = true) -> missing_col names cols = None.
Proof.
  intros H. apply missing_col_none. intros n Hn. apply has_col_sql, H, Hn.
Qed.

Lemma find_app_none {A} (f : A -> bool) (l : list A) (x : A) :
  find f l = None -> find f (l ++ [x]) = if f x then Some x else None.
Proof.
  induction l as [|a l IH]; simpl.
  - intros _. reflexivity.
  - destruct (f a); [discriminate | exact IH].
Qed.

Lemma existsb_find_none {A} (f : A -> bool) (l : list A) :
  find f l = None -> existsb f l = false.
Proof.
  induction l as [|a l IH]; simpl; [reflexivity |].
  destruct (f a); [discriminate | exact IH].
Qed.

(** What a SELECT returns, and that it leaves the world alone. *)
Lemma select_user_ok (sel : list string) (name : string) (w w' : world) (o : option user_row) :
  select_user sel name w = (Ok o, w') ->
  w' = w /\ exists t, users w = Some t
                 /\ missing_col (sel ++ ["username"]) (ut_cols t) = None
                 /\ o = find (username_is name) (ut_rows t).
Proof.
  unfold select_user. destruct (users w) as [t|]; [| discriminate].
  destruct (missing_col _ _) eqn:Hm; [discriminate |].
  intros H. inversion H; subst. split; [reflexivity |].
  exists t. auto.
Qed.

Lemma select_user_frame (sel : list string) (name : string) (w : world) :
  snd (select_user sel name w) = w.
Proof.
  unfold select_user. destruct (users w) as [t|]; [| reflexivity].
  destruct (missing_col _ _); reflexivity.
Qed.

Lemma select_user_found (sel : list string) (name : string) (w : world) (t : users_table) :
  users w = Some t ->
  missing_col (sel ++ ["username"]) (ut_cols t) = None ->
  select_user sel name w = (Ok (find (username_is name) (ut_rows t)), w).
Proof. intros Hu Hm. unfold select_user. rewrite Hu, Hm. reflexivity. Qed.

(** A mirror write under [try: ... except Exception: pass] never raises and
    changes nothing but the files. *)
Lemma csv_append_pass (path : string) (header row : list string) (w : world) :
  exists fs, try_pass (csv_append path header row) w = (Ok tt, set_files fs w).
Proof.
  unfold try_pass, try_except, csv_append, ret.
  destruct (bool_decide _).
  - exists (files w). destruct w; reflexivity.
  - destruct (files w !! path); eexists; reflexivity.
Qed.

Lemma log_login_pass (u : string) (w : world) :
  exists fs, log_login u w = (Ok tt, set_files fs w).
Proof.
  unfold log_login, try_pass, try_except, bind, now, csv_append, ret.
  destruct (bool_decide _).
  - exists (files w). destruct w; reflexivity.
  - destruct (files w !! USER_ACTIVITY_PATH); eexists; reflexivity.
Qed.

(** When [signup] reports success: the table had the columns, no row had
    the username, and the new row is the last one. *)
Lemma signup_success (u p msg : string) (w w1 : world) :
  signup u p w = (Ok (true, msg), w1) ->
  exists t fs,
    users w = Some t
    /\ missing_col ["id"; "username"] (ut_cols t) = None
    /\ missing_col ["username"; "password"; "created_at"] (ut_cols t) = None
    /\ find (username_is u) (ut_rows t) = None
    /\ msg = "Account created"
    /\ users_full t (users_seq w) = false
    /\ w1 = set_files fs
              (set_users_seq (new_users_seq t (users_seq w))
                 (set_users
                    (Some (mk_users (ut_cols t) (ut_pk t) (ut_unique t)
                             (ut_rows t ++
                              [mk_user (new_user_id t (users_seq w))
                                       (Some u) (Some (hash_password p)) (Some (clock w))])))
                    w)).
Proof.
  unfold signup, try_except. unfold bind at 1.
  destruct (select_user ["id"] u w) as [[found|e] w0] eqn:Hsel.
  2:{ unfold ret. intros H. inversion H. }
  apply select_user_ok in Hsel. destruct Hsel as [-> [t [Hu [Hm Hf]]]].
  destruct found as [r|].
  { unfold ret. intros H. inversion H. }
  unfold bind at 1. unfold now.
  unfold bind at 1. unfold insert_user. rewrite Hu.
  destruct (missing_col ["username"; "password"; "created_at"] (ut_cols t)) eqn:Hm2.
  { unfold ret. intros H. inversion H. }
  destruct (users_full t (users_seq w)) eqn:Hfull.
  { unfold ret. intros H. inversion H. }
  rewrite (existsb_find_none _ _ (eq_sym Hf)), andb_false_r.
  unfold bind.
  match goal with |- context [try_pass (csv_append ?a ?b ?c) ?w'] =>
    destruct (csv_append_pass a b c w') as [fs Hfs]; rewrite Hfs end.
  unfold ret. intros H. inversion H; subst.
  exists t, fs. repeat split; auto.
Qed.

Lemma set_files_same (w : world) : set_files (files w) w = w.
Proof. destruct w; reflexivity. Qed.

(** [check_credentials], branch by branch. *)
Lemma check_credentials_cases (u p : string) (w : world) (t : users_table) :
  users w = Some t ->
  missing_col ["id"; "password"; "username"] (ut_cols t) = None ->
  match find (username_is u) (ut_rows t) with
  | None => check_credentials u p w = (Ok false, w)
  | Some r =>
      if looks_like_sha256 (u_password r) then
        exists fs, check_credentials u p w
                   = (Ok (verify_password p (default EmptyString (u_password r))), set_files fs w)
      else if bool_decide (u_password r = Some p) then
        exists fs, check_credentials u p w
                   = (Ok true,
                      set_files fs (set_users (Some (with_password (hash_password p) (u_id r) t)) w))
      else check_credentials u p w = (Ok false, w)
  end.
Proof.
  intros Hu Hm.
  pose proof (select_user_found ["id"; "password"] u w t Hu Hm) as Hsel.
  destruct (find (username_is u) (ut_rows t)) as [r|].
  2:{ unfold check_credentials, bind. rewrite Hsel. reflexivity. }
  destruct (looks_like_sha256 (u_password r)) eqn:Hl.
  - destruct (verify_password p (default EmptyString (u_password r))) eqn:Hv.
    + destruct (log_login_pass u w) as [fs Hfs]. exists fs.
      unfold check_credentials, bind. rewrite Hsel, Hl, Hv, Hfs. reflexivity.
    + exists (files w). rewrite set_files_same.
      unfold check_credentials, bind. rewrite Hsel, Hl, Hv. reflexivity.
  - destruct (bool_decide (u_password r = Some p)) eqn:Hp.
    2:{ unfold check_credentials, bind. rewrite Hsel, Hl, Hp. reflexivity. }
    assert (Hm' : missing_col ["password"; "id"] (ut_cols t) = None).
    { rewrite missing_col_none in Hm |- *. intros n Hn. apply Hm.
      simpl in Hn |- *. tauto. }
    destruct (log_login_pass u
                (set_users (Some (with_password (hash_password p) (u_id r) t)) w))
      as [fs Hfs].
    exists fs.
    unfold check_credentials, bind. rewrite Hsel, Hl, Hp.
    unfold try_pass, try_except, update_password. rewrite Hu, Hm'.
    rewrite Hfs. reflexivity.
Qed.

(** Whatever it returns, [check_credentials] leaves the users table as it
    was or with the password of the rows that carry the id it read set to
    the digest; the latter only on a clear-text match. *)
Lemma check_credentials_users (u p : string) (w : world) :
  users (snd (check_credentials u p w)) = users w
  \/ exists t r,
       users w = Some t
       /\ find (username_is u) (ut_rows t) = Some r
       /\ looks_like_sha256 (u_password r) = false
       /\ u_password r = Some p
       /\ fst (check_credentials u p w) = Ok true
       /\ users (snd (check_credentials u p w))
          = Some (with_password (hash_password p) (u_id r) t).
Proof.
  destruct (users w) as [t|] eqn:Hu.
  2:{ left. unfold check_credentials, bind, select_user. rewrite Hu. simpl. exact Hu. }
  destruct (missing_col ["id"; "password"; "username"] (ut_cols t)) eqn:Hm.
  { left. unfold check_credentials, bind, select_user. rewrite Hu.
    change (["id"; "password"] ++ ["username"]) with ["id"; "password"; "username"].
    rewrite Hm. simpl. exact Hu. }
  pose proof (check_credentials_cases u p w t Hu Hm) as H.
  destruct (find (username_is u) (ut_rows t)) as [r|] eqn:Hf.
  2:{ left. rewrite H. exact Hu. }
  destruct (looks_like_sha256 (u_password r)) eqn:Hl.
  { left. destruct H as [fs ->]. exact Hu. }
  destruct (bool_decide (u_password r = Some p)) eqn:Hp.
  2:{ left. rewrite H. exact Hu. }
  right. exists t, r. destruct H as [fs ->].
  apply bool_decide_eq_true in Hp. repeat split; auto.
Qed.

Lemma canonical_readable (t : users_table) (names : list string) :
  canonical t -> forallb (fun n => has_col n canonical_cols) names = true ->
  missing_col names (ut_cols t) = None.
Proof.
  intros [Hc _] Hn. rewrite Hc. apply missing_col_has.
  rewrite forallb_forall in Hn. exact Hn.
Qed.

Lemma find_map_same {A} (f : A -> bool) (g : A -> A) (l : list A) :
  (forall x, f (g x) = f x) -> find f (map g l) = option_map g (find f l).
Proof.
  intros Hfg. induction l as [|a l IH]; simpl; [reflexivity |].
  rewrite Hfg. destruct (f a); [reflexivity | exact IH].
Qed.

Lemma find_username (u : string) (rows : list user_row) (r : user_row) :
  find (username_is u) rows = Some r -> In r rows /\ u_username r = Some u.
Proof.
  intros H. apply find_some in H. destruct H as [Hin Hu]. split; [exact Hin |].
  unfold username_is in Hu. destruct (u_username r) as [s|]; [| discriminate].
  apply String.eqb_eq in Hu. congruence.
Qed.

Lemma username_found (u : string) (rows : list user_row) (r : user_row) :
  In r rows -> u_username r = Some u -> exists r', find (username_is u) rows = Some r'.
Proof.
  intros Hin Hu. destruct (find (username_is u) rows) as [r'|] eqn:Hf; [eauto |].
  pose proof (find_none _ _ Hf r Hin) as Hn. unfold username_is in Hn.
  rewrite Hu, String.eqb_refl in Hn. discriminate.
Qed.

(** The row read for [u], after the password update keyed by its id. *)
Lemma stored_after_update (u h : string) (t : users_table) (r : user_row) :
  find (username_is u) (ut_rows t) = Some r ->
  u_id r <> None ->
  find (username_is u) (ut_rows (with_password h (u_id r) t)) = Some (set_password h r).
Proof.
  intros Hf Hid. unfold with_password. cbn [ut_rows].
  rewrite find_map_same.
  - rewrite Hf. simpl. unfold id_is. destruct (u_id r) as [i|]; [| congruence].
    rewrite Z.eqb_refl. reflexivity.
  - intros x. destruct (id_is (u_id r) x); reflexivity.
Qed.

(** Login against a stored digest of the same password. *)
Lemma check_credentials_hashed (u p : string) (w : world) (t : users_table) (r : user_row) :
  users w = Some t ->
  missing_col ["id"; "password"; "username"] (ut_cols t) = None ->
  find (username_is u) (ut_rows t) = Some r ->
  u_password r = Some (hash_password p) ->
  exists fs, check_credentials u p w = (Ok true, set_files fs w).
Proof.
  intros Hu Hm Hf Hp.
  pose proof (check_credentials_cases u p w t Hu Hm) as H.
  rewrite Hf, Hp, hash_looks_like_sha256 in H. cbn [default] in H.
  rewrite verify_hash in H. exact H.
Qed.

Lemma logins_hashed (u p : string) (t : users_table) (r : user_row) (n : nat) :
  missing_col ["id"; "password"; "username"] (ut_cols t) = None ->
  find (username_is u) (ut_rows t) = Some r ->
  u_password r = Some (hash_password p) ->
  forall w, users w = Some t -> fst (logins n u p w) = repeat (Ok true) n.
Proof.
  intros Hm Hf Hp. induction n as [|n IH]; intros w Hu; [reflexivity |].
  simpl. destruct (check_credentials_hashed u p w t r Hu Hm Hf Hp) as [fs ->].
  specialize (IH (set_files fs w) Hu).
  destruct (logins n u p (set_files fs w)) as [rest w2]. simpl in IH |- *.
  rewrite IH. reflexivity.
Qed.

Lemma nodup_map_injective {A B} (f : A -> B) (l : list A) (x y : A) :
  NoDup (map f l) -> In x l -> In y l -> f x = f y -> x = y.
Proof.
  induction l as [|a l IH]; intros Hnd Hx Hy Hxy; [destruct Hx |].
  cbn [map] in Hnd. apply NoDup_cons in Hnd. destruct Hnd as [Hnotin Hnd].
  assert (Hmem : forall z, In z l -> f z = f a -> False).
  { intros z Hz Hza. apply Hnotin. rewrite <- Hza.
    apply list_elem_of_In. apply in_map. exact Hz. }
  destruct Hx as [-> | Hx], Hy as [-> | Hy].
  - reflexivity.
  - exfalso. apply (Hmem y Hy). congruence.
  - exfalso. apply (Hmem x Hx). congruence.
  - apply IH; assumption.
Qed.

(** Under a primary key, the password update keyed by the id of [r]
    touches no other row. *)
Lemma with_password_others (h : string) (t : users_table) (r : user_row) :
  ut_pk t = true -> keys_ok t -> In r (ut_rows t) ->
  forall (i : nat) (r0 : user_row),
    ut_rows t !! i = Some r0 -> r0 <> r ->
    ut_rows (with_password h (u_id r) t) !! i = Some r0.
Proof.
  intros Hpk [Hk _] Hr i r0 Hi Hne. destruct (Hk Hpk) as [_ Hnd].
  assert (Hin0 : In r0 (ut_rows t)).
  { apply list_elem_of_In. apply list_elem_of_lookup. eauto. }
  assert (Hid : id_is (u_id r) r0 = false).
  { unfold id_is. destruct (u_id r0) as [a|] eqn:Ha; [| reflexivity].
    destruct (u_id r) as [b|] eqn:Hb; [| reflexivity].
    destruct (Z.eqb a b) eqn:Hab; [| reflexivity].
    apply Z.eqb_eq in Hab. subst b. exfalso. apply Hne.
    apply (nodup_map_injective u_id (ut_rows t)); [exact Hnd | exact Hin0 | exact Hr |].
    congruence. }
  unfold with_password. cbn [ut_rows].
  clear Hnd Hr Hin0 Hk. revert i Hi.
  induction (ut_rows t) as [|a l IH]; intros i Hi; [discriminate |].
  destruct i as [|i]; cbn in Hi |- *.
  - inversion Hi; subst. rewrite Hid. reflexivity.
  - apply IH. exact Hi.
Qed.

End StoreFacts.

(** ** Credential store: sign-up and login *)

Section Credentials.

(** C2. Password round trip: when [signup u p] reports success, the
    [check_credentials u p] that follows returns [True]. *)
Theorem password_round_trip (u p msg : string) (w w1 : world) :
  signup u p w = (Ok (true, msg), w1) ->
  fst (check_credentials u p w1) = Ok true.
Proof.
  intros Hs. apply signup_success in Hs.
  destruct Hs as [t [fs [Hu [Hm1 [Hm2 [Hf [_ [_ ->]]]]]]]].
  rewrite missing_col_none in Hm1, Hm2.
  unfold check_credentials. unfold bind at 1.
  erewrite select_user_found; [| reflexivity |].
  2:{ cbn [ut_cols]. apply missing_col_none. intros n Hn. simpl in Hn.
      destruct Hn as [<- | [<- | [<- | []]]].
      - apply Hm1; simpl; auto.
      - apply Hm2; simpl; auto.
      - apply Hm1; simpl; auto. }
  cbn [ut_rows]. rewrite (find_app_none _ _ _ Hf).
  unfold username_is at 1. cbn [u_username]. rewrite String.eqb_refl.
  cbn [u_password]. rewrite hash_looks_like_sha256.
  cbn [default]. rewrite verify_hash.
  unfold bind.
  match goal with |- context [log_login ?a ?w'] =>
    destruct (log_login_pass a w') as [fs' Hfs]; rewrite Hfs end.
  reflexivity.
Qed.

Lemma password_round_trip_witness :
  signup "alice" "secret123" started_world
    = (Ok (true, "Account created"%string), snd (signup "alice" "secret123" started_world))
  /\ fst (check_credentials "alice" "secret123"
            (snd (signup "alice" "secret123" started_world))) = Ok true.
Proof.
  split.
  - vm_compute. reflexivity.
  - apply (password_round_trip "alice" "secret123" "Account created" started_world).
    vm_compute. reflexivity.
Defined.

(** The sample tables satisfy their declared keys. *)
Lemma legacy_users_canonical : canonical legacy_users.
Proof.
  unfold canonical, keys_ok, legacy_users. cbn [ut_cols ut_pk ut_unique ut_rows].
  repeat split.
  - repeat constructor; discriminate.
  - refine (bool_decide_unpack _ _). vm_compute. reflexivity.
  - refine (bool_decide_unpack _ _). vm_compute. reflexivity.
Qed.

(** C3, as stated, fails: "carol" has the clear-text password [hex64], 64
    hexadecimal digits; [check_credentials] takes the stored value for a
    digest, compares it with the digest of what was typed and returns
    [False]; the table is left as it was. *)
Lemma legacy_hex_password_rejected :
  stored_password "carol" legacy_world = Some (Some hex64)
  /\ fst (check_credentials "carol" hex64 legacy_world) = Ok false
  /\ stored_password "carol" (snd (check_credentials "carol" hex64 legacy_world))
     = Some (Some hex64).
Proof. vm_compute. repeat split; reflexivity. Qed.

(** C3, amended. Lazy migration on login: in a users table with the
    canonical schema, when the stored password of [u] is the clear text
    [P] and [P] does not have the shape of a digest (64 hexadecimal
    digits), the first [check_credentials u P] returns [True]; after it the
    stored value is the digest of [P], which differs from [P]; and every
    later [check_credentials u P] returns [True]. *)
Theorem legacy_migration (u P : string) (w : world) (t : users_table) :
  users w = Some t ->
  canonical t ->
  stored_password u w = Some (Some P) ->
  looks_like_sha256 (Some P) = false ->
  fst (check_credentials u P w) = Ok true
  /\ stored_password u (snd (check_credentials u P w)) = Some (Some (hash_password P))
  /\ hash_password P <> P
  /\ forall n, fst (logins n u P (snd (check_credentials u P w))) = repeat (Ok true) n.
Proof.
  intros Hu Hc Hs Hshape.
  assert (Hm : missing_col ["id"; "password"; "username"] (ut_cols t) = None)
    by (apply canonical_readable; [exact Hc | reflexivity]).
  unfold stored_password in Hs. rewrite Hu in Hs.
  destruct (find (username_is u) (ut_rows t)) as [r|] eqn:Hf; [| discriminate].
  simpl in Hs. assert (Hp : u_password r = Some P) by congruence. clear Hs.
  assert (Hid : u_id r <> None).
  { destruct Hc as (_ & Hpk & _ & Hk & _). destruct (Hk Hpk) as [Hall _].
    rewrite List.Forall_forall in Hall. apply Hall.
    apply find_username in Hf. tauto. }
  pose proof (check_credentials_cases u P w t Hu Hm) as H.
  rewrite Hf, Hp, Hshape in H.
  rewrite bool_decide_eq_true_2 in H by reflexivity.
  destruct H as [fs H]. rewrite H. cbn [fst snd].
  pose proof (stored_after_update u (hash_password P) t r Hf Hid) as Hf'.
  repeat split.
  - unfold stored_password, set_files, set_users. cbn [users]. rewrite Hf'. reflexivity.
  - apply hash_differs. exact Hshape.
  - intros n.
    apply (logins_hashed u P (with_password (hash_password P) (u_id r) t)
                         (set_password (hash_password P) r) n).
    + exact Hm.
    + exact Hf'.
    + reflexivity.
    + reflexivity.
Qed.

Lemma legacy_migration_witness :
  users legacy_world = Some legacy_users
  /\ stored_password "bob" legacy_world = Some (Some "hunter2"%string)
  /\ looks_like_sha256 (Some "hunter2"%string) = false
  /\ fst (check_credentials "bob" "hunter2" legacy_world) = Ok true
  /\ stored_password "bob" (snd (check_credentials "bob" "hunter2" legacy_world))
     = Some (Some (hash_password "hunter2")).
Proof.
  pose proof (legacy_migration "bob" "hunter2" legacy_world legacy_users eq_refl
                legacy_users_canonical eq_refl eq_refl) as H.
  repeat split; try reflexivity; apply H.
Defined.




(** The same through two calls, whatever the schema: after a [signup] that
    succeeded, a second one for the same username fails, changes nothing,
    and one row carries the username. *)
Lemma signup_twice (u p p' msg : string) (w w1 : world) :
  signup u p w = (Ok (true, msg), w1) ->
  signup u p' w1 = (Ok (false, "Username already exists"%string), w1)
  /\ count_username u w1 = 1%nat.
Proof.
  intros Hs. apply signup_success in Hs.
  destruct Hs as [t [fs [Hu [Hm1 [Hm2 [Hf [_ [_ ->]]]]]]]].
  split.
  - unfold signup, try_except, bind.
    erewrite select_user_found; [| reflexivity | exact Hm1].
    cbn [ut_rows]. rewrite (find_app_none _ _ _ Hf).
    unfold username_is at 1. cbn [u_username]. rewrite String.eqb_refl. reflexivity.
  - unfold count_username. cbn. rewrite List.filter_app, length_app.
    assert (Hz : List.filter (username_is u) (ut_rows t) = []).
    { destruct (List.filter (username_is u) (ut_rows t)) as [|x l] eqn:Hfil; [reflexivity |].
      assert (Hx : In x (List.filter (username_is u) (ut_rows t)))
        by (rewrite Hfil; left; reflexivity).
      apply filter_In in Hx. destruct Hx as [Hx Hxu].
      pose proof (find_none _ _ Hf x Hx) as Hn. congruence. }
    rewrite Hz. cbn. unfold username_is. cbn. rewrite String.eqb_refl. reflexivity.
Qed.

(** The password update, row by row: the rows that carry the id get the
    new password, the others stay. *)
Lemma with_password_rows (h : string) (uid : option Z) (t : users_table)
    (i : nat) (r0 : user_row) :
  ut_rows t !! i = Some r0 ->
  ut_rows (with_password h uid t) !! i
  = Some (if id_is uid r0 then set_password h r0 else r0).
Proof.
  unfold with_password. cbn [ut_rows]. revert i.
  induction (ut_rows t) as [|a l IH]; intros i Hi; [discriminate |].
  destruct i as [|i]; cbn in Hi |- *.
  - inversion Hi; subst. reflexivity.
  - apply IH. exact Hi.
Qed.

(** C9, refuted as worded: a users table that start-up keeps as it is,
    with an [id] column that is no key, in which the rows of "bob" and
    "carol" carry the same id. The login of "bob" with his clear-text
    password rewrites the stored password of "carol" as well, who was not
    being verified. *)
Lemma login_rewrites_rows_sharing_the_id :
  ensure_users_table shared_id_world = (Ok tt, shared_id_world)
  /\ fst (check_credentials "bob" "hunter2" shared_id_world) = Ok true
  /\ stored_password "carol" shared_id_world = Some (Some "opensesame"%string)
  /\ stored_password "carol" (snd (check_credentials "bob" "hunter2" shared_id_world))
     = Some (Some (hash_password "hunter2")).
Proof. vm_compute. repeat split; reflexivity. Qed.

(** C9. Frame of [check_credentials]: when the stored password of the row
    read for [u] has the shape of a digest the users table is not written,
    whether the check succeeds or fails; the table changes only on a
    clear-text match that is accepted. What is rewritten when it changes
    is the password of every row whose id is the id read; a row with
    another id, or without id, is always left as it was. When [id] is the
    primary key the one row rewritten is the row read. *)
Theorem check_credentials_frame (u p : string) (w : world) (t : users_table) (r : user_row) :
  users w = Some t ->
  find (username_is u) (ut_rows t) = Some r ->
  (looks_like_sha256 (u_password r) = true ->
     users (snd (check_credentials u p w)) = users w)
  /\ (users (snd (check_credentials u p w)) <> users w ->
        looks_like_sha256 (u_password r) = false
        /\ u_password r = Some p
        /\ fst (check_credentials u p w) = Ok true)
  /\ (exists t', users (snd (check_credentials u p w)) = Some t'
                 /\ ut_cols t' = ut_cols t
                 /\ length (ut_rows t') = length (ut_rows t)
                 /\ forall (i : nat) (r0 : user_row),
                      ut_rows t !! i = Some r0 ->
                      ut_rows t' !! i = Some r0
                      \/ (id_is (u_id r) r0 = true
                          /\ ut_rows t' !! i = Some (set_password (hash_password p) r0)))
  /\ (users (snd (check_credentials u p w)) <> users w ->
        exists t', users (snd (check_credentials u p w)) = Some t'
                   /\ forall (i : nat) (r0 : user_row),
                        ut_rows t !! i = Some r0 ->
                        ut_rows t' !! i
                        = Some (if id_is (u_id r) r0
                                then set_password (hash_password p) r0 else r0))
  /\ (ut_pk t = true -> keys_ok t ->
        exists t', users (snd (check_credentials u p w)) = Some t'
                   /\ length (ut_rows t') = length (ut_rows t)
                   /\ forall (i : nat) (r0 : user_row),
                        ut_rows t !! i = Some r0 -> r0 <> r -> ut_rows t' !! i = Some r0).
Proof.
  intros Hu Hf.
  destruct (check_credentials_users u p w) as [Hsame | Hchg].
  - split; [| split; [| split; [| split]]].
    + intros _. exact Hsame.
    + intros Hne. contradiction.
    + exists t. rewrite Hsame. auto.
    + intros Hne. contradiction.
    + intros _ _. exists t. rewrite Hsame. auto.
  - destruct Hchg as (t0 & r1 & Hu0 & Hf0 & Hl & Hp & Hres & Hafter).
    assert (t0 = t) by congruence. subst t0.
    assert (r1 = r) by congruence. subst r1.
    split; [| split; [| split; [| split]]].
    + intros Hl'. congruence.
    + intros _. auto.
    + exists (with_password (hash_password p) (u_id r) t).
      split; [exact Hafter |]. split; [reflexivity |]. split.
      * unfold with_password. cbn [ut_rows]. apply length_map.
      * intros i r0 Hi. rewrite (with_password_rows _ _ _ _ _ Hi).
        destruct (id_is (u_id r) r0); [right | left]; auto.
    + intros _. exists (with_password (hash_password p) (u_id r) t).
      split; [exact Hafter |]. intros i r0 Hi. exact (with_password_rows _ _ _ _ _ Hi).
    + intros Hpk Hk. exists (with_password (hash_password p) (u_id r) t).
      split; [exact Hafter |]. split.
      * unfold with_password. cbn [ut_rows]. apply length_map.
      * apply with_password_others; auto. apply find_username in Hf. tauto.
Qed.

Lemma check_credentials_frame_witness :
  find (username_is "bob") (ut_rows legacy_users) = Some bob_row
  /\ ut_pk legacy_users = true
  /\ (exists t', users (snd (check_credentials "bob" "hunter2" legacy_world)) = Some t'
                 /\ ut_rows t' !! 1%nat = Some carol_row)
  /\ (looks_like_sha256 (u_password carol_row) = true ->
        users (snd (check_credentials "carol" "guess" legacy_world)) = users legacy_world).
Proof.
  split; [reflexivity |]. split; [reflexivity |]. split.
  - destruct (check_credentials_frame "bob" "hunter2" legacy_world legacy_users bob_row
                eq_refl eq_refl) as (_ & _ & _ & _ & H).
    destruct (H eq_refl (proj2 (proj2 (proj2 legacy_users_canonical)))) as (t' & Ht & _ & Hrows).
    exists t'. split; [exact Ht |].
    apply Hrows; [reflexivity | discriminate].
  - apply (check_credentials_frame "carol" "guess" legacy_world legacy_users carol_row
             eq_refl eq_refl).
Defined.

(** No row for the username: nothing is written either. *)
Lemma check_credentials_unknown (u p : string) (w : world) (t : users_table) :
  users w = Some t ->
  find (username_is u) (ut_rows t) = None ->
  users (snd (check_credentials u p w)) = users w.
Proof.
  intros Hu Hf. destruct (check_credentials_users u p w) as [Hsame | Hchg]; [exact Hsame |].
  destruct Hchg as (t0 & r1 & Hu0 & Hf0 & _). congruence.
Qed.

End Credentials.

(** ** Mirror files *)

Section Mirrors.

Lemma same_db_refl (w : world) : same_db w w.
Proof. unfold same_db. auto. Qed.

Lemma same_db_files (fs fs' : gmap string string) (w w' : world) :
  same_db w w' -> same_db (set_files fs w) (set_files fs' w').
Proof. unfold same_db, set_files. cbn. tauto. Qed.

Lemma db_only_ret {A} (a : A) : db_only (ret a).
Proof. intros w w' H. split; [reflexivity | exact H]. Qed.

Lemma db_only_bind {A B} (c : py A) (k : A -> py B) :
  db_only c -> (forall a, db_only (k a)) -> db_only (bind c k).
Proof.
  intros Hc Hk w w' Hw. unfold bind.
  destruct (Hc w w' Hw) as [Hv Hs].
  destruct (c w) as [[a|e] w1], (c w') as [[a'|e'] w1']; cbn in Hv, Hs; try discriminate.
  - inversion Hv; subst. apply Hk. exact Hs.
  - inversion Hv; subst. split; [reflexivity | exact Hs].
Qed.

Lemma db_only_try_except {A} (body : py A) (handler : string -> py A) :
  db_only body -> (forall e, db_only (handler e)) -> db_only (try_except body handler).
Proof.
  intros Hc Hk w w' Hw. unfold try_except.
  destruct (Hc w w' Hw) as [Hv Hs].
  destruct (body w) as [[a|e] w1], (body w') as [[a'|e'] w1']; cbn in Hv, Hs; try discriminate.
  - inversion Hv; subst. split; [reflexivity | exact Hs].
  - inversion Hv; subst. apply Hk. exact Hs.
Qed.

Lemma db_only_now : db_only now.
Proof. intros w w' H. unfold now. cbn. split; [f_equal; apply H | exact H]. Qed.

Lemma db_only_select_user (sel : list string) (name : string) : db_only (select_user sel name).
Proof. unfold select_user. db_statement. Qed.

Lemma db_only_insert_user (name pw ts : string) : db_only (insert_user name pw ts).
Proof. unfold insert_user. db_statement. Qed.

Lemma db_only_update_password (pw : string) (uid : option Z) : db_only (update_password pw uid).
Proof. unfold update_password. db_statement. Qed.

Lemma db_only_feedback_columns : db_only feedback_columns.
Proof. unfold feedback_columns. db_statement. Qed.

Lemma db_only_insert_feedback (named : list string) (name : string) (uid : option Z)
    (text ts : string) : db_only (insert_feedback named name uid text ts).
Proof. unfold insert_feedback. db_statement. Qed.

(** A mirror write in its try/except: always [Ok], whatever the files. *)
Lemma db_only_mirror (path : string) (header row : list string) :
  db_only (try_pass (csv_append path header row)).
Proof.
  intros w w' H.
  destruct (csv_append_pass path header row w) as [fs ->].
  destruct (csv_append_pass path header row w') as [fs' ->].
  split; [reflexivity | apply same_db_files; exact H].
Qed.

Lemma db_only_log_login (u : string) : db_only (log_login u).
Proof.
  intros w w' H.
  destruct (log_login_pass u w) as [fs ->].
  destruct (log_login_pass u w') as [fs' ->].
  split; [reflexivity | apply same_db_files; exact H].
Qed.

Lemma db_only_signup (u p : string) : db_only (signup u p).
Proof.
  unfold signup. apply db_only_try_except; [| intros e; apply db_only_ret].
  apply db_only_bind; [apply db_only_select_user | intros [r|]].
  - apply db_only_ret.
  - apply db_only_bind; [apply db_only_now | intros ts].
    apply db_only_bind; [apply db_only_insert_user | intros _].
    apply db_only_bind; [apply db_only_mirror | intros _].
    apply db_only_ret.
Qed.

Lemma db_only_resolve_user_id (u : string) : db_only (resolve_user_id u).
Proof.
  unfold resolve_user_id. destruct (truthy u); [| apply db_only_ret].
  apply db_only_bind; [apply db_only_select_user | intros r; apply db_only_ret].
Qed.

Lemma db_only_store_feedback (u : string) (uid : option Z) (fb ts : string) :
  db_only (store_feedback u uid fb ts).
Proof.
  unfold store_feedback.
  apply db_only_bind; [apply db_only_feedback_columns | intros cols].
  destruct (has_col "user_id" cols); apply db_only_insert_feedback.
Qed.

Lemma db_only_save_feedback (u fb : string) : db_only (save_feedback u fb).
Proof.
  unfold save_feedback. apply db_only_try_except; [| intros e; apply db_only_ret].
  apply db_only_bind; [apply db_only_now | intros ts].
  apply db_only_bind; [apply db_only_resolve_user_id | intros uid].
  apply db_only_bind; [apply db_only_store_feedback | intros _].
  apply db_only_bind; [apply db_only_mirror | intros _].
  apply db_only_ret.
Qed.

Lemma db_only_check_credentials (u p : string) : db_only (check_credentials u p).
Proof.
  unfold check_credentials.
  apply db_only_bind; [apply db_only_select_user | intros [r|]]; [| apply db_only_ret].
  destruct (looks_like_sha256 (u_password r)).
  - apply db_only_bind; [| intros _; apply db_only_ret].
    destruct (verify_password p _); [apply db_only_log_login | apply db_only_ret].
  - destruct (bool_decide _); [| apply db_only_ret].
    apply db_only_bind; [| intros _].
    + apply db_only_try_except; [apply db_only_update_password | intros e; apply db_only_ret].
    + apply db_only_bind; [apply db_only_log_login | intros _; apply db_only_ret].
Qed.

(** C7. Best-effort mirrors never fail the primary operation: when the
    insert into [users] (resp. [feedback]) succeeds, [signup] (resp.
    [save_feedback]) reports success and differs from the insert only in
    the files, whether or not the CSV append raised; and the value and the
    database effect of [signup], [save_feedback] and [check_credentials]
    are the same for any two states of the files and of their permissions. *)
Theorem mirror_failures_swallowed :
  (forall (u p : string) (w w1 : world),
      select_user ["id"] u w = (Ok None, w) ->
      insert_user u (hash_password p) (clock w) w = (Ok tt, w1) ->
      exists fs, signup u p w = (Ok (true, "Account created"%string), set_files fs w1))
  /\ (forall (u fb : string) (uid : option Z) (w w1 : world),
        resolve_user_id u w = (Ok uid, w) ->
        store_feedback u uid fb (clock w) w = (Ok tt, w1) ->
        exists fs, save_feedback u fb w = (Ok (true, "Saved"%string), set_files fs w1))
  /\ (forall u p : string, db_only (signup u p))
  /\ (forall u fb : string, db_only (save_feedback u fb))
  /\ (forall u p : string, db_only (check_credentials u p)).
Proof.
  split; [| split; [| split; [| split]]].
  - intros u p w w1 Hsel Hins.
    destruct (csv_append_pass USERS_EXPORT_PATH ["username"; "created_at"; "password"]
                [u; clock w; hash_password p] w1) as [fs Hfs].
    exists fs. unfold signup, try_except, bind. rewrite Hsel. unfold now.
    rewrite Hins, Hfs. reflexivity.
  - intros u fb uid w w1 Hres Hst.
    destruct (csv_append_pass FEEDBACK_LOG_PATH ["username"; "feedback"; "feedback_at"]
                [u; fb; clock w] w1) as [fs Hfs].
    exists fs. unfold save_feedback, try_except, bind. unfold now.
    rewrite Hres, Hst, Hfs. reflexivity.
  - exact db_only_signup.
  - exact db_only_save_feedback.
  - exact db_only_check_credentials.
Qed.

(** On a data directory where the mirror files cannot be written, the CSV
    append raises and both operations still report success. *)
Lemma mirror_failures_swallowed_witness :
  fst (csv_append USERS_EXPORT_PATH ["username"; "created_at"; "password"]
         ["dave"; clock mirrorless_world; hash_password "pw"]%string mirrorless_world)
    = Raise "[Errno 13] Permission denied"%string
  /\ fst (signup "dave" "pw" mirrorless_world) = Ok (true, "Account created"%string)
  /\ fst (save_feedback EmptyString "great tool" mirrorless_world) = Ok (true, "Saved"%string).
Proof.
  destruct mirror_failures_swallowed as (Hsignup & Hfeedback & _).
  split; [vm_compute; reflexivity |]. split.
  - destruct (Hsignup "dave" "pw" mirrorless_world
                (snd (insert_user "dave" (hash_password "pw") (clock mirrorless_world)
                        mirrorless_world))) as [fs ->].
    + vm_compute. reflexivity.
    + vm_compute. reflexivity.
    + reflexivity.
  - destruct (Hfeedback EmptyString "great tool" None mirrorless_world
                (snd (store_feedback EmptyString None "great tool" (clock mirrorless_world)
                        mirrorless_world))) as [fs ->].
    + vm_compute. reflexivity.
    + vm_compute. reflexivity.
    + reflexivity.
Defined.

End Mirrors.

(** ** Session marker *)

Section Session.

Lemma truthy_iff (s : string) : truthy s = true <-> s <> EmptyString.
Proof.
  unfold truthy. rewrite negb_true_iff. apply String.eqb_neq.
Qed.

(** The SELECT of [current_user] names [username] twice. *)
Lemma missing_col_select (cols : list string) :
  missing_col (["id"; "username"] ++ ["username"]) cols = missing_col ["id"; "username"] cols.
Proof.
  unfold missing_col. cbn [app find].
  destruct (sql_has_col "id" cols); cbn [negb]; [| reflexivity].
  destruct (sql_has_col "username" cols); reflexivity.
Qed.

(** [current_user], case by case. *)
Lemma current_user_run (w : world) :
  current_user w =
    match files w !! CURRENT_USER_FILE with
    | None => (Ok None, w)
    | Some content =>
        if truthy (marker_name content) then
          match users w with
          | None => (Raise "no such table: users", w)
          | Some t =>
              match missing_col ["id"; "username"] (ut_cols t) with
              | Some c => (Raise ("no such column: " ++ c), w)
              | None =>
                  (Ok match find (username_is (marker_name content)) (ut_rows t) with
                      | Some r => Some (mk_identity (u_id r) (u_username r))
                      | None => None
                      end, w)
              end
          end
        else (Ok None, w)
    end.
Proof.
  unfold current_user, bind, path_exists, read_text.
  destruct (files w !! CURRENT_USER_FILE) as [content|] eqn:Hfile.
  - rewrite bool_decide_eq_true_2 by eauto. rewrite Hfile.
    fold (marker_name content).
    destruct (truthy (marker_name content)); [| reflexivity].
    unfold select_user. destruct (users w) as [t|]; [| reflexivity].
    rewrite missing_col_select.
    destruct (missing_col ["id"; "username"] (ut_cols t)); [reflexivity |].
    destruct (find _ _); reflexivity.
  - rewrite bool_decide_eq_false_2 by (intros [x Hx]; discriminate). reflexivity.
Qed.

(** [current_user] on a users table that has the columns the SELECT
    names. *)
Lemma current_user_cases (w : world) (t : users_table) :
  users w = Some t ->
  missing_col ["id"; "username"] (ut_cols t) = None ->
  current_user w =
    (Ok match files w !! CURRENT_USER_FILE with
        | None => None
        | Some content =>
            if truthy (marker_name content) then
              match find (username_is (marker_name content)) (ut_rows t) with
              | Some r => Some (mk_identity (u_id r) (u_username r))
              | None => None
              end
            else None
        end, w).
Proof.
  intros Hu Hm. rewrite current_user_run, Hu, Hm.
  destruct (files w !! CURRENT_USER_FILE) as [content|]; [| reflexivity].
  destruct (truthy (marker_name content)); reflexivity.
Qed.

(** C8, as stated, fails: start-up keeps a users table that has the
    username, password and created_at columns and no id column; with such a
    table the marker names a user who exists, and [current_user] returns no
    identity: its SELECT names the id column and raises. *)
Lemma current_user_raises_without_id :
  ensure_users_table idless_session_world = (Ok tt, idless_session_world)
  /\ files idless_session_world !! CURRENT_USER_FILE = Some "bob"%string
  /\ marker_name "bob" = "bob"%string
  /\ (exists t r, users idless_session_world = Some t
                  /\ In r (ut_rows t) /\ u_username r = Some "bob"%string)
  /\ current_user idless_session_world = (Raise "no such column: id", idless_session_world).
Proof.
  split; [vm_compute; reflexivity |]. split; [vm_compute; reflexivity |].
  split; [vm_compute; reflexivity |]. split.
  - exists unconstrained_users, (mk_user None (Some "bob"%string) (Some "pw1"%string)
                                         (Some "2024-01-05 10:00:00"%string)).
    split; [reflexivity |]. split; [left; reflexivity | reflexivity].
  - vm_compute. reflexivity.
Qed.

(** C8, amended. Session resolution: [current_user] returns an identity
    if and only if the marker file exists, its content, read as text and
    stripped of white space, is not empty, SQLite finds the [id] and
    [username] columns in the users table, and a row of the table has that
    username; the identity then carries that username. On such a table a
    marker naming a username absent from the table yields [None], as do no
    marker and a marker of white space on any table. With a name in the
    marker and no users table, or a users table without one of the two
    columns, [current_user] raises. It never changes anything. *)
Theorem current_user_resolution (w : world) :
  ((exists who, fst (current_user w) = Ok (Some who))
   <-> (exists content t r,
          files w !! CURRENT_USER_FILE = Some content
          /\ marker_name content <> EmptyString
          /\ users w = Some t
          /\ missing_col ["id"; "username"] (ut_cols t) = None
          /\ In r (ut_rows t) /\ u_username r = Some (marker_name content)))
  /\ (forall who content,
        files w !! CURRENT_USER_FILE = Some content ->
        fst (current_user w) = Ok (Some who) ->
        ident_username who = Some (marker_name content))
  /\ (forall content t,
        files w !! CURRENT_USER_FILE = Some content ->
        users w = Some t ->
        missing_col ["id"; "username"] (ut_cols t) = None ->
        (forall r, In r (ut_rows t) -> u_username r <> Some (marker_name content)) ->
        fst (current_user w) = Ok None)
  /\ (files w !! CURRENT_USER_FILE = None -> fst (current_user w) = Ok None)
  /\ (forall content,
        files w !! CURRENT_USER_FILE = Some content ->
        marker_name content = EmptyString ->
        fst (current_user w) = Ok None)
  /\ (forall content,
        files w !! CURRENT_USER_FILE = Some content ->
        marker_name content <> EmptyString ->
        users w = None
        \/ (exists t c, users w = Some t
                        /\ missing_col ["id"; "username"] (ut_cols t) = Some c) ->
        exists e, fst (current_user w) = Raise e)
  /\ snd (current_user w) = w.
Proof.
  rewrite current_user_run.
  split; [| split; [| split; [| split; [| split; [| split]]]]].
  - split.
    + intros [who Hwho].
      destruct (files w !! CURRENT_USER_FILE) as [content|]; [| discriminate].
      destruct (truthy (marker_name content)) eqn:Ht; [| discriminate].
      destruct (users w) as [t|]; [| discriminate].
      destruct (missing_col ["id"; "username"] (ut_cols t)) eqn:Hm; [discriminate |].
      destruct (find (username_is (marker_name content)) (ut_rows t)) as [r|] eqn:Hf;
        [| discriminate].
      apply find_username in Hf. apply truthy_iff in Ht.
      exists content, t, r. tauto.
    + intros (content & t & r & Hfile & Hne & Hu & Hm & Hin & Hname).
      rewrite Hfile, Hu, Hm. apply truthy_iff in Hne. rewrite Hne.
      destruct (username_found _ _ _ Hin Hname) as [r' ->]. eauto.
  - intros who content Hfile Hwho. rewrite Hfile in Hwho.
    destruct (truthy (marker_name content)); [| discriminate].
    destruct (users w) as [t|]; [| discriminate].
    destruct (missing_col ["id"; "username"] (ut_cols t)); [discriminate |].
    destruct (find (username_is (marker_name content)) (ut_rows t)) as [r|] eqn:Hf;
      [| discriminate].
    apply find_username in Hf. inversion Hwho; subst. cbn. tauto.
  - intros content t Hfile Hu Hm Hnone. rewrite Hfile, Hu, Hm.
    destruct (truthy (marker_name content)); [| reflexivity].
    destruct (find (username_is (marker_name content)) (ut_rows t)) as [r|] eqn:Hf;
      [| reflexivity].
    apply find_username in Hf. exfalso. apply (Hnone r); tauto.
  - intros ->. reflexivity.
  - intros content Hfile Hempty. rewrite Hfile, Hempty. reflexivity.
  - intros content Hfile Hne Hbad. rewrite Hfile.
    apply truthy_iff in Hne. rewrite Hne.
    destruct Hbad as [-> | (t & c & -> & ->)]; eexists; reflexivity.
  - destruct (files w !! CURRENT_USER_FILE) as [content|]; [| reflexivity].
    destruct (truthy (marker_name content)); [| reflexivity].
    destruct (users w) as [t|]; [| reflexivity].
    destruct (missing_col ["id"; "username"] (ut_cols t)); reflexivity.
Qed.

Lemma current_user_resolution_witness :
  (exists who, fst (current_user logged_in_world) = Ok (Some who))
  /\ fst (current_user stale_world) = Ok None.
Proof.
  split.
  - apply (proj1 (current_user_resolution logged_in_world)).
    exists (String.append "bob" (String (ascii_of_nat 10) EmptyString)), legacy_users, bob_row.
    split; [vm_compute; reflexivity |]. split; [vm_compute; discriminate |].
    split; [reflexivity |]. split; [reflexivity |].
    split; [left; reflexivity | vm_compute; reflexivity].
  - destruct (current_user_resolution stale_world) as (_ & _ & H & _).
    apply (H "zed"%string legacy_users); [vm_compute; reflexivity | reflexivity | reflexivity |].
    intros r [<- | [<- | []]]; vm_compute; discriminate.
Defined.

End Session.

(** ** Data Analysis page: the row window *)

Section Window.
Import Analysis.
Local Open Scope Z_scope.

(** A slice within bounds is the [n] elements from position [a]. *)
Lemma slice_within {A} (l : list A) (a n : Z) :
  0 <= a -> 0 <= n -> a + n <= Z.of_nat (length l) ->
  slice l a (a + n) = firstn (Z.to_nat n) (skipn (Z.to_nat a) l)
  /\ Z.of_nat (length (slice l a (a + n))) = n.
Proof.
  intros Ha Hn Hb. unfold slice, slice_index.
  destruct (Z.ltb_spec a 0) as [Hlt | _]; [lia |].
  destruct (Z.ltb_spec (a + n) 0) as [Hlt | _]; [lia |].
  rewrite (Z.min_l a) by lia. rewrite (Z.min_l (a + n)) by lia.
  replace (a + n - a) with n by lia.
  split; [reflexivity |].
  rewrite length_take, length_drop. lia.
Qed.

Lemma slice_empty {A} (l : list A) : slice l 0 0 = [].
Proof.
  unfold slice, slice_index. change (0 <? 0) with false. cbv iota.
  rewrite Z.min_l by lia. reflexivity.
Qed.

(** The range of the start-row slider is always [0, max(0, R - N)]. *)
Lemma range_clamped (df : dataframe) (rows data_from : Z) (cols : list nat)
    (prev : option dataframe) :
  v_range (select_range df rows data_from cols prev) = (0, Z.max 0 (len df - rows)).
Proof. unfold select_range. destruct (_ >? 0); reflexivity. Qed.

(** With fewer rows asked for than the filtered table has, every start row
    of the slider's range gives exactly [rows] rows, those from [data_from]
    on. *)
Lemma window_exact (df : dataframe) (rows data_from : Z) (cols : list nat)
    (prev : option dataframe) :
  0 <= rows < len df ->
  0 <= data_from <= len df - rows ->
  let v := select_range df rows data_from cols prev in
  v_slider v = true
  /\ df_rows (v_window v) = firstn (Z.to_nat rows) (skipn (Z.to_nat data_from) (df_rows df))
  /\ Z.of_nat (length (df_rows (v_window v))) = rows
  /\ length (df_rows (v_displayed v)) = length (df_rows (v_window v)).
Proof.
  intros Hr Ho. unfold select_range.
  destruct (Z.gtb_spec (Z.max 0 (len df - rows)) 0) as [_ | Hle]; [| lia].
  cbn [v_slider v_window v_displayed iloc take_columns df_rows].
  unfold len in *.
  destruct (slice_within (df_rows df) data_from rows) as [Hs Hl]; try lia.
  rewrite Hs. split; [reflexivity |]. split; [reflexivity |].
  split; [rewrite <- Hs; exact Hl | apply length_map].
Qed.

(** With at least as many rows asked for as the filtered table has, no
    slider is drawn and the window is empty; nothing raises, the function
    being total. *)
Lemma window_empty (df : dataframe) (rows data_from : Z) (cols : list nat)
    (prev : option dataframe) :
  len df <= rows ->
  let v := select_range df rows data_from cols prev in
  v_slider v = false /\ df_rows (v_window v) = [] /\ df_rows (v_displayed v) = []
  /\ v_result v = prev.
Proof.
  intros Hr. unfold select_range.
  destruct (Z.gtb_spec (Z.max 0 (len df - rows)) 0) as [Hgt | _]; [lia |].
  cbn [v_slider v_window v_displayed v_result iloc df_rows].
  rewrite slice_empty. auto.
Qed.

(** C1, at the boundary. The filtered table has R = 5 rows and N = 5 rows
    are asked for, so N <= R and 0 is the one offset of [0, R - N]; the
    page shows no row, draws no slider and prints "No data to display for
    the selected filters." The five rows of the claim are not shown. *)
Theorem window_of_all_rows_is_empty :
  len five_rows = 5
  /\ v_range (select_range five_rows 5 0 [0%nat; 1%nat] None) = (0, 0)
  /\ df_rows (v_window (select_range five_rows 5 0 [0%nat; 1%nat] None)) = []
  /\ df_rows (v_displayed (select_range five_rows 5 0 [0%nat; 1%nat] None)) = []
  /\ v_info (select_range five_rows 5 0 [0%nat; 1%nat] None)
     = Some "No data to display for the selected filters."%string
  /\ page_analysis five_rows 5 0 EmptyString 0 [0%nat; 1%nat] None
     = Some (select_range five_rows 5 0 [0%nat; 1%nat] None).
Proof. vm_compute. repeat split; reflexivity. Qed.

(** The same for every table: asking for exactly as many rows as the
    filtered table has shows none of them. *)
Lemma window_at_boundary (df : dataframe) (cols : list nat) (prev : option dataframe) :
  df_rows (v_window (select_range df (len df) 0 cols prev)) = [].
Proof. apply window_empty. lia. Qed.

End Window.

(** ** Data Analysis page: the search filter *)

Section Search.
Import Analysis.














End Search.

(** ** Charts page *)

Section ChartValidation.
Import Charts.

Variable figure : Type.
Variable px : px_call -> Analysis.dataframe -> outcome figure.

(** C6. Chart validation: pressing "Create Chart" for a Density Heatmap or
    a Heatmap with no Y column shows the validation error, calls plotly
    for nothing and leaves the session, the retained last chart included,
    as it was. *)
Theorem heatmap_requires_y (df : Analysis.dataframe) (x_col : string)
    (color_col : option string) (s : session figure) :
  create_chart figure px df DensityHeatmap x_col None color_col s
    = (s, [st_error "Density Heatmap requires both X and Y numeric columns"])
  /\ create_chart figure px df Heatmap x_col None color_col s
     = (s, [st_error "Heatmap requires both X and Y columns"])
  /\ dispatch DensityHeatmap x_col None (build_kwargs DensityHeatmap x_col None color_col)
     = inr "Density Heatmap requires both X and Y numeric columns"%string
  /\ dispatch Heatmap x_col None (build_kwargs Heatmap x_col None color_col)
     = inr "Heatmap requires both X and Y columns"%string.
Proof. repeat split; reflexivity. Qed.

(** With a Y column the same request reaches plotly, and its figure becomes
    the retained chart. *)
Lemma heatmap_with_y (df : Analysis.dataframe) (x_col y_col : string)
    (color_col : option string) (s : session figure) (fig : figure) :
  truthy y_col = true ->
  px (px_density_heatmap x_col y_col) df = Ok fig ->
  create_chart figure px df Heatmap x_col (Some y_col) color_col s
    = (mk_session figure (Some fig) true, [st_success "Chart created"]).
Proof.
  intros Hy Hpx. unfold create_chart, dispatch, chosen. rewrite Hy.
  simpl. rewrite Hpx. reflexivity.
Qed.

(** A figure plotly fails to build is reported and the session kept. *)
Lemma chart_failure_reported (df : Analysis.dataframe) (kind : chart_type) (x_col : string)
    (y_col color_col : option string) (s : session figure) (call : px_call) (e : string) :
  dispatch kind x_col y_col (build_kwargs kind x_col y_col color_col) = inl call ->
  px call df = Raise e ->
  create_chart figure px df kind x_col y_col color_col s
    = (s, [st_error ("Chart creation failed: " ++ e)]).
Proof. intros Hd Hpx. unfold create_chart. rewrite Hd, Hpx. reflexivity. Qed.

End ChartValidation.

(** ** Schema of the users table *)

Section Schema.

Lemma largest_id_bounds (rows : list user_row) (x : user_row) (i : Z) :
  In x rows -> u_id x = Some i -> exists m, largest_id rows = Some m /\ (i <= m)%Z.
Proof.
  induction rows as [|a rows IH]; intros Hin Hi; [destruct Hin |].
  cbn [largest_id fold_right]. fold (largest_id rows). destruct Hin as [-> | Hin].
  - rewrite Hi. destruct (largest_id rows) as [j|]; eexists; split; try reflexivity; lia.
  - destruct (IH Hin Hi) as [m [-> Hm]].
    destruct (u_id a) as [k|]; eexists; split; try reflexivity; lia.
Qed.

Lemma next_rowid_fresh (rows : list user_row) (x : user_row) (i : Z) :
  In x rows -> u_id x = Some i -> (i < next_rowid rows)%Z.
Proof.
  intros Hin Hi. unfold next_rowid.
  destruct (largest_id_bounds rows x i Hin Hi) as [m [-> Hm]]. lia.
Qed.

Lemma existsb_false_all {A} (f : A -> bool) (l : list A) (x : A) :
  existsb f l = false -> In x l -> f x = false.
Proof.
  intros He Hin. destruct (f x) eqn:Hfx; [| reflexivity].
  assert (existsb f l = true) by (apply existsb_exists; eauto). congruence.
Qed.













End Schema.

(** ** The canonical schema is an invariant *)

Section Invariant.


(** The id [signup] gives is larger than the ids in the table, and
    larger than the sequence of an AUTOINCREMENT table. *)
Lemma new_user_id_fresh (t : users_table) (seq : option Z) (i : Z) :
  new_user_id t seq = Some i ->
  (forall x a, In x (ut_rows t) -> u_id x = Some a -> (a < i)%Z)
  /\ (forall q, seq = Some q -> (q < i)%Z).
Proof.
  unfold new_user_id. destruct (ut_pk t); [| discriminate].
  intros H. inversion H as [Hi]. clear H. split.
  - intros x a Hx Ha. pose proof (next_rowid_fresh _ x a Hx Ha).
    destruct seq; unfold next_autoincrement; lia.
  - intros q ->. unfold next_autoincrement. lia.
Qed.

Lemma new_user_id_key (t : users_table) (seq : option Z) :
  ut_pk t = true -> exists i, new_user_id t seq = Some i.
Proof. intros Hpk. unfold new_user_id. rewrite Hpk. eauto. Qed.

(** A row with a new id and a new username keeps the keys. *)
Lemma appended_canonical (t : users_table) (r : user_row) :
  canonical t ->
  (exists i, u_id r = Some i /\ existsb (id_is (Some i)) (ut_rows t) = false) ->
  existsb (same_username (u_username r)) (ut_rows t) = false ->
  canonical (mk_users (ut_cols t) (ut_pk t) (ut_unique t) (ut_rows t ++ [r])).
Proof.
  intros Hc (i & Hi & Hid) Hname.
  destruct Hc as (Hcols & Hpk & Huq & Hk1 & Hk2).
  destruct (Hk1 Hpk) as [Hall Hnd]. specialize (Hk2 Huq).
  unfold canonical, keys_ok. cbn [ut_cols ut_pk ut_unique ut_rows].
  split; [exact Hcols |]. split; [exact Hpk |]. split; [exact Huq |]. split.
  - intros _. split.
    + apply Forall_app_2; [exact Hall |]. constructor; [congruence | constructor].
    + rewrite map_app. apply NoDup_app. split; [exact Hnd |]. split.
      * intros v Hv Hv'. cbn in Hv'. apply list_elem_of_singleton in Hv'. subst v.
        apply list_elem_of_In, in_map_iff in Hv. destruct Hv as [y [Hy Hin]].
        pose proof (existsb_false_all _ _ y Hid Hin) as Hf.
        unfold id_is in Hf. rewrite Hy, Hi, Z.eqb_refl in Hf. discriminate.
      * cbn. apply NoDup_singleton.
  - intros _. rewrite omap_app. apply NoDup_app. split; [exact Hk2 |]. split.
    + intros n Hn Hn'. cbn in Hn'.
      destruct (u_username r) as [m|] eqn:Hm; cbn in Hn'.
      2:{ apply not_elem_of_nil in Hn'. exact Hn'. }
      apply list_elem_of_singleton in Hn'. subst m.
      apply list_elem_of_omap in Hn. destruct Hn as [y [Hin Hy]].
      apply list_elem_of_In in Hin.
      pose proof (existsb_false_all _ _ y Hname Hin) as Hf.
      unfold same_username, username_is in Hf. rewrite Hy, String.eqb_refl in Hf.
      discriminate.
    + cbn. destruct (u_username r); cbn; [apply NoDup_singleton | apply NoDup_nil_2].
Qed.

(** The INSERT of [signup], when it goes through. *)
Lemma insert_user_ok (u pw ts : string) (w w1 : world) :
  insert_user u pw ts w = (Ok tt, w1) ->
  exists t,
    users w = Some t
    /\ missing_col ["username"; "password"; "created_at"] (ut_cols t) = None
    /\ users_full t (users_seq w) = false
    /\ ut_unique t && existsb (username_is u) (ut_rows t) = false
    /\ w1 = set_users_seq (new_users_seq t (users_seq w))
              (set_users
                 (Some (mk_users (ut_cols t) (ut_pk t) (ut_unique t)
                          (ut_rows t ++ [mk_user (new_user_id t (users_seq w))
                                                 (Some u) (Some pw) (Some ts)])))
                 w).
Proof.
  unfold insert_user. destruct (users w) as [t|]; [| discriminate].
  destruct (missing_col _ _) eqn:Hm; [discriminate |].
  destruct (users_full t (users_seq w)) eqn:Hfull; [discriminate |].
  destruct (ut_unique t && _) eqn:Htaken; [discriminate |].
  intros H. inversion H. exists t. repeat split; auto.
Qed.

Lemma insert_user_raises (u pw ts e : string) (w w1 : world) :
  insert_user u pw ts w = (Raise e, w1) -> w1 = w.
Proof.
  unfold insert_user. destruct (users w) as [t|]; [| intros H; inversion H; reflexivity].
  destruct (missing_col _ _); [intros H; inversion H; reflexivity |].
  destruct (users_full _ _); [intros H; inversion H; reflexivity |].
  destruct (_ && _); intros H; inversion H; reflexivity.
Qed.

(** [signup] keeps the users table canonical. *)
Lemma signup_keeps_canonical (u p : string) (w : world) (t : users_table) :
  users w = Some t -> canonical t ->
  exists t', users (snd (signup u p w)) = Some t' /\ canonical t'.
Proof.
  intros Hu Hc.
  assert (Hm : missing_col (["id"] ++ ["username"]) (ut_cols t) = None)
    by (apply canonical_readable; [exact Hc | reflexivity]).
  unfold signup, try_except. unfold bind at 1.
  rewrite (select_user_found ["id"] u w t Hu Hm).
  destruct (find (username_is u) (ut_rows t)) as [r|] eqn:Hf.
  - exists t. split; [exact Hu | exact Hc].
  - unfold bind at 1. unfold now. unfold bind at 1.
    destruct (insert_user u (hash_password p) (clock w) w) as [[[]|e] w1] eqn:Hins.
    2:{ apply insert_user_raises in Hins. subst w1. exists t. split; [exact Hu | exact Hc]. }
    apply insert_user_ok in Hins. destruct Hins as (t0 & Hu0 & _ & _ & _ & ->).
    assert (t0 = t) by congruence. subst t0.
    unfold bind.
    match goal with |- context [try_pass (csv_append ?a ?b ?c) ?w'] =>
      destruct (csv_append_pass a b c w') as [fs Hfs]; rewrite Hfs end.
    eexists. split; [reflexivity |].
    pose proof Hc as (_ & Hpk & _).
    destruct (new_user_id_key t (users_seq w) Hpk) as [i Hi].
    apply appended_canonical; [exact Hc | |].
    + exists i. cbn [u_id]. split; [exact Hi |].
      destruct (existsb (id_is (Some i)) (ut_rows t)) eqn:He; [| reflexivity].
      apply existsb_exists in He. destruct He as [x [Hx Hid]].
      unfold id_is in Hid. destruct (u_id x) as [a|] eqn:Ha; [| discriminate].
      apply Z.eqb_eq in Hid. subst a.
      pose proof (proj1 (new_user_id_fresh t _ i Hi) x i Hx Ha). lia.
    + cbn [u_username]. exact (existsb_find_none _ _ Hf).
Qed.

Lemma omap_map_same {A B} (f : A -> option B) (g : A -> A) (l : list A) :
  (forall x, f (g x) = f x) -> omap f (map g l) = omap f l.
Proof.
  intros H. induction l as [|a l IH]; [reflexivity |].
  change (omap f (map g (a :: l)))
    with (match f (g a) with Some y => y :: omap f (map g l) | None => omap f (map g l) end).
  change (omap f (a :: l))
    with (match f a with Some y => y :: omap f l | None => omap f l end).
  rewrite H, IH. reflexivity.
Qed.

Lemma with_password_canonical (h : string) (uid : option Z) (t : users_table) :
  canonical t -> canonical (with_password h uid t).
Proof.
  intros (Hcols & Hpk & Huq & Hk1 & Hk2).
  assert (Hids : map u_id (ut_rows (with_password h uid t)) = map u_id (ut_rows t)).
  { unfold with_password. cbn [ut_rows]. rewrite map_map. apply map_ext.
    intros r. destruct (id_is uid r); reflexivity. }
  assert (Hnames : omap u_username (ut_rows (with_password h uid t))
                   = omap u_username (ut_rows t)).
  { unfold with_password. cbn [ut_rows]. apply omap_map_same.
    intros r. destruct (id_is uid r); reflexivity. }
  unfold canonical, keys_ok. rewrite Hids, Hnames.
  split; [exact Hcols |]. split; [exact Hpk |]. split; [exact Huq |]. split.
  - intros _. destruct (Hk1 Hpk) as [Hall Hnd]. split; [| exact Hnd].
    unfold with_password. cbn [ut_rows]. rewrite List.Forall_forall in Hall |- *.
    intros x Hx. apply in_map_iff in Hx. destruct Hx as [y [<- Hy]].
    destruct (id_is uid y); [cbn [set_password u_id] |]; apply Hall; exact Hy.
  - exact Hk2.
Qed.

(** [check_credentials] keeps the users table canonical. *)
Lemma check_credentials_keeps_canonical (u p : string) (w : world) (t : users_table) :
  users w = Some t -> canonical t ->
  exists t', users (snd (check_credentials u p w)) = Some t' /\ canonical t'.
Proof.
  intros Hu Hc. destruct (check_credentials_users u p w) as [Hsame | Hchg].
  - exists t. rewrite Hsame. split; [exact Hu | exact Hc].
  - destruct Hchg as (t0 & r & Hu0 & _ & _ & _ & _ & Hafter).
    assert (t0 = t) by congruence. subst t0.
    eexists. split; [exact Hafter |]. apply with_password_canonical. exact Hc.
Qed.

End Invariant.

(** ** Scenarios of the specification, run on the embedding *)

Section Scenarios.

(** "alice"/"secret123" signs up, logs in, is refused with a wrong
    password, and her feedback is stored under her name with her id. *)
Example alice_scenario :
  let w1 := snd (signup "alice" "secret123" started_world) in
  let w2 := snd (check_credentials "alice" "secret123" w1) in
  let w3 := snd (save_feedback "alice" "great tool" w2) in
  fst (signup "alice" "secret123" started_world) = Ok (true, "Account created"%string)
  /\ fst (check_credentials "alice" "secret123" w1) = Ok true
  /\ fst (check_credentials "alice" "secret1234" w2) = Ok false
  /\ fst (save_feedback "alice" "great tool" w2) = Ok (true, "Saved"%string)
  /\ option_map ft_rows (feedback w3)
     = Some [mk_feedback 1 "alice" (Some 1%Z) "great tool" "2025-07-01 09:30:00"]
  /\ files w3 !! USER_ACTIVITY_PATH
     = Some (csv_line ["username"; "event"; "at"]
             ++ csv_line ["alice"; "login"; "2025-07-01 09:30:00"])%string.
Proof. vm_compute. repeat split; reflexivity. Qed.

(** A table of three rows, window of two rows from offset one: the second
    and third rows. *)
Example window_scenario :
  Analysis.df_rows
    (Analysis.v_window (Analysis.select_range Analysis.three_rows 2 1 [0; 1]%nat None))
  = [[Analysis.CStr "b"; Analysis.CInt 20]; [Analysis.CStr "c"; Analysis.CInt 30]].
Proof. vm_compute. reflexivity. Qed.

(** Login, then the marker: [set_current_user] followed by
    [current_user] resolves the user; after [clear_current_user] there is
    no session. *)
Example session_scenario :
  let w1 := snd (set_current_user "bob" legacy_world) in
  let w2 := snd (clear_current_user w1) in
  fst (current_user w1) = Ok (Some (mk_identity (Some 1%Z) (Some "bob"%string)))
  /\ fst (current_user w2) = Ok None
  /\ fst (current_user legacy_world) = Ok None.
Proof. vm_compute. repeat split; reflexivity. Qed.

(** [str.strip()] on the marker's content: blanks and line ends go, and
    so does the no-break space; what is inside the text stays. A marker
    written with a carriage return reads back with a line feed. *)
Example strip_examples :
  strip (String.append "  bob " (String (ascii_of_nat 10) EmptyString)) = "bob"%string
  /\ strip "   " = EmptyString
  /\ strip "a b" = "a b"%string
  /\ strip nbsp_love_it = "love it"%string
  /\ strip nbsp = EmptyString
  /\ text_mode (String.append "bob" (String (ascii_of_nat 13) "x"))
     = String.append "bob" (String (ascii_of_nat 10) "x")
  /\ marker_name (String.append "bob" (String (ascii_of_nat 13) EmptyString)) = "bob"%string.
Proof. vm_compute. repeat split; reflexivity. Qed.

End Scenarios.

(* ===================================================================== *)
(** * Part III: further properties of the code                            *)
(* ===================================================================== *)

(** ** Credential store: what a call leaves behind *)

Section StoreBehaviour.

Lemma csv_append_effect (path : string) (header row : list string) (w : world) :
  try_pass (csv_append path header row) w
  = (Ok tt, set_files (appended path header row w) w).
Proof.
  unfold try_pass, try_except, csv_append, appended, ret.
  destruct (bool_decide _).
  - rewrite set_files_same. reflexivity.
  - destruct (files w !! path); reflexivity.
Qed.

Lemma log_login_effect (u : string) (w : world) :
  log_login u w
  = (Ok tt, set_files (appended USER_ACTIVITY_PATH ["username"; "event"; "at"]
                         [u; "login"; clock w]%string w) w).
Proof.
  unfold log_login, try_pass, try_except, bind, now, csv_append, appended, ret.
  destruct (bool_decide _).
  - rewrite set_files_same. reflexivity.
  - destruct (files w !! USER_ACTIVITY_PATH); reflexivity.
Qed.

Lemma select_user_result (sel : list string) (name : string) (w : world) :
  exists o, select_user sel name w = (o, w).
Proof.
  unfold select_user. destruct (users w) as [t|]; [| eauto].
  destruct (missing_col _ _); eauto.
Qed.

Lemma signup_refused_frame (u p msg : string) (w w' : world) :
  signup u p w = (Ok (false, msg), w') -> w' = w.
Proof.
  unfold signup, try_except. unfold bind at 1.
  destruct (select_user_result ["id"] u w) as [[found|e] ->].
  2:{ intros H. inversion H. reflexivity. }
  destruct found as [r|].
  { intros H. inversion H. reflexivity. }
  unfold bind at 1. unfold now. unfold bind at 1.
  destruct (insert_user u (hash_password p) (clock w) w) as [[[]|e] w1] eqn:Hins.
  - unfold bind. rewrite csv_append_effect. intros H. inversion H.
  - apply insert_user_raises in Hins. subst w1. intros H. inversion H. reflexivity.
Qed.

Lemma signup_returns (u p : string) (w : world) :
  exists res w', signup u p w = (Ok res, w').
Proof.
  unfold signup, try_except. unfold bind at 1.
  destruct (select_user_result ["id"] u w) as [[found|e] ->]; [| eexists _, _; reflexivity].
  destruct found as [r|]; [eexists _, _; reflexivity |].
  unfold bind at 1. unfold now. unfold bind at 1.
  destruct (insert_user u (hash_password p) (clock w) w) as [[[]|e] w1] eqn:Hins.
  - unfold bind. rewrite csv_append_effect. eexists _, _; reflexivity.
  - eexists _, _; reflexivity.
Qed.

(** X1. [signup] never raises, and when it reports a failure (username
    taken, or an error of the database turned into a message) it has
    changed nothing, neither a table nor a file. *)
Theorem signup_all_or_nothing (u p : string) (w : world) :
  exists ok msg w',
    signup u p w = (Ok (ok, msg), w') /\ (ok = false -> w' = w).
Proof.
  unfold signup, try_except. unfold bind at 1.
  destruct (select_user_result ["id"] u w) as [[found|e] ->].
  2:{ exists false, e, w. split; [reflexivity | auto]. }
  destruct found as [r|].
  { exists false, "Username already exists"%string, w. split; [reflexivity | auto]. }
  unfold bind at 1. unfold now. unfold bind at 1.
  destruct (insert_user u (hash_password p) (clock w) w) as [[[]|e] w1] eqn:Hins.
  - unfold bind. rewrite csv_append_effect.
    eexists true, _, _. split; [reflexivity | discriminate].
  - apply insert_user_raises in Hins. subst w1.
    exists false, e, w. split; [reflexivity | auto].
Qed.

(** X2. A [signup] that succeeds appends exactly one row after the rows
    already there, which it leaves as they were: the username, the SHA-256
    digest of the password (a text of the digest's shape, not the password
    typed) and the clock. The row has no id when [id] is not the primary
    key of the table. Otherwise its id is one no row of the table has, at
    most 2^63-1: in an AUTOINCREMENT table it is above every id the table
    holds and has held, and the sequence records it; in a table without
    AUTOINCREMENT it is one more than the largest id, or 1 (the ids SQLite
    draws at random once the largest id is 2^63-1 are left out: there the
    embedded [signup] fails). It writes no other table, and its one file
    effect is the best-effort line in the users export, the fields quoted
    where CSV asks for it (stated for a username without carriage
    return). *)
Theorem signup_effect (u p msg : string) (w w1 : world) :
  signup u p w = (Ok (true, msg), w1) ->
  no_carriage_return u = true ->
  exists t id,
    users w = Some t
    /\ find (username_is u) (ut_rows t) = None
    /\ users w1 = Some (mk_users (ut_cols t) (ut_pk t) (ut_unique t)
                          (ut_rows t ++
                           [mk_user id (Some u) (Some (hash_password p)) (Some (clock w))]))
    /\ (ut_pk t = false -> id = None /\ users_seq w1 = users_seq w)
    /\ (ut_pk t = true ->
        exists i, id = Some i
          /\ Forall (fun r => u_id r <> Some i) (ut_rows t)
          /\ match users_seq w with
             | Some q =>
                 Forall (fun r => forall a, u_id r = Some a -> (a < i)%Z) (ut_rows t)
                 /\ (q < i <= max_rowid)%Z
                 /\ users_seq w1 = Some i
             | None =>
                 i = next_rowid (ut_rows t) /\ (i <= max_rowid)%Z
                 /\ users_seq w1 = None
             end)
    /\ looks_like_sha256 (Some (hash_password p)) = true
    /\ users_new w1 = users_new w /\ feedback w1 = feedback w
    /\ files w1 = appended USERS_EXPORT_PATH ["username"; "created_at"; "password"]
                    [u; clock w; hash_password p] w.
Proof.
  intros Hs _. revert Hs.
  unfold signup, try_except. unfold bind at 1.
  destruct (select_user ["id"] u w) as [[found|e] w0] eqn:Hsel.
  2:{ unfold ret. intros H. inversion H. }
  apply select_user_ok in Hsel. destruct Hsel as [-> [t [Hu [Hm Hf]]]].
  destruct found as [r|].
  { unfold ret. intros H. inversion H. }
  unfold bind at 1. unfold now. unfold bind at 1. unfold insert_user. rewrite Hu.
  destruct (missing_col ["username"; "password"; "created_at"] (ut_cols t)) eqn:Hm2.
  { unfold ret. intros H. inversion H. }
  destruct (users_full t (users_seq w)) eqn:Hfull.
  { unfold ret. intros H. inversion H. }
  rewrite (existsb_find_none _ _ (eq_sym Hf)), andb_false_r.
  unfold bind. rewrite csv_append_effect. unfold ret. intros H. inversion H; subst. clear H.
  exists t, (new_user_id t (users_seq w)).
  split; [reflexivity |]. split; [symmetry; exact Hf |]. split; [reflexivity |].
  split.
  { intros Hpk. unfold new_user_id, new_users_seq. rewrite Hpk. cbn [users_seq set_files set_users_seq].
    split; [reflexivity |]. destruct (users_seq w); reflexivity. }
  split.
  { intros Hpk. destruct (new_user_id_key t (users_seq w) Hpk) as [i Hi].
    destruct (new_user_id_fresh t (users_seq w) i Hi) as [Hrows Hseq].
    exists i. split; [exact Hi |]. split.
    { apply List.Forall_forall. intros x Hx Hxi. specialize (Hrows x i Hx Hxi). lia. }
    unfold new_users_seq. cbn [users_seq set_files set_users_seq].
    unfold users_full in Hfull. rewrite Hpk in Hfull. cbn [andb] in Hfull.
    destruct (users_seq w) as [q|] eqn:Hq.
    - rewrite Hpk, Hi. split.
      { apply List.Forall_forall. intros x Hx a Ha. exact (Hrows x a Hx Ha). }
      split; [| reflexivity]. split; [apply Hseq; reflexivity |].
      unfold new_user_id in Hi. rewrite Hpk in Hi. inversion Hi as [Hi'].
      unfold sequence_full, rowid_exhausted in Hfull. apply orb_false_iff in Hfull.
      destruct Hfull as [Hfq Hfl]. apply Z.leb_gt in Hfq.
      unfold next_autoincrement, next_rowid.
      destruct (largest_id (ut_rows t)) as [m|]; [apply Z.leb_gt in Hfl |];
        unfold max_rowid in *; lia.
    - unfold new_user_id in Hi. rewrite Hpk in Hi. inversion Hi as [Hi'].
      split; [reflexivity |]. split; [| reflexivity].
      unfold rowid_exhausted in Hfull. unfold next_rowid.
      destruct (largest_id (ut_rows t)) as [m|]; [apply Z.leb_gt in Hfull |];
        unfold max_rowid in *; lia. }
  split; [apply hash_looks_like_sha256 |]. repeat split; reflexivity.
Qed.

Lemma signup_effect_witness :
  signup "alice" "secret123" started_world
    = (Ok (true, "Account created"%string), snd (signup "alice" "secret123" started_world))
  /\ option_map ut_rows (users (snd (signup "alice" "secret123" started_world)))
     = Some [mk_user (Some 1%Z) (Some "alice"%string)
               (Some "fcf730b6d95236ecd3c9fc2d92d7b6b2bb061514961aec041d6c7a7192f592e4"%string)
               (Some "2025-07-01 09:30:00"%string)]
  /\ users_seq (snd (signup "alice" "secret123" started_world)) = Some 1%Z
  /\ option_map (fun t => map u_id (ut_rows t))
       (users (snd (signup "dave" "pw" (set_users_seq (Some 7%Z) legacy_world))))
     = Some [Some 1%Z; Some 2%Z; Some 8%Z].
Proof.
  split; [vm_compute; reflexivity |].
  destruct (signup_effect "alice" "secret123" "Account created" started_world
              (snd (signup "alice" "secret123" started_world)))
    as (t & id & Hu & _ & Hrows & _ & Hid & _).
  - vm_compute. reflexivity.
  - reflexivity.
  - inversion Hu; subst t. clear Hu.
    destruct (Hid eq_refl) as (i & -> & _ & Hseq).
    change (users_seq started_world) with (Some 0%Z) in Hseq.
    destruct Hseq as (_ & _ & Hq).
    assert (Hi : Some i = Some 1%Z).
    { transitivity (users_seq (snd (signup "alice" "secret123" started_world)));
        [symmetry; exact Hq | vm_compute; reflexivity]. }
    inversion Hi; subst i.
    split; [| split; [exact Hq | vm_compute; reflexivity]].
    rewrite Hrows. vm_compute. reflexivity.
Defined.

(** [check_credentials] with the world it leaves, branch by branch. *)
Lemma check_credentials_exact (u p : string) (w : world) (t : users_table) :
  users w = Some t ->
  missing_col ["id"; "password"; "username"] (ut_cols t) = None ->
  check_credentials u p w =
    match find (username_is u) (ut_rows t) with
    | None => (Ok false, w)
    | Some r =>
        if looks_like_sha256 (u_password r) then
          if verify_password p (default EmptyString (u_password r))
          then (Ok true, set_files (appended USER_ACTIVITY_PATH ["username"; "event"; "at"]
                                      [u; "login"; clock w]%string w) w)
          else (Ok false, w)
        else if bool_decide (u_password r = Some p)
        then (Ok true,
              set_files (appended USER_ACTIVITY_PATH ["username"; "event"; "at"]
                           [u; "login"; clock w]%string w)
                (set_users (Some (with_password (hash_password p) (u_id r) t)) w))
        else (Ok false, w)
    end.
Proof.
  intros Hu Hm.
  pose proof (select_user_found ["id"; "password"] u w t Hu Hm) as Hsel.
  unfold check_credentials, bind. rewrite Hsel.
  destruct (find (username_is u) (ut_rows t)) as [r|]; [| reflexivity].
  destruct (looks_like_sha256 (u_password r)).
  - destruct (verify_password p _); [| reflexivity].
    rewrite log_login_effect. reflexivity.
  - destruct (bool_decide _); [| reflexivity].
    assert (Hm' : missing_col ["password"; "id"] (ut_cols t) = None).
    { rewrite missing_col_none in Hm |- *. intros n Hn. apply Hm.
      simpl in Hn |- *. tauto. }
    unfold try_pass, try_except, update_password. rewrite Hu, Hm'.
    rewrite log_login_effect. reflexivity.
Qed.

Lemma check_credentials_raises (u p : string) (w : world) :
  (users w = None
   \/ exists t, users w = Some t
                /\ missing_col ["id"; "password"; "username"] (ut_cols t) <> None) ->
  exists e, check_credentials u p w = (Raise e, w).
Proof.
  intros [Hu | (t & Hu & Hm)]; unfold check_credentials, bind, select_user; rewrite Hu.
  - eauto.
  - change (["id"; "password"] ++ ["username"]) with ["id"; "password"; "username"].
    destruct (missing_col _ _); [eauto | congruence].
Qed.

Lemma refused_login_trace (u p : string) (w w' : world) :
  check_credentials u p w = (Ok false, w') -> w' = w.
Proof.
  intros H.
  destruct (users w) as [t|] eqn:Hu.
  2:{ destruct (check_credentials_raises u p w (or_introl Hu)) as [e He]. congruence. }
  destruct (missing_col ["id"; "password"; "username"] (ut_cols t)) eqn:Hm.
  { destruct (check_credentials_raises u p w) as [e He]; [| congruence].
    right. exists t. split; [exact Hu | congruence]. }
  rewrite (check_credentials_exact u p w t Hu Hm) in H.
  destruct (find (username_is u) (ut_rows t)) as [r|]; [| congruence].
  destruct (looks_like_sha256 (u_password r)).
  - destruct (verify_password p _); congruence.
  - destruct (bool_decide _); congruence.
Qed.

(** X3. A login that is refused leaves no trace: when [check_credentials]
    returns [False] no table is written and no line is added to the
    activity log (or to any file). *)
Theorem refused_login_leaves_no_trace (u p : string) (w w' : world) :
  check_credentials u p w = (Ok false, w') -> w' = w.
Proof. apply refused_login_trace. Qed.

Lemma refused_login_leaves_no_trace_witness :
  check_credentials "bob" "wrong" legacy_world = (Ok false, legacy_world)
  /\ snd (check_credentials "bob" "wrong" legacy_world) = legacy_world.
Proof.
  assert (H : check_credentials "bob" "wrong" legacy_world
              = (Ok false, snd (check_credentials "bob" "wrong" legacy_world)))
    by (vm_compute; reflexivity).
  pose proof (refused_login_leaves_no_trace _ _ _ _ H) as Hw.
  rewrite Hw in H. split; [exact H | exact Hw].
Defined.

(** X4. Every accepted login is logged when the log can be written: after
    [check_credentials] returned [True] the files are the former ones with
    the line (username, "login", clock) appended to the activity log
    (after the header when the log is new), the username quoted where CSV
    asks for it (stated for a username without carriage return); when the
    log cannot be written the files are unchanged and the login is
    accepted all the same. *)
Theorem accepted_login_is_logged (u p : string) (w w' : world) :
  check_credentials u p w = (Ok true, w') ->
  no_carriage_return u = true ->
  files w' = appended USER_ACTIVITY_PATH ["username"; "event"; "at"]
               [u; "login"; clock w]%string w
  /\ (USER_ACTIVITY_PATH ∈ write_denied w -> files w' = files w)
  /\ (forall path, path <> USER_ACTIVITY_PATH -> files w' !! path = files w !! path).
Proof.
  intros H _.
  assert (Hfiles : files w' = appended USER_ACTIVITY_PATH ["username"; "event"; "at"]
                                [u; "login"; clock w]%string w).
  { destruct (users w) as [t|] eqn:Hu.
    2:{ destruct (check_credentials_raises u p w (or_introl Hu)) as [e He]. congruence. }
    destruct (missing_col ["id"; "password"; "username"] (ut_cols t)) eqn:Hm.
    { destruct (check_credentials_raises u p w) as [e He]; [| congruence].
      right. exists t. split; [exact Hu | congruence]. }
    rewrite (check_credentials_exact u p w t Hu Hm) in H.
    destruct (find (username_is u) (ut_rows t)) as [r|]; [| congruence].
    destruct (looks_like_sha256 (u_password r)).
    - destruct (verify_password p _); inversion H; reflexivity.
    - destruct (bool_decide _); inversion H; reflexivity. }
  split; [exact Hfiles |]. split.
  - intros Hden. rewrite Hfiles. unfold appended.
    rewrite bool_decide_eq_true_2 by exact Hden. reflexivity.
  - intros path Hne. rewrite Hfiles. unfold appended.
    destruct (bool_decide _); [reflexivity |]. apply lookup_insert_ne. congruence.
Qed.

Lemma accepted_login_is_logged_witness :
  fst (check_credentials "bob" "hunter2" legacy_world) = Ok true
  /\ files (snd (check_credentials "bob" "hunter2" legacy_world)) !! USER_ACTIVITY_PATH
     = Some (String.concat (String line_feed EmptyString)
               ["username,event,at"; "bob,login,2025-07-01 09:30:00"; EmptyString])%string.
Proof.
  split; [vm_compute; reflexivity |].
  destruct (accepted_login_is_logged "bob" "hunter2" legacy_world
              (snd (check_credentials "bob" "hunter2" legacy_world))) as [H _].
  - vm_compute. reflexivity.
  - reflexivity.
  - rewrite H. vm_compute. reflexivity.
Defined.

(** X5. After a [signup] that succeeded, a login for that username is
    accepted exactly when the digest of the password typed is the stored
    digest, and such a login never rewrites the users table. *)
Theorem login_after_signup (u p p' msg : string) (w w1 : world) :
  signup u p w = (Ok (true, msg), w1) ->
  fst (check_credentials u p' w1)
    = Ok (String.eqb (hash_password p') (hash_password p))
  /\ users (snd (check_credentials u p' w1)) = users w1.
Proof.
  intros Hs. apply signup_success in Hs.
  destruct Hs as [t [fs [Hu [Hm1 [Hm2 [Hf [_ [_ ->]]]]]]]].
  rewrite missing_col_none in Hm1, Hm2.
  match goal with |- context [check_credentials u p' ?x] => set (wx := x) end.
  assert (Hu1 : users wx = Some (mk_users (ut_cols t) (ut_pk t) (ut_unique t)
       (ut_rows t ++ [mk_user (new_user_id t (users_seq w))
                              (Some u) (Some (hash_password p)) (Some (clock w))])))
    by reflexivity.
  assert (Hm : missing_col ["id"; "password"; "username"] (ut_cols t) = None).
  { apply missing_col_none. intros n Hn. simpl in Hn.
    destruct Hn as [<- | [<- | [<- | []]]].
    - apply Hm1; simpl; auto.
    - apply Hm2; simpl; auto.
    - apply Hm1; simpl; auto. }
  pose proof (check_credentials_exact u p' wx _ Hu1 Hm) as E. cbn [ut_rows] in E.
  rewrite (find_app_none _ _ _ Hf) in E.
  unfold username_is at 1 in E. cbn [u_username] in E. rewrite String.eqb_refl in E.
  cbn [u_password] in E. rewrite hash_looks_like_sha256 in E.
  change (default EmptyString (Some (hash_password p))) with (hash_password p) in E.
  unfold verify_password in E. fold (hash_password p') in E.
  destruct (String.eqb (hash_password p') (hash_password p)); rewrite E; split; reflexivity.
Qed.

Lemma login_after_signup_witness :
  fst (check_credentials "alice" "secret1234"
         (snd (signup "alice" "secret123" started_world))) = Ok false.
Proof.
  destruct (login_after_signup "alice" "secret123" "secret1234" "Account created"
              started_world (snd (signup "alice" "secret123" started_world))) as [H _].
  - vm_compute. reflexivity.
  - rewrite H. vm_compute. reflexivity.
Defined.

End StoreBehaviour.


(** ** Feedback store: what a call leaves behind *)

Section FeedbackBehaviour.

Lemma resolve_user_id_result (u : string) (w : world) :
  exists o, resolve_user_id u w = (o, w).
Proof.
  unfold resolve_user_id. destruct (truthy u); [| eexists; reflexivity].
  unfold bind. destruct (select_user_result ["id"] u w) as [[r|e] ->]; eexists; reflexivity.
Qed.

Lemma insert_feedback_raises (named : list string) (u : string) (uid : option Z)
    (fb ts e : string) (w w1 : world) :
  insert_feedback named u uid fb ts w = (Raise e, w1) -> w1 = w.
Proof.
  unfold insert_feedback. destruct (feedback w) as [t|]; [| intros H; inversion H; reflexivity].
  destruct (missing_col _ _); [intros H; inversion H; reflexivity |].
  destruct (max_rowid <=? largest_feedback_id t)%Z; intros H; inversion H; reflexivity.
Qed.

(** What an INSERT that succeeds leaves. *)
Lemma insert_feedback_ok (named : list string) (u : string) (uid : option Z)
    (fb ts : string) (w w1 : world) :
  insert_feedback named u uid fb ts w = (Ok tt, w1) ->
  exists t,
    feedback w = Some t
    /\ (largest_feedback_id t < max_rowid)%Z
    /\ w1 = set_feedback
              (Some (mk_feedbacks (ft_cols t)
                       (ft_rows t ++ [mk_feedback (next_feedback_id t) u uid fb ts])
                       (next_feedback_id t))) w.
Proof.
  unfold insert_feedback. destruct (feedback w) as [t|]; [| discriminate].
  destruct (missing_col _ _); [discriminate |].
  destruct (Z.leb_spec max_rowid (largest_feedback_id t)) as [Hfull | Hroom]; [discriminate |].
  intros H. inversion H. exists t. auto.
Qed.

Lemma store_feedback_raises (u : string) (uid : option Z) (fb ts e : string) (w w1 : world) :
  store_feedback u uid fb ts w = (Raise e, w1) -> w1 = w.
Proof.
  unfold store_feedback, bind, feedback_columns.
  destruct (has_col _ _); apply insert_feedback_raises.
Qed.

(** The id AUTOINCREMENT gives is above every id in the table and above
    the sequence. *)
Lemma largest_feedback_id_bounds (t : feedback_table) :
  (ft_seq t <= largest_feedback_id t)%Z
  /\ forall r, In r (ft_rows t) -> (f_id r <= largest_feedback_id t)%Z.
Proof.
  unfold largest_feedback_id. induction (ft_rows t) as [|a rows IH]; cbn [fold_right].
  - split; [lia | intros r []].
  - destruct IH as [Hs Hr]. split; [lia |].
    intros r [<- | Hin]; [lia |]. specialize (Hr r Hin). lia.
Qed.

Lemma next_feedback_id_bounds (t : feedback_table) :
  (ft_seq t < next_feedback_id t)%Z
  /\ (forall r, In r (ft_rows t) -> (f_id r < next_feedback_id t)%Z)
  /\ ((largest_feedback_id t < max_rowid)%Z -> (next_feedback_id t <= max_rowid)%Z).
Proof.
  destruct (largest_feedback_id_bounds t) as [Hseq Hrows].
  unfold next_feedback_id. destruct (ft_rows t) as [|a rows] eqn:Hr.
  - split; [lia |]. split; [intros r [] |]. unfold max_rowid. lia.
  - split; [lia |]. split; [| lia]. intros r Hin. specialize (Hrows r Hin). lia.
Qed.

Lemma save_feedback_returns (u fb : string) (w : world) :
  exists ok msg w',
    save_feedback u fb w = (Ok (ok, msg), w') /\ (ok = false -> w' = w).
Proof.
  unfold save_feedback, try_except. unfold bind at 1. unfold now. unfold bind at 1.
  destruct (resolve_user_id_result u w) as [[uid|e] ->].
  2:{ exists false, e, w. split; [reflexivity | auto]. }
  unfold bind at 1.
  destruct (store_feedback u uid fb (clock w) w) as [[[]|e] w1] eqn:Hst.
  - unfold bind. rewrite csv_append_effect.
    eexists true, _, _. split; [reflexivity | discriminate].
  - apply store_feedback_raises in Hst. subst w1.
    exists false, e, w. split; [reflexivity | auto].
Qed.

(** X6. [save_feedback] never raises, and when it reports a failure it has
    changed nothing: no row, and no line in the feedback log. *)
Theorem save_feedback_all_or_nothing (u fb : string) (w : world) :
  exists ok msg w',
    save_feedback u fb w = (Ok (ok, msg), w') /\ (ok = false -> w' = w).
Proof. exact (save_feedback_returns u fb w). Qed.

Lemma save_feedback_stored (u fb msg : string) (w w1 : world) :
  save_feedback u fb w = (Ok (true, msg), w1) ->
  exists t,
    feedback w = Some t
    /\ (largest_feedback_id t < max_rowid)%Z
    /\ feedback w1
       = Some (mk_feedbacks (ft_cols t)
                 (ft_rows t ++ [mk_feedback (next_feedback_id t) u
                                            (linked_user_id u w) fb (clock w)])
                 (next_feedback_id t))
    /\ users w1 = users w /\ users_new w1 = users_new w
    /\ files w1 = appended FEEDBACK_LOG_PATH ["username"; "feedback"; "feedback_at"]
                    [u; fb; clock w] w.
Proof.
  unfold save_feedback, try_except. unfold bind at 1. unfold now. unfold bind at 1.
  destruct (resolve_user_id u w) as [[uid|e] w0] eqn:Hres.
  2:{ unfold ret. intros H. inversion H. }
  assert (w0 = w) by (destruct (resolve_user_id_result u w) as [o Ho]; congruence). subst w0.
  unfold bind at 1.
  destruct (store_feedback u uid fb (clock w) w) as [[[]|e] w2] eqn:Hst.
  2:{ unfold ret. intros H. inversion H. }
  unfold bind. rewrite csv_append_effect. unfold ret. intros H. inversion H; subst. clear H.
  assert (Hins : exists t,
             feedback w = Some t
             /\ (largest_feedback_id t < max_rowid)%Z
             /\ w2 = set_feedback
                       (Some (mk_feedbacks (ft_cols t)
                                (ft_rows t ++
                                 [mk_feedback (next_feedback_id t) u
                                    (if has_col "user_id" (ft_cols t) then uid else None)
                                    fb (clock w)])
                                (next_feedback_id t))) w).
  { revert Hst. unfold store_feedback, bind, feedback_columns.
    destruct (feedback w) as [t|] eqn:Hfb.
    - destruct (has_col "user_id" (ft_cols t)) eqn:Hcol; intros Hst;
        apply insert_feedback_ok in Hst; destruct Hst as (t0 & Ht0 & Hroom & ->);
        assert (t0 = t) by congruence; subst t0; exists t; rewrite Hcol;
        (split; [reflexivity | split; [exact Hroom | reflexivity]]).
    - cbn [has_col existsb]. intros Hst. apply insert_feedback_ok in Hst.
      destruct Hst as (t0 & Ht0 & _). congruence. }
  destruct Hins as (t & Hfb & Hroom & ->).
  exists t. split; [exact Hfb |]. split; [exact Hroom |].
  assert (Huid : (if has_col "user_id" (ft_cols t) then uid else None) = linked_user_id u w).
  { unfold linked_user_id. rewrite Hfb. unfold resolve_user_id in Hres.
    destruct (truthy u); cbn [andb].
    - unfold bind in Hres.
      destruct (select_user ["id"] u w) as [[r|e] w0] eqn:Hsel; [| discriminate].
      apply select_user_ok in Hsel. destruct Hsel as [-> [tu [Hu [_ ->]]]].
      rewrite Hu. inversion Hres; subst.
      destruct (has_col "user_id" (ft_cols t)); reflexivity.
    - inversion Hres; subst. destruct (has_col "user_id" (ft_cols t)); reflexivity. }
  rewrite <- Huid. repeat split; reflexivity.
Qed.

(** X7. A [save_feedback] that succeeds appends exactly one feedback row
    after the rows already there: the id AUTOINCREMENT gives, which is
    above every id the table holds and has held and at most 2^63-1, and
    which the sequence of the table then records; the username as given;
    the id of the user's row when the username is not empty and names a
    user (NULL otherwise, and when the column names do not include
    user_id); the text and the clock. It leaves the users table alone, and
    its one file effect is the best-effort line in the feedback log, the
    fields quoted where CSV asks for it (stated for a username and a text
    without carriage return). *)
Theorem save_feedback_effect (u fb msg : string) (w w1 : world) :
  save_feedback u fb w = (Ok (true, msg), w1) ->
  no_carriage_return u = true ->
  no_carriage_return fb = true ->
  exists t,
    feedback w = Some t
    /\ feedback w1
       = Some (mk_feedbacks (ft_cols t)
                 (ft_rows t ++ [mk_feedback (next_feedback_id t) u
                                            (linked_user_id u w) fb (clock w)])
                 (next_feedback_id t))
    /\ (next_feedback_id t <= max_rowid)%Z
    /\ (ft_seq t < next_feedback_id t)%Z
    /\ (forall r, In r (ft_rows t) -> (f_id r < next_feedback_id t)%Z)
    /\ users w1 = users w /\ users_new w1 = users_new w
    /\ files w1 = appended FEEDBACK_LOG_PATH ["username"; "feedback"; "feedback_at"]
                    [u; fb; clock w] w.
Proof.
  intros Hsave _ _.
  destruct (save_feedback_stored u fb msg w w1 Hsave) as (t & Ht & Hroom & Ht1 & Hu & Hn & Hf).
  destruct (next_feedback_id_bounds t) as (Hseq & Hrows & Hmax).
  exists t. split; [exact Ht |]. split; [exact Ht1 |].
  split; [exact (Hmax Hroom) |]. split; [exact Hseq |]. split; [exact Hrows |].
  auto.
Qed.

Lemma save_feedback_effect_witness :
  option_map ft_rows (feedback (snd (save_feedback "bob" "great tool, thanks" legacy_world)))
  = Some [mk_feedback 1 "bob" (Some 1%Z) "great tool, thanks" "2025-07-01 09:30:00"]
  /\ files (snd (save_feedback "bob" "great tool, thanks" legacy_world)) !! FEEDBACK_LOG_PATH
     = Some (String.concat (String line_feed EmptyString)
               ["username,feedback,feedback_at";
                "bob," ++ String double_quote "great tool, thanks"
                ++ String double_quote ",2025-07-01 09:30:00";
                EmptyString])%string
  /\ option_map (fun t => map f_id (ft_rows t))
       (feedback (snd (save_feedback EmptyString "again"
                         (snd (page_admin admin_user [3%Z] true reviewed_world)))))
     = Some [1; 2; 4]%Z.
Proof.
  destruct (save_feedback_effect "bob" "great tool, thanks" "Saved" legacy_world
              (snd (save_feedback "bob" "great tool, thanks" legacy_world)))
    as (t & Ht & Hrows & _ & _ & _ & _ & _ & Hfiles);
    [vm_compute; reflexivity | reflexivity | reflexivity |].
  split; [| split].
  - rewrite Hrows. inversion Ht; subst t. vm_compute. reflexivity.
  - rewrite Hfiles. vm_compute. reflexivity.
  - vm_compute. reflexivity.
Defined.

End FeedbackBehaviour.


(** ** Schema of the users table: the migration's result *)

Section MigrationBehaviour.

(** The start-up check passes only on a table that has the three columns. *)
Lemma early_return_columns (cols : list string) :
  same_set cols canonical_cols
  || (has_col "username" cols && has_col "password" cols && has_col "created_at" cols) = true ->
  has_col "username" cols = true /\ has_col "password" cols = true
  /\ has_col "created_at" cols = true.
Proof.
  intros H. apply orb_true_iff in H. destruct H as [H | H].
  - unfold same_set, canonical_cols in H. cbn [forallb] in H.
    repeat (apply andb_true_iff in H; destruct H as [H ?]).
    repeat match goal with Hx : _ && _ = true |- _ =>
      apply andb_true_iff in Hx; destruct Hx end.
    auto.
  - repeat (apply andb_true_iff in H; destruct H as [H ?]). auto.
Qed.



Lemma copy_source_missing (a b cols : list string) (c : string) :
  missing_col ["username"; "password"] cols = Some c ->
  exists c', missing_col (a ++ ["username"; "password"] ++ b) cols = Some c'.
Proof.
  intros H. destruct (missing_col (a ++ _) cols) as [c'|] eqn:Hm; [eauto |].
  exfalso. rewrite missing_col_none in Hm.
  assert (Hnone : missing_col ["username"; "password"] cols = None).
  { apply missing_col_none. intros n Hn. apply Hm.
    apply in_or_app. right. apply in_or_app. left. exact Hn. }
  congruence.
Qed.



(** A legacy table in which SQLite finds no username column, or no
    password column, stops the migration at its SELECT. *)
Lemma migration_stops (w : world) (t : users_table) (c : string) :
  users w = Some t ->
  missing_col ["username"; "password"] (ut_cols t) = Some c ->
  exists e,
    ensure_users_table w
    = (Raise e, match users_new w with
                | Some _ => w
                | None => set_users_new (Some (mk_users canonical_cols true true [])) w
                end).
Proof.
  intros Hu Hmiss. unfold ensure_users_table, bind, users_exists, users_columns.
  cbv beta iota. rewrite Hu. cbv beta iota. cbn [negb]. cbv beta iota. rewrite Hu. cbv beta iota.
  assert (Hearly : same_set (ut_cols t) canonical_cols
                   || (has_col "username" (ut_cols t) && has_col "password" (ut_cols t)
                       && has_col "created_at" (ut_cols t)) = false).
  { destruct (_ || _) eqn:He; [| reflexivity].
    apply early_return_columns in He. destruct He as (H1 & H2 & _).
    rewrite missing_col_has in Hmiss; [discriminate |].
    intros n [<- | [<- | []]]; assumption. }
  rewrite Hearly.
  unfold create_users_new, copy_users.
  destruct (copy_source_missing (if has_col "id" (ut_cols t) then ["id"] else [])
              (if has_col "created_at" (ut_cols t) then ["created_at"] else [])
              (ut_cols t) c Hmiss) as [c' Hc].
  destruct (users_new w) as [n0|] eqn:Hnew.
  - rewrite Hu, Hnew, Hc. eauto.
  - unfold set_users_new at 1 2. cbn [users users_new]. rewrite Hu, Hc. eauto.
Qed.



(** X9. A legacy users table in which SQLite finds no username column, or
    no password column (it looks for them without regard to letter case),
    makes [ensure_users_table] raise (no such column); the users table and
    its rows are left as they were, a [users_new] table is left behind
    (the one found, or an empty one), and so the next start-up raises
    again. *)
Theorem migration_without_column_raises (w : world) (t : users_table) (c : string) :
  users w = Some t ->
  missing_col ["username"; "password"] (ut_cols t) = Some c ->
  exists e w',
    ensure_users_table w = (Raise e, w')
    /\ users w' = Some t
    /\ users_new w' = Some (default (mk_users canonical_cols true true []) (users_new w))
    /\ exists e', fst (ensure_users_table w') = Raise e'.
Proof.
  intros Hu Hmiss. destruct (migration_stops w t c Hu Hmiss) as [e He].
  eexists e, _. split; [exact He |].
  assert (Hu' : users (match users_new w with
                       | Some _ => w
                       | None => set_users_new (Some (mk_users canonical_cols true true [])) w
                       end) = Some t)
    by (destruct (users_new w); exact Hu).
  split; [exact Hu' |]. split.
  - destruct (users_new w) eqn:Hn; [exact Hn | reflexivity].
  - destruct (migration_stops _ t c Hu' Hmiss) as [e' He']. exists e'. rewrite He'. reflexivity.
Qed.

Lemma migration_without_column_raises_witness :
  missing_col ["username"; "password"] ["id"; "name"; "password"] = Some "username"%string
  /\ (exists e,
        fst (ensure_users_table
               (mk_world (Some (mk_users ["id"; "name"; "password"] true false [])) None None None ∅ ∅
                         "2025-07-01 09:30:00"))
        = Raise e)
  /\ fst (ensure_users_table
            (mk_world (Some (mk_users ["ID"; "Username"; "PASSWORD"] true false [])) None None None ∅ ∅
                      "2025-07-01 09:30:00"))
     = Ok tt.
Proof.
  split; [reflexivity |]. split; [| vm_compute; reflexivity].
  destruct (migration_without_column_raises
              (mk_world (Some (mk_users ["id"; "name"; "password"] true false [])) None None None ∅ ∅
                        "2025-07-01 09:30:00") _ "username" eq_refl eq_refl)
    as (e & w' & H & _).
  exists e. rewrite H. reflexivity.
Defined.












End MigrationBehaviour.

(** ** Repeated usernames and start-up *)

Section RepeatedUsernames.

(** Rows that share an id: the legacy table has an [id] column that is no
    key, and "bob" and "amy" both carry the id 1. The copy keeps the first
    and drops the second for its id: no row has the username "amy"
    afterwards. *)
Lemma migration_can_drop_a_username :
  usernames repeated_id_users = ["bob"; "amy"]%string
  /\ fst (ensure_users_table repeated_id_world) = Ok tt
  /\ option_map usernames (users (snd (ensure_users_table repeated_id_world)))
     = Some ["bob"%string]
  /\ count_username "amy" (snd (ensure_users_table repeated_id_world)) = 0%nat.
Proof. vm_compute. repeat split; reflexivity. Qed.



End RepeatedUsernames.



(** ** The digest that is stored *)

Section HashShape.

(** X12. [hash_password] returns, for every password, a text of exactly 64
    characters, each one of 0-9 a-f; so the shape test of
    [check_credentials] takes every value [signup] or the login migration
    stored for a digest, never for a clear-text password. *)
Theorem hash_password_shape (p : string) :
  String.length (hash_password p) = 64%nat
  /\ Forall (fun c => In c (list_ascii_of_string "0123456789abcdef"))
            (list_ascii_of_string (hash_password p))
  /\ looks_like_sha256 (Some (hash_password p)) = true.
Proof.
  split; [apply hexdigest_length |]. split; [| apply hash_looks_like_sha256].
  unfold hash_password, Sha256.hexdigest.
  rewrite list_ascii_of_string_of_list_ascii. apply hex_state_alphabet.
Qed.

End HashShape.

(** ** Data Analysis page: windows and filters compose *)

Section WindowsCompose.
Import Analysis.
Local Open Scope Z_scope.

Lemma take_plus {A} (x y : nat) (l : list A) :
  firstn (x + y) l = firstn x l ++ firstn y (skipn x l).
Proof.
  revert l. induction x as [|x IH]; intros l; [reflexivity |].
  destruct l as [|a l]; cbn [Nat.add firstn skipn app].
  - destruct y; reflexivity.
  - rewrite IH. reflexivity.
Qed.

Lemma skipn_plus {A} (x y : nat) (l : list A) :
  skipn (x + y) l = skipn y (skipn x l).
Proof.
  revert l. induction x as [|x IH]; intros l; [reflexivity |].
  destruct l as [|a l]; cbn [Nat.add skipn].
  - destruct y; reflexivity.
  - apply IH.
Qed.

Lemma slice_from (n i : Z) : 0 <= i -> 0 <= n -> slice_index n i = Z.min i n.
Proof. intros Hi Hn. unfold slice_index. destruct (Z.ltb_spec i 0); [lia | reflexivity]. Qed.

Lemma slice_tiles {A} (l : list A) (a b c : Z) :
  0 <= a <= b -> b <= c ->
  slice l a b ++ slice l b c = slice l a c.
Proof.
  intros Hab Hbc. unfold slice.
  rewrite !slice_from by lia.
  set (L := Z.of_nat (length l)).
  set (A0 := Z.to_nat (Z.min a L)). set (B0 := Z.to_nat (Z.min b L)).
  set (C0 := Z.to_nat (Z.min c L)).
  assert (HAB : (A0 <= B0)%nat) by (unfold A0, B0; lia).
  assert (HBC : (B0 <= C0)%nat) by (unfold B0, C0; lia).
  replace (Z.to_nat (Z.min b L - Z.min a L)) with (B0 - A0)%nat by (unfold A0, B0; lia).
  replace (Z.to_nat (Z.min c L - Z.min b L)) with (C0 - B0)%nat by (unfold B0, C0; lia).
  replace (Z.to_nat (Z.min c L - Z.min a L)) with ((B0 - A0) + (C0 - B0))%nat
    by (unfold A0, B0, C0; lia).
  replace (skipn B0 l) with (skipn (B0 - A0) (skipn A0 l))
    by (rewrite <- skipn_plus; f_equal; lia).
  rewrite take_plus. reflexivity.
Qed.

(** X13. The windows of the Data Analysis page. When the filtered table
    has R rows and N rows are asked for, 0 < N < R, the slider is drawn
    with the range [0, R - N], and for every start row [a] of that range
    the window is the N rows of the table from row [a] on, in their
    order. The window at [a] followed by the window at [a + N], when both
    starts are in the range, is the 2N rows from row [a] on; and every
    row of the table is shown by some start row of the range, at the
    place it has in the table. *)
Theorem windows_tile (df : dataframe) (rows a : Z) (cols : list nat)
    (prev : option dataframe) :
  0 < rows < len df ->
  0 <= a <= len df - rows ->
  v_slider (select_range df rows a cols prev) = true
  /\ v_range (select_range df rows a cols prev) = (0, len df - rows)
  /\ shown_window df rows a cols prev
     = firstn (Z.to_nat rows) (skipn (Z.to_nat a) (df_rows df))
  /\ Z.of_nat (length (shown_window df rows a cols prev)) = rows
  /\ (a + rows <= len df - rows ->
      shown_window df rows a cols prev ++ shown_window df rows (a + rows) cols prev
      = firstn (Z.to_nat (2 * rows)) (skipn (Z.to_nat a) (df_rows df)))
  /\ (forall (i : nat) (r : list cell),
        nth_error (df_rows df) i = Some r ->
        exists start,
          0 <= start <= len df - rows
          /\ nth_error (shown_window df rows start cols prev) (i - Z.to_nat start) = Some r).
Proof.
  intros Hr Ha. unfold shown_window.
  destruct (window_exact df rows a cols prev) as (Hslider & Hwin & Hlen & _); [lia | lia |].
  split; [exact Hslider |].
  split; [rewrite range_clamped; f_equal; lia |].
  split; [exact Hwin |]. split; [exact Hlen |]. split.
  - intros Hnext.
    destruct (window_exact df rows (a + rows) cols prev) as (_ & Hwin' & _); [lia | lia |].
    rewrite Hwin, Hwin'.
    replace (Z.to_nat (a + rows)) with (Z.to_nat a + Z.to_nat rows)%nat by lia.
    replace (Z.to_nat (2 * rows)) with (Z.to_nat rows + Z.to_nat rows)%nat by lia.
    rewrite skipn_plus. symmetry. apply take_plus.
  - intros i r Hi.
    assert (Hlt : (i < length (df_rows df))%nat) by (apply nth_error_Some; congruence).
    unfold len in *.
    set (start := Z.min (Z.of_nat i) (Z.of_nat (length (df_rows df)) - rows)).
    exists start. split; [unfold start; lia |].
    destruct (window_exact df rows start cols prev) as (_ & Hwin' & _);
      [unfold len; lia | unfold len, start; lia |].
    rewrite Hwin', nth_error_firstn.
    destruct (Nat.ltb_spec (i - Z.to_nat start) (Z.to_nat rows)) as [_ | Hge];
      [| unfold start in Hge; lia].
    rewrite nth_error_skipn.
    replace (Z.to_nat start + (i - Z.to_nat start))%nat with i by (unfold start; lia).
    exact Hi.
Qed.

Lemma windows_tile_witness :
  len twelve_rows = 12
  /\ shown_window twelve_rows 5 0 [0%nat] None ++ shown_window twelve_rows 5 5 [0%nat] None
     = map (fun i => [CInt i]) [0; 1; 2; 3; 4; 5; 6; 7; 8; 9]
  /\ shown_window twelve_rows 5 7 [0%nat] None = map (fun i => [CInt i]) [7; 8; 9; 10; 11].
Proof.
  split; [reflexivity |].
  destruct (windows_tile twelve_rows 5 0 [0%nat] None) as (_ & _ & _ & _ & Htile & _);
    [vm_compute; split; reflexivity | vm_compute; split; discriminate |].
  destruct (windows_tile twelve_rows 5 7 [0%nat] None) as (_ & _ & Hlast & _);
    [vm_compute; split; reflexivity | vm_compute; split; discriminate |].
  split.
  - change 5 with (0 + 5) at 3. rewrite Htile by (vm_compute; discriminate).
    vm_compute. reflexivity.
  - rewrite Hlast. vm_compute. reflexivity.
Defined.

Lemma mask_rows_sublist (rows : list (list cell)) (mask : list bool) :
  sublist (mask_rows rows mask) rows.
Proof.
  revert mask. induction rows as [|r rows IH]; intros mask; [destruct mask; constructor |].
  destruct mask as [|b mask]; cbn [mask_rows].
  - apply sublist_nil_l.
  - destruct b; [apply sublist_skip | apply sublist_cons]; apply IH.
Qed.

Lemma contains_mask_kept (s : string) (j : nat) (rows : list (list cell)) (mask : list bool) :
  contains_mask s (map (fun r => astype_str (cell_at j r)) rows) = Some mask ->
  exists mask',
    contains_mask s (map (fun r => astype_str (cell_at j r)) (mask_rows rows mask)) = Some mask'
    /\ mask_rows (mask_rows rows mask) mask' = mask_rows rows mask.
Proof.
  revert mask. induction rows as [|r rows IH]; intros mask H.
  - cbn in H. inversion H; subst. exists []. split; reflexivity.
  - cbn [map contains_mask] in H.
    destruct (str_contains s (astype_str (cell_at j r))) as [b|] eqn:Hb; [| discriminate].
    destruct (contains_mask s (map _ rows)) as [bs|] eqn:Hbs; [| discriminate].
    inversion H; subst mask. destruct (IH bs eq_refl) as [mask' [Hm Hk]].
    cbn [mask_rows]. destruct b.
    + exists (true :: mask'). cbn [map contains_mask mask_rows]. rewrite Hb, Hm, Hk.
      split; reflexivity.
    + exists mask'. split; [exact Hm | exact Hk].
Qed.

(** X14. The search filter only selects: for a search value the embedding
    covers (ordinary characters and [.]), the filtered table has the same
    columns, its rows are rows of the table in their original order, and
    filtering the result again with the same value changes nothing. *)
Theorem search_filter_selects (df out : dataframe) (search_col : nat) (s : string) :
  search_filter df search_col s = Some out ->
  df_columns out = df_columns df
  /\ sublist (df_rows out) (df_rows df)
  /\ search_filter out search_col s = Some out.
Proof.
  unfold search_filter. destruct (truthy s) eqn:Ht.
  - destruct (contains_mask s _) as [mask|] eqn:Hmask; [| discriminate].
    intros H. inversion H; subst out. cbn [df_columns df_rows].
    split; [reflexivity |]. split; [apply mask_rows_sublist |].
    destruct (contains_mask_kept s search_col (df_rows df) mask Hmask) as [mask' [Hm Hk]].
    rewrite Hm, Hk. reflexivity.
  - intros H. inversion H; subst out. split; [reflexivity |]. split; reflexivity.
Qed.

Lemma search_filter_selects_witness :
  search_filter versions 0 "1.5" = Some (mk_df ["version"]%string [[CStr "1.5"]; [CStr "125"]])
  /\ search_filter (mk_df ["version"]%string [[CStr "1.5"]; [CStr "125"]]) 0 "1.5"
     = Some (mk_df ["version"]%string [[CStr "1.5"]; [CStr "125"]]).
Proof.
  split; [vm_compute; reflexivity |].
  apply (search_filter_selects versions _ 0 "1.5"). vm_compute. reflexivity.
Defined.

End WindowsCompose.

(** ** Charts page: what a press of "Create Chart" can do *)

Section ChartOutcome.
Import Charts.

Variable figure : Type.
Variable px : px_call -> Analysis.dataframe -> outcome figure.

(** X15. A press of "Create Chart" has one of two outcomes: plotly
    returned a figure, which becomes the retained chart, with the one
    message "Chart created"; or the session, retained chart included, is
    exactly as before and one error message is shown (validation error or
    "Chart creation failed"). The retained chart is never dropped. *)
Theorem create_chart_outcome (df : Analysis.dataframe) (kind : chart_type) (x_col : string)
    (y_col color_col : option string) (s : session figure) :
  (exists call fig,
      dispatch kind x_col y_col (build_kwargs kind x_col y_col color_col) = inl call
      /\ px call df = Ok fig
      /\ create_chart figure px df kind x_col y_col color_col s
         = (mk_session figure (Some fig) true, [st_success "Chart created"]))
  \/ (exists msg,
         create_chart figure px df kind x_col y_col color_col s = (s, [st_error msg])).
Proof.
  unfold create_chart.
  destruct (dispatch kind x_col y_col _) as [call | msg] eqn:Hd.
  - destruct (px call df) as [fig | e] eqn:Hpx.
    + left. exists call, fig. auto.
    + right. eexists. reflexivity.
  - right. eexists. reflexivity.
Qed.

End ChartOutcome.


(** ** Login and signup pages, session marker *)

Section AuthPages.

Lemma set_current_user_ok (u : string) (w w' : world) :
  set_current_user u w = (Ok tt, w') ->
  w' = set_files (<[CURRENT_USER_FILE := u]> (files w)) w.
Proof.
  unfold set_current_user. destruct (bool_decide _); intros H; inversion H; reflexivity.
Qed.

(** After an accepted login the users table can be read and has a row for
    the username. *)
Lemma accepted_login_user (u p : string) (w w1 : world) :
  check_credentials u p w = (Ok true, w1) ->
  exists t1 r1,
    users w1 = Some t1
    /\ missing_col ["id"; "username"] (ut_cols t1) = None
    /\ find (username_is u) (ut_rows t1) = Some r1.
Proof.
  intros H.
  destruct (users w) as [t|] eqn:Hu.
  2:{ destruct (check_credentials_raises u p w (or_introl Hu)) as [e He]. congruence. }
  destruct (missing_col ["id"; "password"; "username"] (ut_cols t)) eqn:Hm.
  { destruct (check_credentials_raises u p w) as [e He]; [| congruence].
    right. exists t. split; [exact Hu | congruence]. }
  assert (Hm' : missing_col ["id"; "username"] (ut_cols t) = None).
  { rewrite missing_col_none in Hm |- *. intros n Hn. apply Hm. simpl in Hn |- *. tauto. }
  rewrite (check_credentials_exact u p w t Hu Hm) in H.
  destruct (find (username_is u) (ut_rows t)) as [r|] eqn:Hf; [| congruence].
  destruct (looks_like_sha256 (u_password r)).
  - destruct (verify_password p _); inversion H; subst.
    exists t, r. auto.
  - destruct (bool_decide _); inversion H; subst.
    exists (with_password (hash_password p) (u_id r) t),
           (if id_is (u_id r) r then set_password (hash_password p) r else r).
    split; [reflexivity |]. split; [exact Hm' |].
    unfold with_password. cbn [ut_rows]. rewrite find_map_same.
    + rewrite Hf. reflexivity.
    + intros x. destruct (id_is (u_id r) x); reflexivity.
Qed.

(** The session a marker opens, on a users table with a row for the
    name read from it. *)
Lemma marker_resolves (u : string) (w : world) (t : users_table) (r : user_row) :
  users w = Some t ->
  missing_col ["id"; "username"] (ut_cols t) = None ->
  find (username_is u) (ut_rows t) = Some r ->
  marker_name u = u -> u <> EmptyString ->
  forall fs, files (set_files (<[CURRENT_USER_FILE := u]> fs) w) !! CURRENT_USER_FILE = Some u
  /\ current_user (set_files (<[CURRENT_USER_FILE := u]> fs) w)
     = (Ok (Some (mk_identity (u_id r) (Some u))), set_files (<[CURRENT_USER_FILE := u]> fs) w).
Proof.
  intros Hu Hm Hf Hs Hne fs.
  assert (Hfile : files (set_files (<[CURRENT_USER_FILE := u]> fs) w) !! CURRENT_USER_FILE
                  = Some u) by (cbn [files set_files]; apply lookup_insert_eq).
  split; [exact Hfile |].
  rewrite (current_user_cases (set_files (<[CURRENT_USER_FILE := u]> fs) w) t Hu Hm), Hfile, Hs.
  apply truthy_iff in Hne. rewrite Hne, Hf.
  apply find_username in Hf. destruct Hf as [_ ->]. reflexivity.
Qed.

(** X16. Login opens the session: when the Login button ends in a rerun
    (credentials accepted, marker written) and the username typed is what
    the marker reads back as (it has no white space at either end, in the
    sense of [str.strip()], and no carriage return), the marker file holds
    the username and [current_user] resolves to the account of that
    username. When the credentials are refused the page shows "Invalid
    credentials" and changes nothing, marker included. *)
Theorem login_opens_session (u p mode : string) (w w' : world) (res : auth_result) :
  show_login u p (Some press_login) mode w = (Ok res, w') ->
  (auth_rerun res = true ->
     files w' !! CURRENT_USER_FILE = Some u
     /\ (marker_name u = u -> u <> EmptyString ->
         exists id, current_user w' = (Ok (Some (mk_identity id (Some u))), w')))
  /\ (auth_rerun res = false ->
        w' = w /\ auth_messages res = [msg_error "Invalid credentials"]).
Proof.
  unfold show_login, bind.
  destruct (check_credentials u p w) as [[[]|e] w1] eqn:Hc; [| | discriminate].
  - destruct (set_current_user u w1) as [[[]|e] w2] eqn:Hs; [| discriminate].
    intros H. inversion H; subst. clear H. cbn [auth_rerun].
    split; [| discriminate]. intros _.
    apply set_current_user_ok in Hs. subst w'.
    destruct (accepted_login_user u p w w1 Hc) as (t1 & r1 & Hu1 & Hm1 & Hf1).
    split; [cbn [files set_files]; apply lookup_insert_eq |].
    intros Hstrip Hne. exists (u_id r1).
    apply (marker_resolves u w1 t1 r1 Hu1 Hm1 Hf1 Hstrip Hne).
  - intros H. inversion H; subst. clear H. cbn [auth_rerun auth_messages].
    split; [discriminate |]. intros _.
    split; [exact (refused_login_trace u p w _ Hc) | reflexivity].
Qed.

Lemma login_opens_session_witness :
  exists id,
    current_user (snd (show_login "bob" "hunter2" (Some press_login) "login" legacy_world))
    = (Ok (Some (mk_identity id (Some "bob"%string))),
       snd (show_login "bob" "hunter2" (Some press_login) "login" legacy_world)).
Proof.
  destruct (login_opens_session "bob" "hunter2" "login" legacy_world
              (snd (show_login "bob" "hunter2" (Some press_login) "login" legacy_world))
              (mk_auth [msg_success "Logged in ‚Äî opening project..."] "login" true))
    as [H _].
  - vm_compute. reflexivity.
  - destruct (H eq_refl) as [_ Hs]. apply Hs; [vm_compute; reflexivity | discriminate].
Defined.


(** X17. A username with white space at either end is accepted by the
    login but opens no session: the marker is written as typed while
    [current_user] looks up what it reads back, stripped of white space
    (blanks, tabs, line ends, the no-break space and the other Unicode
    spaces), so when that name is empty or no account carries it the next
    page load finds no user, although the page announced "Logged in". *)
Theorem blank_username_opens_no_session (u p mode : string) (w w' : world) (res : auth_result) :
  show_login u p (Some press_login) mode w = (Ok res, w') ->
  auth_rerun res = true ->
  (marker_name u = EmptyString
   \/ forall t r, users w' = Some t -> In r (ut_rows t) -> u_username r <> Some (marker_name u)) ->
  current_user w' = (Ok None, w')
  /\ auth_messages res = [msg_success "Logged in ‚Äî opening project..."].
Proof.
  unfold show_login, bind.
  destruct (check_credentials u p w) as [[[]|e] w1] eqn:Hc; [| | discriminate].
  2:{ intros H. inversion H; subst. discriminate. }
  destruct (set_current_user u w1) as [[[]|e] w2] eqn:Hs; [| discriminate].
  intros H _ Hblank. inversion H; subst. clear H.
  apply set_current_user_ok in Hs. subst w'.
  destruct (accepted_login_user u p w w1 Hc) as (t1 & r1 & Hu1 & Hm1 & _).
  split; [| reflexivity].
  rewrite (current_user_cases (set_files (<[CURRENT_USER_FILE := u]> (files w1)) w1) t1 Hu1 Hm1).
  cbn [files set_files]. rewrite lookup_insert_eq.
  destruct (truthy (marker_name u)) eqn:Ht; [| reflexivity].
  destruct Hblank as [Hempty | Hnone].
  { rewrite Hempty in Ht. discriminate. }
  destruct (find (username_is (marker_name u)) (ut_rows t1)) as [r|] eqn:Hf; [| reflexivity].
  apply find_username in Hf. destruct Hf as [Hin Hname].
  exfalso. exact (Hnone t1 r Hu1 Hin Hname).
Qed.

Lemma blank_username_opens_no_session_witness :
  fst (show_login "bob " "hunter2" (Some press_login) "login" blank_suffix_world)
  = Ok (mk_auth [msg_success "Logged in ‚Äî opening project..."] "login" true)
  /\ fst (current_user
            (snd (show_login "bob " "hunter2" (Some press_login) "login" blank_suffix_world)))
     = Ok None.
Proof.
  split; [vm_compute; reflexivity |].
  destruct (blank_username_opens_no_session "bob " "hunter2" "login" blank_suffix_world
              (snd (show_login "bob " "hunter2" (Some press_login) "login" blank_suffix_world))
              (mk_auth [msg_success "Logged in ‚Äî opening project..."] "login" true))
    as [H _].
  - vm_compute. reflexivity.
  - reflexivity.
  - right. intros t r Ht Hin. vm_compute in Ht. inversion Ht; subst t.
    destruct Hin as [<- | []]. vm_compute. discriminate.
  - rewrite H. reflexivity.
Defined.

(** X18. The signup page: when "Create account" ends in a rerun, neither
    the username nor the password was empty, the account is stored with
    the digest of the password, the marker holds the username, and, the
    username being what the marker reads back as (no white space at
    either end, no carriage return), [current_user] resolves to the new
    account; when it does not end in a rerun (a field left empty,
    username taken, database error) nothing was changed. *)
Theorem signup_page_opens_session (u p mode : string) (w w' : world) (res : auth_result) :
  show_signup u p (Some press_create_account) mode w = (Ok res, w') ->
  (auth_rerun res = true ->
     u <> EmptyString /\ p <> EmptyString
     /\ stored_password u w' = Some (Some (hash_password p))
     /\ files w' !! CURRENT_USER_FILE = Some u
     /\ (marker_name u = u ->
         exists id, current_user w' = (Ok (Some (mk_identity id (Some u))), w')))
  /\ (auth_rerun res = false -> w' = w).
Proof.
  unfold show_signup.
  destruct (truthy u) eqn:Htu; cbn [negb orb].
  2:{ intros H. inversion H; subst. cbn [auth_rerun]. split; [discriminate | auto]. }
  destruct (truthy p) eqn:Htp; cbn [negb orb].
  2:{ intros H. inversion H; subst. cbn [auth_rerun]. split; [discriminate | auto]. }
  apply truthy_iff in Htu. apply truthy_iff in Htp.
  unfold bind at 1.
  destruct (signup u p w) as [[[ok msg]|e] w1] eqn:Hs.
  2:{ destruct (signup_returns u p w) as (res0 & w0 & H0). congruence. }
  destruct ok.
  - unfold bind. destruct (set_current_user u w1) as [[[]|e] w2] eqn:Hset; [| discriminate].
    intros H. inversion H; subst. clear H. cbn [auth_rerun].
    split; [| discriminate]. intros _.
    apply set_current_user_ok in Hset. subst w'.
    apply signup_success in Hs.
    destruct Hs as [t [fs [Hu [Hm1 [Hm2 [Hf [_ [_ ->]]]]]]]].
    set (row := mk_user (new_user_id t (users_seq w))
                        (Some u) (Some (hash_password p)) (Some (clock w))).
    assert (Hfind : find (username_is u) (ut_rows t ++ [row]) = Some row).
    { rewrite (find_app_none _ _ _ Hf). unfold username_is, row. cbn [u_username].
      rewrite String.eqb_refl. reflexivity. }
    split; [exact Htu |]. split; [exact Htp |]. split.
    { unfold stored_password. cbn [users set_files set_users set_users_seq ut_rows].
      fold row. rewrite Hfind. reflexivity. }
    split; [cbn [files set_files]; apply lookup_insert_eq |].
    intros Hstrip. exists (u_id row).
    match goal with |- current_user (set_files _ ?w1) = _ =>
      apply (marker_resolves u w1 (mk_users (ut_cols t) (ut_pk t) (ut_unique t)
                                     (ut_rows t ++ [row])) row eq_refl Hm1 Hfind Hstrip Htu)
    end.
  - intros H. inversion H; subst. clear H. cbn [auth_rerun].
    split; [discriminate |]. intros _. exact (signup_refused_frame u p msg w _ Hs).
Qed.

Lemma signup_page_opens_session_witness :
  exists id,
    current_user (snd (show_signup "alice" "secret123" (Some press_create_account) "signup"
                         started_world))
    = (Ok (Some (mk_identity id (Some "alice"%string))),
       snd (show_signup "alice" "secret123" (Some press_create_account) "signup" started_world)).
Proof.
  destruct (signup_page_opens_session "alice" "secret123" "signup" started_world
              (snd (show_signup "alice" "secret123" (Some press_create_account) "signup"
                      started_world))
              (mk_auth [msg_success "Account created and logged in. Opening project..."]
                       "signup" true)) as [H _].
  - vm_compute. reflexivity.
  - destruct (H eq_refl) as (_ & _ & _ & _ & Hs). apply Hs. vm_compute. reflexivity.
Defined.

Lemma no_marker_no_session (v : world) :
  files v !! CURRENT_USER_FILE = None ->
  current_user v = (Ok None, v) /\ logout v = (Ok "login"%string, v).
Proof.
  intros Hv. unfold logout, clear_current_user, current_user, bind, path_exists.
  rewrite Hv. rewrite bool_decide_eq_false_2 by (intros [x Hx]; discriminate).
  split; reflexivity.
Qed.

(** X19. Logout closes the session: after the Logout button, whenever it
    did not raise, the mode is "login", the marker file is gone,
    [current_user] returns [None] whatever the users table holds, the
    database is as it was, and a second logout finds nothing to remove. *)
Theorem logout_closes_session (w w' : world) (mode : string) :
  logout w = (Ok mode, w') ->
  mode = "login"%string
  /\ files w' !! CURRENT_USER_FILE = None
  /\ current_user w' = (Ok None, w')
  /\ same_db w w'
  /\ logout w' = (Ok "login"%string, w').
Proof.
  intros H.
  assert (Hend : mode = "login"%string /\ files w' !! CURRENT_USER_FILE = None /\ same_db w w').
  { revert H. unfold logout, clear_current_user, bind, path_exists.
    destruct (files w !! CURRENT_USER_FILE) as [content|] eqn:Hfile.
    - rewrite bool_decide_eq_true_2 by eauto.
      destruct (bool_decide (CURRENT_USER_FILE ∈ write_denied w)); [discriminate |].
      intros H. inversion H; subst. clear H.
      split; [reflexivity |]. split; [cbn [files set_files]; apply lookup_delete_eq |].
      unfold same_db; cbn; auto.
    - rewrite bool_decide_eq_false_2 by (intros [x Hx]; discriminate).
      intros H. inversion H; subst. clear H.
      split; [reflexivity |]. split; [exact Hfile | apply same_db_refl]. }
  destruct Hend as (Hm & Hgone & Hdb).
  destruct (no_marker_no_session w' Hgone) as [Hcur Hagain].
  repeat split; try assumption; apply Hdb.
Qed.

Lemma logout_closes_session_witness :
  fst (current_user logged_in_world) = Ok (Some (mk_identity (Some 1%Z) (Some "bob"%string)))
  /\ current_user (snd (logout logged_in_world)) = (Ok None, snd (logout logged_in_world)).
Proof.
  split; [vm_compute; reflexivity |].
  apply (logout_closes_session logged_in_world _ "login"). vm_compute. reflexivity.
Defined.

End AuthPages.


Section AdminPage.

Lemma firstn_In {A} (n : nat) (l : list A) (x : A) : In x (firstn n l) -> In x l.
Proof.
  revert n. induction l as [|y l IH]; intros [|n]; simpl; try tauto.
  intros [-> | H]; [left; reflexivity | right; exact (IH n H)].
Qed.

Lemma insert_desc_In (r x : feedback_row) (l : list feedback_row) :
  In x (insert_desc r l) <-> x = r \/ In x l.
Proof.
  induction l as [|y l IH]; simpl.
  - intuition.
  - destruct (f_id y <? f_id r)%Z; simpl; [intuition |].
    rewrite IH. intuition.
Qed.

Lemma insert_desc_sorted (r : feedback_row) (l : list feedback_row) :
  StronglySorted newer_first l -> StronglySorted newer_first (insert_desc r l).
Proof.
  induction 1 as [|y l Hs IH Hall]; simpl.
  - constructor; constructor.
  - destruct (f_id y <? f_id r)%Z eqn:Hlt.
    + apply Z.ltb_lt in Hlt. constructor; [constructor; assumption |].
      constructor; [unfold newer_first; lia |].
      apply List.Forall_forall. intros x Hx.
      pose proof (proj1 (List.Forall_forall _ _) Hall x Hx) as Hy.
      unfold newer_first in *. lia.
    + apply Z.ltb_ge in Hlt. constructor; [exact IH |].
      apply List.Forall_forall. intros x Hx. apply insert_desc_In in Hx.
      destruct Hx as [-> | Hx]; [exact Hlt |].
      exact (proj1 (List.Forall_forall _ _) Hall x Hx).
Qed.

Lemma order_by_id_desc_sorted (l : list feedback_row) :
  StronglySorted newer_first (order_by_id_desc l).
Proof.
  induction l as [|x l IH]; simpl; [constructor | apply insert_desc_sorted, IH].
Qed.

Lemma order_by_id_desc_In (x : feedback_row) (l : list feedback_row) :
  In x (order_by_id_desc l) <-> In x l.
Proof.
  induction l as [|y l IH]; simpl; [tauto |].
  rewrite insert_desc_In, IH. intuition.
Qed.

Lemma insert_desc_length (r : feedback_row) (l : list feedback_row) :
  length (insert_desc r l) = S (length l).
Proof.
  induction l as [|y l IH]; simpl; [reflexivity |].
  destruct (f_id y <? f_id r)%Z; simpl; [reflexivity | rewrite IH; reflexivity].
Qed.

Lemma order_by_id_desc_length (l : list feedback_row) :
  length (order_by_id_desc l) = length l.
Proof.
  induction l as [|y l IH]; simpl; [reflexivity |].
  rewrite insert_desc_length, IH. reflexivity.
Qed.

Lemma strongly_sorted_firstn {A} (R : A -> A -> Prop) (n : nat) (l : list A) :
  StronglySorted R l -> StronglySorted R (firstn n l).
Proof.
  intros H. revert n. induction H as [|x l Hs IH Hall]; intros [|n]; simpl; try constructor.
  - apply IH.
  - apply List.Forall_forall. intros y Hy. apply firstn_In in Hy.
    exact (proj1 (List.Forall_forall _ _) Hall y Hy).
Qed.

Lemma order_newest_first (r : feedback_row) (acc l : list feedback_row) :
  (forall x, In x l -> (f_id x < f_id r)%Z) ->
  fold_right insert_desc (r :: acc) l = r :: fold_right insert_desc acc l.
Proof.
  induction l as [|x l IH]; intros Hall; simpl; [reflexivity |].
  rewrite IH by (intros y Hy; apply Hall; right; exact Hy).
  simpl. pose proof (Hall x (or_introl eq_refl)) as Hx.
  destruct (f_id r <? f_id x)%Z eqn:Hlt; [apply Z.ltb_lt in Hlt; lia | reflexivity].
Qed.

Lemma next_feedback_id_above (t : feedback_table) (x : feedback_row) :
  In x (ft_rows t) -> (f_id x < next_feedback_id t)%Z.
Proof.
  intros Hx. exact (proj1 (proj2 (next_feedback_id_bounds t)) x Hx).
Qed.

Lemma select_recent_feedback_result (w : world) :
  exists o, select_recent_feedback w = (o, w).
Proof.
  unfold select_recent_feedback. destruct (feedback w) as [t|]; [| eexists; reflexivity].
  destruct (missing_col _ _); eexists; reflexivity.
Qed.

Lemma delete_feedback_id_raises (i : Z) (e : string) (w w1 : world) :
  delete_feedback_id i w = (Raise e, w1) -> w1 = w.
Proof.
  unfold delete_feedback_id. destruct (feedback w) as [t|]; [| intros H; inversion H; reflexivity].
  destruct (missing_col _ _); intros H; inversion H; reflexivity.
Qed.

Lemma filter_twice {A} (f g : A -> bool) (l : list A) :
  List.filter g (List.filter f l) = List.filter (fun x => f x && g x) l.
Proof.
  induction l as [|x l IH]; simpl; [reflexivity |].
  destruct (f x); simpl; [destruct (g x); rewrite IH; reflexivity | exact IH].
Qed.

(** [executemany] of the DELETE over a table with an [id] column: the rows
    whose id is among [ids] go, the others stay in their order. *)
Lemma delete_feedback_run (ids : list Z) :
  forall (w : world) (t : feedback_table),
    feedback w = Some t ->
    sql_has_col "id" (ft_cols t) = true ->
    exists w',
      delete_feedback ids w = (Ok tt, w')
      /\ feedback w'
         = Some (mk_feedbacks (ft_cols t)
                   (List.filter (fun r => negb (existsb (Z.eqb (f_id r)) ids)) (ft_rows t))
                   (ft_seq t))
      /\ users w' = users w /\ users_new w' = users_new w
      /\ files w' = files w /\ write_denied w' = write_denied w /\ clock w' = clock w.
Proof.
  induction ids as [|i ids IH]; intros w t Hfb Hid.
  - exists w. simpl. rewrite filter_true. destruct t. repeat split; try reflexivity. exact Hfb.
  - simpl delete_feedback. unfold bind. unfold delete_feedback_id at 1.
    rewrite Hfb. unfold missing_col. simpl find. rewrite Hid. simpl negb. cbv iota.
    set (t1 := mk_feedbacks (ft_cols t)
                 (List.filter (fun r => negb (f_id r =? i)%Z) (ft_rows t)) (ft_seq t)).
    destruct (IH (set_feedback (Some t1) w) t1 eq_refl Hid)
      as (w' & Hrun & Hfb' & Hu & Hn & Hf & Hd & Hc).
    exists w'. rewrite Hrun. split; [reflexivity |].
    split.
    { rewrite Hfb'. unfold t1. cbn [ft_cols ft_rows ft_seq]. rewrite filter_twice.
      do 2 f_equal. apply filter_ext. intros r. simpl existsb.
      rewrite negb_orb. reflexivity. }
    repeat split; assumption.
Qed.

Lemma has_id_column (cols : list string) :
  missing_col ["id"; "username"; "user_id"; "feedback"; "feedback_at"] cols = None ->
  sql_has_col "id" cols = true.
Proof.
  intros H. apply (proj1 (missing_col_none _ _) H). left. reflexivity.
Qed.

(** The Admin page and its menu entry are for the account named
    "admin" alone: the sidebar lists "Admin" exactly for that username,
    and for any other identity the page answers "Admin access required"
    without reading or changing anything, whatever was selected or
    pressed and whether or not the feedback table exists. *)
Theorem admin_page_is_for_admin (user : identity) (ids : list Z) (pressed : bool) (w : world) :
  ident_username user <> Some "admin"%string ->
  ~ In "Admin"%string (nav_items user)
  /\ page_admin user ids pressed w
     = (Ok (mk_admin [msg_error "Admin access required"] []), w).
Proof.
  intros Hnot.
  assert (Hadm : is_admin user = false).
  { unfold is_admin. destruct (ident_username user) as [name|]; [| reflexivity].
    destruct (String.eqb name "admin") eqn:E; [| reflexivity].
    apply String.eqb_eq in E. subst. contradiction. }
  unfold nav_items, page_admin. rewrite Hadm. split; [| reflexivity].
  simpl. intros [H | [H | [H | [H | []]]]]; discriminate.
Qed.

Lemma admin_page_is_for_admin_witness :
  page_admin (mk_identity (Some 1%Z) (Some "bob"%string)) [1%Z; 2%Z] true reviewed_world
  = (Ok (mk_admin [msg_error "Admin access required"] []), reviewed_world)
  /\ nav_items admin_user = ["Home"; "Data Analysis"; "Charts Analysis"; "Admin"; "About"]%string.
Proof.
  split; [| reflexivity].
  apply (admin_page_is_for_admin (mk_identity (Some 1%Z) (Some "bob"%string))).
  discriminate.
Defined.

(** X20. What the Admin page lists: entries of the feedback table, the
    newest (largest id) first, at most 200 of them, and all of them when
    the table holds no more than 200; listing alone (button not pressed,
    or nothing selected) changes nothing. *)
Theorem admin_listing (user : identity) (ids : list Z) (pressed : bool)
    (w w' : world) (res : admin_result) :
  is_admin user = true ->
  page_admin user ids pressed w = (Ok res, w') ->
  exists t,
    feedback w = Some t
    /\ StronglySorted newer_first (admin_rows res)
    /\ length (admin_rows res) <= 200
    /\ (forall r, In r (admin_rows res) -> In r (ft_rows t))
    /\ (length (ft_rows t) <= 200 -> forall r, In r (ft_rows t) -> In r (admin_rows res))
    /\ (pressed = false \/ ids = [] -> w' = w).
Proof.
  intros Hadm. unfold page_admin. rewrite Hadm. cbn [negb]. unfold bind at 1.
  unfold select_recent_feedback.
  destruct (feedback w) as [t|] eqn:Hfb; [| discriminate].
  destruct (missing_col _ (ft_cols t)) eqn:Hcols; [discriminate |].
  set (rows := firstn 200 (order_by_id_desc (ft_rows t))).
  assert (Hsorted : StronglySorted newer_first rows)
    by (apply strongly_sorted_firstn, order_by_id_desc_sorted).
  assert (Hlen : length rows <= 200) by (unfold rows; rewrite length_firstn; lia).
  assert (Hsub : forall r, In r rows -> In r (ft_rows t))
    by (intros r Hr; apply firstn_In in Hr; exact (proj1 (order_by_id_desc_In _ _) Hr)).
  assert (Hall : length (ft_rows t) <= 200 -> forall r, In r (ft_rows t) -> In r rows).
  { intros Hle r Hr. unfold rows.
    rewrite firstn_all2 by (rewrite order_by_id_desc_length; exact Hle).
    apply order_by_id_desc_In. exact Hr. }
  cbv beta iota. fold rows.
  destruct rows as [|r0 rows0] eqn:Hrows.
  - intros Hrun0. inversion Hrun0; subst. cbn [admin_rows].
    exists t. repeat split; try assumption; try constructor.
  - destruct (pressed && match ids with [] => false | _ :: _ => true end) eqn:Hdel.
    + unfold bind.
      destruct (delete_feedback_run ids w t Hfb (has_id_column _ Hcols))
        as (w1 & Hrun & _). rewrite Hrun.
      intros Hrun0. inversion Hrun0; subst. cbn [admin_rows].
      exists t. repeat split; try assumption.
      intros [-> | ->]; [discriminate |].
      rewrite andb_false_r in Hdel. discriminate.
    + intros Hrun0. inversion Hrun0; subst. cbn [admin_rows].
      exists t. repeat split; try assumption.
Qed.

Lemma admin_listing_witness :
  map f_id (admin_rows (mk_admin [] (firstn 200 (order_by_id_desc
              [mk_feedback 1 "bob" (Some 1%Z) "nice charts" "2025-06-01 08:00:00";
               mk_feedback 2 EmptyString None "upload is slow" "2025-06-02 08:00:00";
               mk_feedback 3 "carol" (Some 2%Z) "more themes" "2025-06-03 08:00:00"]))))
  = [3; 2; 1]%Z
  /\ exists t, feedback reviewed_world = Some t /\ length (ft_rows t) = 3.
Proof.
  split; [vm_compute; reflexivity |].
  destruct (admin_listing admin_user [] false reviewed_world reviewed_world
              (mk_admin [] (firstn 200 (order_by_id_desc
                 [mk_feedback 1 "bob" (Some 1%Z) "nice charts" "2025-06-01 08:00:00";
                  mk_feedback 2 EmptyString None "upload is slow" "2025-06-02 08:00:00";
                  mk_feedback 3 "carol" (Some 2%Z) "more themes" "2025-06-03 08:00:00"]))))
    as (t & Ht & _).
  - reflexivity.
  - vm_compute. reflexivity.
  - exists t. split; [exact Ht |]. vm_compute in Ht. inversion Ht. reflexivity.
Defined.

(** X21. The feedback that [save_feedback] has just stored is the first
    entry the Admin page lists, provided the table has the five columns
    the page selects. *)
Theorem saved_feedback_heads_listing (user : identity) (u fb msg : string) (w w1 : world) :
  is_admin user = true ->
  (forall t, feedback w = Some t ->
     missing_col ["id"; "username"; "user_id"; "feedback"; "feedback_at"] (ft_cols t) = None) ->
  save_feedback u fb w = (Ok (true, msg), w1) ->
  exists id rest,
    page_admin user [] false w1
    = (Ok (mk_admin [] (mk_feedback id u (linked_user_id u w) fb (clock w) :: rest)), w1).
Proof.
  intros Hadm Hcols Hsave.
  destruct (save_feedback_stored u fb msg w w1 Hsave) as (t & Hfb & _ & Hfb1 & _).
  specialize (Hcols t Hfb).
  unfold page_admin. rewrite Hadm. cbn [negb]. unfold bind at 1.
  unfold select_recent_feedback. rewrite Hfb1. cbn [ft_cols ft_rows]. rewrite Hcols.
  unfold order_by_id_desc. rewrite fold_right_app. cbn [fold_right insert_desc].
  rewrite order_newest_first by (intros x Hx; cbn [f_id]; apply next_feedback_id_above, Hx).
  cbn [firstn]. simpl andb. cbv iota.
  eexists _, _. reflexivity.
Qed.

Lemma saved_feedback_heads_listing_witness :
  exists id rest,
    page_admin admin_user [] false (snd (save_feedback "bob" "thanks" reviewed_world))
    = (Ok (mk_admin [] (mk_feedback id "bob" (Some 1%Z) "thanks" "2025-07-01 09:30:00" :: rest)),
       snd (save_feedback "bob" "thanks" reviewed_world)).
Proof.
  apply (saved_feedback_heads_listing admin_user "bob" "thanks" "Saved" reviewed_world).
  - reflexivity.
  - intros t Ht. vm_compute in Ht. inversion Ht. reflexivity.
  - vm_compute. reflexivity.
Defined.

(** X22. "Delete selected" on the Admin page, with at least one id
    chosen and a table that is not empty: exactly the entries whose id
    was chosen are removed, the others stay in their order, the page
    never raises, the rows drawn are those read before the deletion, and
    neither the users table nor any file changes. The sequence of the
    table stays as it was. *)
Theorem admin_delete_effect (user : identity) (i : Z) (ids : list Z) (w : world)
    (t : feedback_table) :
  is_admin user = true ->
  feedback w = Some t ->
  missing_col ["id"; "username"; "user_id"; "feedback"; "feedback_at"] (ft_cols t) = None ->
  ft_rows t <> [] ->
  exists w',
    page_admin user (i :: ids) true w
    = (Ok (mk_admin [msg_success "Deleted selected entries ‚Äî refresh the page"]
                    (firstn 200 (order_by_id_desc (ft_rows t)))), w')
    /\ feedback w'
       = Some (mk_feedbacks (ft_cols t)
                 (List.filter (fun r => negb (existsb (Z.eqb (f_id r)) (i :: ids))) (ft_rows t))
                 (ft_seq t))
    /\ users w' = users w /\ files w' = files w.
Proof.
  intros Hadm Hfb Hcols Hrows.
  unfold page_admin. rewrite Hadm. cbn [negb]. unfold bind at 1.
  unfold select_recent_feedback. rewrite Hfb, Hcols.
  destruct (firstn 200 (order_by_id_desc (ft_rows t))) as [|r0 rows0] eqn:Hlist.
  { exfalso. apply Hrows. apply (f_equal (@length _)) in Hlist.
    rewrite length_firstn, order_by_id_desc_length in Hlist. simpl in Hlist.
    destruct (ft_rows t); [reflexivity | simpl in Hlist; lia]. }
  cbn [andb]. unfold bind.
  destruct (delete_feedback_run (i :: ids) w t Hfb (has_id_column _ Hcols))
    as (w' & Hrun & Hfb' & Hu & _ & Hf & _).
  rewrite Hrun. exists w'. repeat split; assumption.
Qed.

Lemma admin_delete_effect_witness :
  option_map (fun t => map f_id (ft_rows t))
    (feedback (snd (page_admin admin_user [2%Z] true reviewed_world)))
  = Some [1; 3]%Z.
Proof.
  destruct (admin_delete_effect admin_user 2%Z [] reviewed_world
              (mk_feedbacks ["id"; "username"; "feedback"; "feedback_at"; "user_id"]
                 [mk_feedback 1 "bob" (Some 1%Z) "nice charts" "2025-06-01 08:00:00";
                  mk_feedback 2 EmptyString None "upload is slow" "2025-06-02 08:00:00";
                  mk_feedback 3 "carol" (Some 2%Z) "more themes" "2025-06-03 08:00:00"] 3))
    as (w' & Hrun & Hfb & _).
  - reflexivity.
  - reflexivity.
  - reflexivity.
  - discriminate.
  - rewrite Hrun. cbn [snd]. rewrite Hfb. vm_compute. reflexivity.
Defined.

End AdminPage.


Section FeedbackPages.

Lemma current_user_result (w : world) : exists o, current_user w = (o, w).
Proof.
  rewrite current_user_run.
  destruct (files w !! CURRENT_USER_FILE) as [content|]; [| eexists; reflexivity].
  destruct (truthy (marker_name content)); [| eexists; reflexivity].
  destruct (users w) as [t|]; [| eexists; reflexivity].
  destruct (missing_col ["id"; "username"] (ut_cols t)); eexists; reflexivity.
Qed.

(** X23. The feedback form's callback. Its message is always set. On
    success the text area is cleared and exactly one entry is appended:
    the text with the white space at its ends removed, under the
    username of the session when there is one (the name typed in the
    form is then ignored) and under the typed name, stripped, otherwise;
    its id is the one AUTOINCREMENT gives, which the sequence of the
    table then records. On failure, which includes a text of white space
    only, nothing is stored and the text area keeps its content. The
    name field is never changed. *)
Theorem submit_feedback_outcome (form form' : feedback_form) (w w' : world) :
  submit_feedback form w = (Ok form', w') ->
  feedback_username form' = feedback_username form
  /\ match feedback_msg form' with
     | Some (true, _) =>
         about_feedback form' = EmptyString
         /\ strip (about_feedback form) <> EmptyString
         /\ exists t cu sender,
              feedback w = Some t
              /\ current_user w = (Ok cu, w)
              /\ sender = match cu with
                          | Some who => default EmptyString (ident_username who)
                          | None => strip (feedback_username form)
                          end
              /\ feedback w'
                 = Some (mk_feedbacks (ft_cols t)
                           (ft_rows t ++
                            [mk_feedback (next_feedback_id t) sender
                                         (linked_user_id sender w)
                                         (strip (about_feedback form)) (clock w)])
                           (next_feedback_id t))
     | Some (false, _) => w' = w /\ about_feedback form' = about_feedback form
     | None => False
     end.
Proof.
  unfold submit_feedback.
  destruct (truthy (strip (about_feedback form))) eqn:Hfb; cbn [negb].
  2:{ intros H. inversion H; subst. cbn. auto. }
  apply truthy_iff in Hfb.
  unfold bind at 1.
  destruct (current_user_result w) as [[cu|e] Hcu]; rewrite Hcu; [| discriminate].
  set (sender := match cu with
                 | Some who => default EmptyString (ident_username who)
                 | None => strip (feedback_username form)
                 end).
  unfold bind.
  destruct (save_feedback_returns sender (strip (about_feedback form)) w)
    as (ok & msg & w1 & Hsave & Hfail).
  rewrite Hsave. destruct ok.
  - intros H. inversion H; subst. cbn [feedback_username feedback_msg about_feedback].
    split; [reflexivity |]. split; [reflexivity |]. split; [exact Hfb |].
    destruct (save_feedback_stored _ _ _ _ _ Hsave) as (t & Ht & _ & Ht' & _).
    exists t, cu, sender. repeat split; assumption.
  - intros H. inversion H; subst. cbn [feedback_username feedback_msg about_feedback].
    split; [reflexivity |]. split; [apply Hfail |]; reflexivity.
Qed.

Lemma submit_feedback_outcome_witness :
  option_map ft_rows
    (feedback (snd (submit_feedback (mk_form nbsp_love_it "mallory" None) logged_in_world)))
  = Some [mk_feedback 1 "bob" (Some 1%Z) "love it" "2025-07-01 09:30:00"].
Proof.
  destruct (submit_feedback_outcome (mk_form nbsp_love_it "mallory" None)
              (mk_form EmptyString "mallory" (Some (true, "Saved"%string)))
              logged_in_world
              (snd (submit_feedback (mk_form nbsp_love_it "mallory" None) logged_in_world)))
    as [_ H].
  - vm_compute. reflexivity.
  - cbn [feedback_msg] in H. destruct H as (_ & _ & t & cu & sender & Ht & Hcu & Hs & Hrow).
    rewrite Hrow. vm_compute in Ht. inversion Ht; subst t. clear Ht.
    vm_compute in Hcu. inversion Hcu; subst cu. clear Hcu.
    subst sender. vm_compute. reflexivity.
Defined.

Lemma sql_has_col_app (c : string) (a b : list string) :
  sql_has_col c (a ++ b) = sql_has_col c a || sql_has_col c b.
Proof. unfold sql_has_col. apply existsb_app. Qed.

Lemma sql_misses_col (c : string) (cols : list string) :
  sql_has_col c cols = false -> has_col c cols = false.
Proof.
  intros H. destruct (has_col c cols) eqn:Hc; [| reflexivity].
  apply has_col_sql in Hc. congruence.
Qed.

Lemma ensure_feedback_schema_settled (w : world) (t : feedback_table) :
  feedback w = Some t ->
  sql_has_col "user_id" (ft_cols t) = true ->
  ensure_feedback_schema w = (Ok (ft_cols t), w).
Proof.
  intros Hfb Hcol.
  unfold ensure_feedback_schema, bind, create_feedback, feedback_columns.
  rewrite Hfb. rewrite Hfb.
  destruct (has_col "user_id" (ft_cols t)); cbn [negb]; [reflexivity |].
  unfold try_except, bind, add_user_id_column. rewrite Hfb, Hcol. reflexivity.
Qed.

Lemma ensure_feedback_schema_adds (w : world) (t : feedback_table) :
  feedback w = Some t ->
  sql_has_col "user_id" (ft_cols t) = false ->
  ensure_feedback_schema w
  = (Ok (ft_cols t ++ ["user_id"]),
     set_feedback
       (Some (mk_feedbacks (ft_cols t ++ ["user_id"])
                (map (fun r => mk_feedback (f_id r) (f_username r) None
                                           (f_feedback r) (f_feedback_at r))
                     (ft_rows t))
                (ft_seq t))) w).
Proof.
  intros Hfb Hcol. pose proof (sql_misses_col _ _ Hcol) as Hpy.
  unfold ensure_feedback_schema, try_except, bind, create_feedback, feedback_columns,
    add_user_id_column.
  rewrite Hfb. rewrite Hfb, Hpy. cbn [negb]. rewrite Hfb, Hcol. reflexivity.
Qed.

Lemma ensure_feedback_schema_creates (w : world) :
  feedback w = None ->
  ensure_feedback_schema w
  = (Ok ["id"; "username"; "feedback"; "feedback_at"; "user_id"],
     set_feedback
       (Some (mk_feedbacks ["id"; "username"; "feedback"; "feedback_at"; "user_id"] [] 0))
       (set_feedback (Some (mk_feedbacks ["id"; "username"; "feedback"; "feedback_at"] [] 0))
          w)).
Proof.
  intros Hfb.
  unfold ensure_feedback_schema, try_except, bind, create_feedback, feedback_columns,
    add_user_id_column.
  rewrite Hfb. reflexivity.
Qed.

(** X24. The schema step of [ensure_feedback_table] never raises.
    Afterwards the feedback table exists and has a column SQLite reads
    as [user_id]; a table that had such a column, in whatever letter
    case, is left as it was (when the list of names has no [user_id]
    spelled so, the ALTER statement is tried, refused and the refusal
    swallowed); otherwise the column is added at the end and is null in
    the entries that were there. These entries keep their id, username,
    text and time, and the largest id the table remembers stays; a table
    that did not exist is created empty; the users table and the files
    are not touched; and a second run changes nothing. *)
Theorem ensure_feedback_schema_effect (w : world) :
  exists cols w',
    ensure_feedback_schema w = (Ok cols, w')
    /\ sql_has_col "user_id" cols = true
    /\ (exists t', feedback w' = Some t' /\ ft_cols t' = cols
                   /\ ft_seq t' = match feedback w with Some t => ft_seq t | None => 0%Z end)
    /\ map feedback_entry (feedback_rows w') = map feedback_entry (feedback_rows w)
    /\ (forall t, feedback w = Some t -> sql_has_col "user_id" (ft_cols t) = true ->
          w' = w /\ cols = ft_cols t)
    /\ (forall t, feedback w = Some t -> sql_has_col "user_id" (ft_cols t) = false ->
          cols = ft_cols t ++ ["user_id"]
          /\ Forall (fun r => f_user_id r = None) (feedback_rows w'))
    /\ (feedback w = None -> feedback_rows w' = [])
    /\ users w' = users w /\ users_new w' = users_new w /\ files w' = files w
    /\ ensure_feedback_schema w' = (Ok cols, w').
Proof.
  destruct (feedback w) as [t|] eqn:Hfb.
  - destruct (sql_has_col "user_id" (ft_cols t)) eqn:Hcol.
    + exists (ft_cols t), w.
      split; [exact (ensure_feedback_schema_settled w t Hfb Hcol) |].
      split; [exact Hcol |]. split; [exists t; rewrite Hfb; auto |].
      split; [reflexivity |].
      split; [intros t0 H0 _; inversion H0; subst; auto |].
      split; [intros t0 H0 Ht0; inversion H0; subst; congruence |].
      split; [discriminate |].
      split; [reflexivity |]. split; [reflexivity |]. split; [reflexivity |].
      exact (ensure_feedback_schema_settled w t Hfb Hcol).
    + assert (Hnew : sql_has_col "user_id" (ft_cols t ++ ["user_id"]) = true)
        by (rewrite sql_has_col_app, orb_true_iff; right; reflexivity).
      eexists _, _.
      split; [exact (ensure_feedback_schema_adds w t Hfb Hcol) |].
      split; [exact Hnew |]. split; [eexists; repeat split; reflexivity |].
      split.
      { unfold feedback_rows. rewrite Hfb. cbn [feedback set_feedback ft_rows].
        rewrite map_map. reflexivity. }
      split; [intros t0 H0 Ht0; inversion H0; subst; congruence |].
      split.
      { intros t0 H0 _. inversion H0; subst t0. split; [reflexivity |].
        unfold feedback_rows. cbn [feedback set_feedback ft_rows].
        apply List.Forall_forall. intros r Hr. apply in_map_iff in Hr.
        destruct Hr as [r0 [<- _]]. reflexivity. }
      split; [discriminate |].
      split; [reflexivity |]. split; [reflexivity |]. split; [reflexivity |].
      apply ensure_feedback_schema_settled with (t := mk_feedbacks (ft_cols t ++ ["user_id"]%string)
               (map (fun r => mk_feedback (f_id r) (f_username r) None
                                          (f_feedback r) (f_feedback_at r))
                    (ft_rows t)) (ft_seq t)); [reflexivity | exact Hnew].
  - eexists _, _.
    split; [exact (ensure_feedback_schema_creates w Hfb) |].
    split; [reflexivity |]. split; [eexists; repeat split; reflexivity |].
    split; [unfold feedback_rows; rewrite Hfb; reflexivity |].
    split; [intros t0 H0; discriminate |].
    split; [intros t0 H0; discriminate |].
    split; [reflexivity |].
    split; [reflexivity |]. split; [reflexivity |]. split; [reflexivity |].
    apply ensure_feedback_schema_settled
      with (t := mk_feedbacks ["id"; "username"; "feedback"; "feedback_at"; "user_id"]%string
                   [] 0);
      reflexivity.
Qed.

(** A feedback table whose link column is spelled [USER_ID] is left as
    it is: the ALTER statement is tried and refused, and the refusal is
    swallowed. The Admin page then lists its entries. *)
Lemma ensure_feedback_schema_case_variant :
  ensure_feedback_schema upper_case_world
  = (Ok ["id"; "username"; "feedback"; "feedback_at"; "USER_ID"], upper_case_world)
  /\ fst (add_user_id_column upper_case_world) = Raise "duplicate column name: user_id"
  /\ exists res w', page_admin admin_user [] false upper_case_world = (Ok res, w').
Proof.
  split; [vm_compute; reflexivity |]. split; [vm_compute; reflexivity |].
  eexists _, _. vm_compute. reflexivity.
Qed.

(** X25. Once the schema step has run on a database whose feedback table,
    if there was one, had the columns of the first version, the Admin
    page never raises, for any identity, selection and button state. *)
Theorem admin_page_runs_after_schema (w : world) (user : identity) (ids : list Z)
    (pressed : bool) :
  (forall t, feedback w = Some t ->
     missing_col ["id"; "username"; "feedback"; "feedback_at"] (ft_cols t) = None) ->
  exists res w'',
    page_admin user ids pressed (snd (ensure_feedback_schema w)) = (Ok res, w'').
Proof.
  intros Hbase.
  assert (Hshape : exists t1 w1,
            snd (ensure_feedback_schema w) = w1 /\ feedback w1 = Some t1
            /\ missing_col ["id"; "username"; "user_id"; "feedback"; "feedback_at"]
                           (ft_cols t1) = None).
  { destruct (feedback w) as [t|] eqn:Hfb.
    - specialize (Hbase t eq_refl).
      pose proof (proj1 (missing_col_none _ _) Hbase) as Hin.
      destruct (sql_has_col "user_id" (ft_cols t)) eqn:Hcol.
      + exists t, w. rewrite (ensure_feedback_schema_settled w t Hfb Hcol).
        split; [reflexivity |]. split; [exact Hfb |].
        apply missing_col_none. intros n [<- | [<- | [<- | [<- | [<- | []]]]]];
          try exact Hcol; apply Hin; simpl; tauto.
      + rewrite (ensure_feedback_schema_adds w t Hfb Hcol). eexists _, _.
        split; [reflexivity |]. split; [reflexivity |].
        cbn [ft_cols].
        apply missing_col_none. intros n Hn. rewrite sql_has_col_app.
        destruct Hn as [<- | [<- | [<- | [<- | [<- | []]]]]];
          try (rewrite Hin by (simpl; tauto); reflexivity).
        rewrite orb_true_iff. right. reflexivity.
    - rewrite (ensure_feedback_schema_creates w Hfb). eexists _, _.
      split; [reflexivity |]. split; reflexivity. }
  destruct Hshape as (t1 & w1 & -> & Hfb1 & Hcols1).
  unfold page_admin. destruct (is_admin user); cbn [negb]; [| eexists _, _; reflexivity].
  unfold bind at 1. unfold select_recent_feedback. rewrite Hfb1, Hcols1.
  destruct (firstn 200 (order_by_id_desc (ft_rows t1))) as [|r0 rows0];
    [eexists _, _; reflexivity |].
  destruct (pressed && match ids with [] => false | _ :: _ => true end);
    [| eexists _, _; reflexivity].
  unfold bind.
  destruct (delete_feedback_run ids w1 t1 Hfb1 (has_id_column _ Hcols1)) as (w2 & Hrun & _).
  rewrite Hrun. eexists _, _; reflexivity.
Qed.

Lemma admin_page_runs_after_schema_witness :
  (exists e, fst (page_admin admin_user [] false first_version_world) = Raise e)
  /\ exists res w'',
       page_admin admin_user [] false (snd (ensure_feedback_schema first_version_world))
       = (Ok res, w'').
Proof.
  split; [eexists; vm_compute; reflexivity |].
  apply (admin_page_runs_after_schema first_version_world admin_user [] false).
  intros t Ht. vm_compute in Ht. discriminate.
Defined.

End FeedbackPages.


Section UploadLoop.

Import Analysis Home.

Variable read_csv read_excel : string -> outcome dataframe.

(** The dataset part of the loop does not depend on the messages shown
    so far, nor the messages on the datasets. *)
Lemma upload_loop_split (ups : list uploaded_file) :
  forall (d d' : datasets) (shown : list message),
    fst (fold_left (upload_one read_csv read_excel) ups (d, shown))
    = fst (fold_left (upload_one read_csv read_excel) ups (d, []))
    /\ snd (fold_left (upload_one read_csv read_excel) ups (d, shown))
       = shown ++ snd (fold_left (upload_one read_csv read_excel) ups (d', [])).
Proof.
  induction ups as [|up ups IH]; intros d d' shown; simpl.
  - rewrite app_nil_r. split; reflexivity.
  - destruct (load read_csv read_excel up) as [df|e]; simpl.
    + destruct (IH (dict_set (up_name up) df d) d' (shown ++ [msg_success
                 ("Loaded " ++ up_name up ++ " ‚Äî " ++ str_of_nat (length (df_rows df))
                  ++ " rows, " ++ str_of_nat (length (df_columns df)) ++ " columns")]))
        as [IHd IHm].
      rewrite IHd, IHm.
      split.
      * symmetry. apply (proj1 (IH _ d' _)).
      * rewrite (proj2 (IH (dict_set (up_name up) df d') d' [_])).
        rewrite <- app_assoc. reflexivity.
    + destruct (IH d d' (shown ++ [msg_error ("Failed to load " ++ up_name up ++ ": " ++ e)]))
        as [IHd IHm].
      rewrite IHd, IHm.
      split.
      * symmetry. apply (proj1 (IH _ d' _)).
      * rewrite (proj2 (IH d' d' [_])). rewrite <- app_assoc. reflexivity.
Qed.

Lemma upload_one_message (st : datasets * list message) (up : uploaded_file) :
  length (snd (upload_one read_csv read_excel st up)) = S (length (snd st)).
Proof.
  destruct st as [d shown]. unfold Home.upload_one.
  destruct (load read_csv read_excel up); simpl; rewrite length_app; simpl; lia.
Qed.

Lemma upload_loop_messages (ups : list uploaded_file) :
  forall st, length (snd (fold_left (upload_one read_csv read_excel) ups st)) = length (snd st) + length ups.
Proof.
  induction ups as [|up ups IH]; intros st; simpl; [lia |].
  rewrite IH, upload_one_message. lia.
Qed.

Lemma dict_get_set (k name : string) (v : dataframe) (d : datasets) :
  dict_get name (dict_set k v d) = if String.eqb k name then Some v else dict_get name d.
Proof.
  induction d as [|[k' v'] d IH]; simpl.
  - reflexivity.
  - destruct (String.eqb k' k) eqn:Hk; simpl.
    + apply String.eqb_eq in Hk. subst k'.
      destruct (String.eqb k name); reflexivity.
    + destruct (String.eqb k' name) eqn:Hn; [| exact IH].
      apply String.eqb_eq in Hn. subst k'.
      rewrite String.eqb_sym in Hk. rewrite Hk. reflexivity.
Qed.

Lemma dict_set_keys (k : string) (v : dataframe) (d : datasets) :
  keys (dict_set k v d) = if existsb (String.eqb k) (keys d) then keys d else keys d ++ [k].
Proof.
  unfold keys. induction d as [|[k' v'] d IH]; simpl; [reflexivity |].
  rewrite (String.eqb_sym k k').
  destruct (String.eqb k' k); simpl; [reflexivity |].
  rewrite IH. destruct (existsb (String.eqb k) (map fst d)); reflexivity.
Qed.

Lemma upload_loop_keys (ups : list uploaded_file) :
  forall st, exists extra,
    keys (fst (fold_left (upload_one read_csv read_excel) ups st))
    = keys (fst st) ++ extra.
Proof.
  induction ups as [|up ups IH]; intros st; simpl.
  - exists []. rewrite app_nil_r. reflexivity.
  - destruct (IH (upload_one read_csv read_excel st up)) as [extra ->].
    destruct st as [d shown]. unfold Home.upload_one.
    destruct (load read_csv read_excel up) as [df|e]; cbn [fst].
    + rewrite dict_set_keys. destruct (existsb _ _).
      * exists extra. reflexivity.
      * exists (up_name up :: extra). rewrite <- app_assoc. reflexivity.
    + exists extra. reflexivity.
Qed.

Lemma last_loaded_from (name : string) (ups : list uploaded_file) (acc : option dataframe) :
  fold_left (fun acc up =>
               if String.eqb (up_name up) name
               then match load read_csv read_excel up with Ok df => Some df | Raise _ => acc end
               else acc) ups acc
  = match last_loaded read_csv read_excel name ups with
    | Some df => Some df
    | None => acc
    end.
Proof.
  unfold Home.last_loaded. revert acc.
  induction ups as [|up ups IH]; intros acc; simpl; [reflexivity |].
  rewrite IH. rewrite (IH (if String.eqb (up_name up) name then _ else None)).
  destruct (fold_left _ ups None); [reflexivity |].
  destruct (String.eqb (up_name up) name); [| reflexivity].
  destruct (load read_csv read_excel up); reflexivity.
Qed.

(** X26. The upload loop of the Home page shows exactly one message per
    file; afterwards a name resolves to the frame of the last file of
    that name that could be parsed, and to what it resolved to before
    when no such file was among the uploads; the names already known
    keep their places in the list, new ones are added after them. *)
Theorem upload_last_wins (ups : list uploaded_file) (d : datasets) (name : string) :
  dict_get name (fst (upload_files read_csv read_excel ups d))
  = match last_loaded read_csv read_excel name ups with
    | Some df => Some df
    | None => dict_get name d
    end
  /\ length (snd (upload_files read_csv read_excel ups d)) = length ups
  /\ exists extra, keys (fst (upload_files read_csv read_excel ups d)) = keys d ++ extra.
Proof.
  unfold Home.upload_files. split; [| split].
  - revert d. induction ups as [|up ups IH]; intros d; simpl; [reflexivity |].
    unfold Home.last_loaded. simpl. rewrite last_loaded_from.
    destruct (load read_csv read_excel up) as [df|e] eqn:Hload.
    + rewrite (proj1 (upload_loop_split ups _ d _)). rewrite IH.
      destruct (last_loaded read_csv read_excel name ups); [reflexivity |].
      rewrite dict_get_set. destruct (String.eqb (up_name up) name); reflexivity.
    + rewrite (proj1 (upload_loop_split ups _ d _)). rewrite IH.
      destruct (last_loaded read_csv read_excel name ups); [reflexivity |].
      destruct (String.eqb (up_name up) name); reflexivity.
  - rewrite upload_loop_messages. reflexivity.
  - apply (upload_loop_keys ups (d, [])).
Qed.

(** X27. A file that cannot be parsed costs one error message and
    nothing else: the datasets are those of the upload without that
    file, and so are the other messages, in their order. *)
Theorem failed_upload_is_skipped (before after : list uploaded_file) (bad : uploaded_file)
    (d : datasets) (e : string) :
  load read_csv read_excel bad = Raise e ->
  fst (upload_files read_csv read_excel (before ++ bad :: after) d)
  = fst (upload_files read_csv read_excel (before ++ after) d)
  /\ snd (upload_files read_csv read_excel (before ++ bad :: after) d)
     = firstn (length before) (snd (upload_files read_csv read_excel (before ++ after) d))
       ++ msg_error ("Failed to load " ++ up_name bad ++ ": " ++ e)
       :: skipn (length before) (snd (upload_files read_csv read_excel (before ++ after) d)).
Proof.
  intros Hbad. unfold Home.upload_files. rewrite !fold_left_app. cbn [fold_left].
  destruct (fold_left (upload_one read_csv read_excel) before (d, []))
    as [d1 shown1] eqn:Hbefore.
  assert (Hlen : length shown1 = length before).
  { pose proof (upload_loop_messages before (d, [])) as H.
    rewrite Hbefore in H. exact H. }
  assert (Hstep : Home.upload_one read_csv read_excel (d1, shown1) bad
                  = (d1, shown1 ++ [msg_error ("Failed to load " ++ up_name bad ++ ": " ++ e)]))
    by (unfold Home.upload_one; rewrite Hbad; reflexivity).
  rewrite Hstep.
  destruct (upload_loop_split after d1 d1 (shown1 ++ [msg_error
              ("Failed to load " ++ up_name bad ++ ": " ++ e)])) as [Hd Hm].
  destruct (upload_loop_split after d1 d1 shown1) as [Hd' Hm'].
  rewrite Hd, Hm, Hd', Hm'. split; [reflexivity |].
  rewrite <- Hlen.
  rewrite firstn_app, Nat.sub_diag, firstn_all, firstn_O, app_nil_r.
  rewrite skipn_app, Nat.sub_diag, skipn_all, skipn_O.
  rewrite <- app_assoc. reflexivity.
Qed.

End UploadLoop.

Lemma failed_upload_is_skipped_witness :
  Home.keys
    (fst (Home.upload_files
            (fun data => Ok (Analysis.mk_df ["text"] [[Analysis.CStr data]]))
            (fun _ => Raise "Excel file format cannot be determined")
            [Home.mk_upload "a.csv" "1"; Home.mk_upload "b.xlsx" "2"; Home.mk_upload "c.CSV" "3"]
            []))
  = ["a.csv"; "c.CSV"]%string.
Proof.
  destruct (failed_upload_is_skipped
              (fun data => Ok (Analysis.mk_df ["text"] [[Analysis.CStr data]]))
              (fun _ => Raise "Excel file format cannot be determined")
              [Home.mk_upload "a.csv" "1"] [Home.mk_upload "c.CSV" "3"]
              (Home.mk_upload "b.xlsx" "2") []
              "Excel file format cannot be determined" eq_refl) as [H _].
  cbn [app] in H. rewrite H. vm_compute. reflexivity.
Defined.


Section ParserChoice.

Import Analysis Home.

Variable read_csv read_excel : string -> outcome dataframe.

Lemma list_ascii_of_string_app (a b : string) :
  list_ascii_of_string (a ++ b) = list_ascii_of_string a ++ list_ascii_of_string b.
Proof. induction a as [|c a IH]; simpl; [| rewrite IH]; reflexivity. Qed.

Lemma rfind_from_app (c : ascii) (a b : list ascii) :
  forall i found,
    rfind_from c (a ++ b) i found
    = rfind_from c b (i + Z.of_nat (length a)) (rfind_from c a i found).
Proof.
  induction a as [|x a IH]; intros i found; simpl app; simpl rfind_from.
  - simpl length. rewrite Z.add_0_r. reflexivity.
  - rewrite IH. f_equal. simpl length. lia.
Qed.

Lemma rfind_from_absent (c : ascii) (a : list ascii) :
  forallb (fun x => negb (Ascii.eqb x c)) a = true ->
  forall i found, rfind_from c a i found = found.
Proof.
  induction a as [|x a IH]; simpl; intros H i found; [reflexivity |].
  apply andb_true_iff in H. destruct H as [Hx Ha].
  apply negb_true_iff in Hx. rewrite Hx. apply IH. exact Ha.
Qed.

Lemma rfind_from_head (c : ascii) (rest : list ascii) (i found : Z) :
  rfind_from c (c :: rest) i found = rfind_from c rest (i + 1) i.
Proof. cbn [rfind_from]. rewrite Ascii.eqb_refl. reflexivity. Qed.

Lemma lower_char_dot (c : ascii) : lower_char c = "."%char -> c = "."%char.
Proof.
  destruct c as [[] [] [] [] [] [] [] []]; intros H; vm_compute in H;
    first [reflexivity | discriminate H].
Qed.

(** The four characters of a suffix that lowers to ".csv". *)
Lemma csv_suffix (sfx : string) :
  lower sfx = ".csv"%string ->
  exists c1 c2 c3,
    sfx = String "." (String c1 (String c2 (String c3 EmptyString)))
    /\ forallb (fun x => negb (Ascii.eqb x ".")) [c1; c2; c3] = true
    /\ forallb (fun x => negb (Ascii.eqb x "/")) ["."%char; c1; c2; c3] = true.
Proof.
  unfold lower.
  destruct sfx as [|c0 [|c1 [|c2 [|c3 [|c4 rest]]]]]; simpl; try discriminate.
  intros H. inversion H as [[H0 H1 H2 H3]].
  apply lower_char_dot in H0. subst c0.
  exists c1, c2, c3. split; [reflexivity |].
  assert (Hsep : forall c x : ascii, lower_char c = x ->
                   (x = "c" \/ x = "s" \/ x = "v")%char ->
                   Ascii.eqb c "." = false /\ Ascii.eqb c "/" = false).
  { intros c x Hc Hx. split; apply Ascii.eqb_neq; intros ->; vm_compute in Hc;
      subst x; destruct Hx as [Hx | [Hx | Hx]]; discriminate Hx. }
  destruct (Hsep c1 _ H1 (or_introl eq_refl)) as [A1 B1].
  destruct (Hsep c2 _ H2 (or_intror (or_introl eq_refl))) as [A2 B2].
  destruct (Hsep c3 _ H3 (or_intror (or_intror eq_refl))) as [A3 B3].
  cbn [forallb]. change (lower_char ".") with "."%char.
  rewrite A1, A2, A3, B1, B2, B3. split; reflexivity.
Qed.

Lemma splitext_csv (stem sfx : string) :
  forallb (fun c => negb (Ascii.eqb c "/")) (list_ascii_of_string stem) = true ->
  lower sfx = ".csv"%string ->
  splitext_ext (stem ++ sfx)
  = if existsb (fun c => negb (Ascii.eqb c ".")) (list_ascii_of_string stem)
    then sfx else EmptyString.
Proof.
  intros Hstem Hsfx.
  destruct (csv_suffix sfx Hsfx) as (c1 & c2 & c3 & -> & Hdots & Hseps).
  unfold splitext_ext, rfind. rewrite list_ascii_of_string_app.
  set (cs := list_ascii_of_string stem) in *.
  cbn [list_ascii_of_string].
  rewrite !rfind_from_app.
  rewrite (rfind_from_absent "/" cs Hstem).
  rewrite (rfind_from_absent "/" _ Hseps).
  rewrite rfind_from_head.
  rewrite (rfind_from_absent "." [c1; c2; c3] Hdots).
  rewrite Z.add_0_l.
  assert (Hgt : (Z.of_nat (length cs) >? -1)%Z = true) by (apply Z.gtb_lt; lia).
  rewrite Hgt. cbn [andb].
  assert (Hslice : slice (cs ++ ["."%char; c1; c2; c3]) (-1 + 1) (Z.of_nat (length cs)) = cs).
  { unfold slice, slice_index. rewrite length_app. simpl length.
    change (-1 + 1 <? 0)%Z with false. cbv iota.
    destruct (Z.of_nat (length cs) <? 0)%Z eqn:Hneg; [apply Z.ltb_lt in Hneg; lia |].
    rewrite Z.min_l by lia. rewrite Z.min_l by lia.
    change (Z.to_nat (-1 + 1)) with 0. rewrite skipn_O.
    rewrite Z.sub_0_r, Nat2Z.id.
    rewrite firstn_app, Nat.sub_diag, firstn_all, firstn_O, app_nil_r. reflexivity. }
  rewrite Hslice.
  destruct (existsb _ cs); [| reflexivity].
  rewrite Nat2Z.id.
  rewrite skipn_app, Nat.sub_diag, skipn_all, skipn_O. reflexivity.
Qed.

(** X28. The parser of an upload is chosen by the extension alone, in
    any letter case: a name made of a stem without "/" and a suffix that
    lowers to ".csv" is read with [pd.read_csv] when the stem holds some
    character other than a dot, and with [pd.read_excel] when it is empty
    or made of dots, for [os.path.splitext] then sees no extension. *)
Theorem csv_parser_by_extension (stem sfx data : string) :
  forallb (fun c => negb (Ascii.eqb c "/")) (list_ascii_of_string stem) = true ->
  lower sfx = ".csv"%string ->
  Home.load read_csv read_excel (mk_upload (stem ++ sfx) data)
  = if existsb (fun c => negb (Ascii.eqb c ".")) (list_ascii_of_string stem)
    then read_csv data else read_excel data.
Proof.
  intros Hstem Hsfx. unfold Home.load. cbn [up_name up_data].
  rewrite (splitext_csv stem sfx Hstem Hsfx).
  destruct (existsb _ (list_ascii_of_string stem)).
  - rewrite Hsfx. reflexivity.
  - reflexivity.
Qed.

End ParserChoice.

Lemma csv_parser_by_extension_witness :
  Home.load (fun _ => Ok (Analysis.mk_df [] [])) (fun _ => Raise "not a workbook")
            (Home.mk_upload "Sales.2024.CSV" "a,b")
  = Ok (Analysis.mk_df [] [])
  /\ Home.load (fun _ => Ok (Analysis.mk_df [] [])) (fun _ => Raise "not a workbook")
               (Home.mk_upload ".csv" "a,b")
     = Raise "not a workbook".
Proof.
  split.
  - apply (csv_parser_by_extension (fun _ => Ok (Analysis.mk_df [] []))
             (fun _ => Raise "not a workbook") "Sales.2024" ".CSV" "a,b"); reflexivity.
  - apply (csv_parser_by_extension (fun _ => Ok (Analysis.mk_df [] []))
             (fun _ => Raise "not a workbook") EmptyString ".csv" "a,b"); reflexivity.
Defined.

Section ChartSource.

Import Analysis Home ChartsPage.

Lemma dict_get_key (k : string) (d : datasets) :
  In k (keys d) -> exists v, dict_get k d = Some v.
Proof.
  unfold keys. induction d as [|[k' v'] d IH]; simpl; [tauto |].
  intros [-> | H].
  - rewrite String.eqb_refl. eauto.
  - destruct (String.eqb k' k); [eauto | exact (IH H)].
Qed.

(** X29. Whatever option of the select box is chosen, the Charts page
    finds its dataset without a KeyError. A frame reaches the builder
    only when it has rows and columns, and then with no message; it is
    the analysis result when the option chosen reads as the
    "Last analysis: ..." label, even if an uploaded file carries that
    very name, and the uploaded frame of that name otherwise. *)
Theorem chart_dataset_resolves (s : chart_state) (selected : string) :
  In selected (chart_options s) ->
  exists shown picked,
    chart_dataset s selected = Ok (shown, picked)
    /\ forall df, picked = Some df ->
         shown = [] /\ df_rows df <> [] /\ df_columns df <> []
         /\ ((use_analysis_label s = Some selected /\ analysis_result_df s = Some df)
             \/ (use_analysis_label s <> Some selected
                 /\ exists d, uploaded_dfs s = Some d /\ dict_get selected d = Some df)).
Proof.
  unfold chart_options, chart_dataset, use_analysis_label.
  destruct s as [up res name]. cbn [uploaded_dfs analysis_result_df analysis_result_name].
  intros Hsel.
  destruct (default [] up) as [|entry d0] eqn:Hup.
  { eexists _, _. split; [reflexivity |]. intros df H. discriminate. }
  assert (Hd : up = Some (entry :: d0))
    by (destruct up as [d1|]; cbn in Hup; [rewrite Hup; reflexivity | discriminate Hup]).
  set (d := entry :: d0) in *.
  assert (Hguard : forall df shown picked,
            (if df_empty df || (length (df_columns df) =? 0)%nat
             then Ok ([msg_warning "The selected dataset is empty or has no columns to chart. Go to Data Analysis to prepare a dataset."], None)
             else Ok ([], Some df)) = Ok (shown, picked) ->
            forall df', picked = Some df' ->
              df' = df /\ shown = [] /\ df_rows df <> [] /\ df_columns df <> []).
  { intros df shown picked H df' Hp. subst picked.
    destruct (df_empty df) eqn:He; cbn [orb] in H; [discriminate |].
    destruct (length (df_columns df) =? 0)%nat; inversion H as [[Hs Hdf]].
    subst shown df'.
    unfold df_empty in He.
    destruct (df_rows df); [discriminate |]. destruct (df_columns df); [discriminate |].
    repeat split; discriminate. }
  destruct res as [r|].
  - set (label := ("Last analysis: " ++ default "result" name)%string) in *.
    assert (Htruthy : truthy label = true) by (apply truthy_iff; discriminate).
    rewrite Htruthy. cbn [andb].
    destruct (String.eqb selected label) eqn:Hlabel.
    + apply String.eqb_eq in Hlabel. subst selected.
      destruct (df_empty r || (length (df_columns r) =? 0)%nat) eqn:Hg.
      * eexists _, _. split; [reflexivity |]. intros df H. discriminate.
      * eexists _, _. split; [reflexivity |]. intros df H. inversion H; subst df.
        destruct (Hguard r [] (Some r)) with (df' := r) as (_ & _ & Hr & Hc);
          [rewrite Hg; reflexivity | reflexivity |].
        repeat split; try assumption. left. split; reflexivity.
    + apply String.eqb_neq in Hlabel.
      destruct Hsel as [Hsel | Hsel]; [congruence |].
      destruct (dict_get_key selected d Hsel) as [v Hv]. rewrite Hv.
      destruct (df_empty v || (length (df_columns v) =? 0)%nat) eqn:Hg.
      * eexists _, _. split; [reflexivity |]. intros df H. discriminate.
      * eexists _, _. split; [reflexivity |]. intros df H. inversion H; subst df.
        destruct (Hguard v [] (Some v)) with (df' := v) as (_ & _ & Hr & Hc);
          [rewrite Hg; reflexivity | reflexivity |].
        repeat split; try assumption. right.
        split; [intros E; inversion E; congruence |].
        exists d. split; [exact Hd | exact Hv].
  - destruct (dict_get_key selected d Hsel) as [v Hv]. rewrite Hv.
    destruct (df_empty v || (length (df_columns v) =? 0)%nat) eqn:Hg.
    + eexists _, _. split; [reflexivity |]. intros df H. discriminate.
    + eexists _, _. split; [reflexivity |]. intros df H. inversion H; subst df.
      destruct (Hguard v [] (Some v)) with (df' := v) as (_ & _ & Hr & Hc);
        [rewrite Hg; reflexivity | reflexivity |].
      repeat split; try assumption. right.
      split; [discriminate |].
      exists d. split; [exact Hd | exact Hv].
Qed.

Lemma chart_dataset_resolves_witness :
  exists shown,
    chart_dataset
      (mk_chart_state
         (Some [("Last analysis: result"%string, mk_df ["uploaded"] [[CInt 1]])])
         (Some (mk_df ["analysed"] [[CInt 2]])) None)
      "Last analysis: result"
    = Ok (shown, Some (mk_df ["analysed"] [[CInt 2]])).
Proof.
  destruct (chart_dataset_resolves
              (mk_chart_state
                 (Some [("Last analysis: result"%string, mk_df ["uploaded"] [[CInt 1]])])
                 (Some (mk_df ["analysed"] [[CInt 2]])) None)
              "Last analysis: result") as (shown & picked & Hrun & _).
  - left. reflexivity.
  - exists shown. rewrite Hrun. vm_compute in Hrun. inversion Hrun. reflexivity.
Defined.

End ChartSource.

Section ChartExport.

Import ChartsPage.

Variable figure : Type.
Variable to_html : figure -> outcome string.
Variable to_image : export_format -> figure -> outcome string.

(** X30. The download of the last chart. It raises exactly when the
    HTML export raises and was the only way left (HTML was the format
    asked for, or the image export had failed): for the HTML format the
    fallback cannot help. Otherwise one button is offered: either the
    format asked for, under the name with that extension and with no
    message, or, the image export having failed, the HTML page under
    the name ending in ".html" with mime text/html and one error
    message that quotes the exception. *)
Theorem download_chart_outcome (fmt : export_format) (fname : string) (fig : figure) :
  match download_chart figure to_html to_image fmt fname fig with
  | Ok (shown, button) =>
      (shown = []
       /\ render figure to_html to_image fmt fig
          = Ok (dl_data button, dl_mime button, format_name fmt)
       /\ dl_file_name button = (fname ++ "." ++ format_name fmt)%string
       /\ dl_label button = ("Download " ++ upper (format_name fmt))%string)
      \/ (fmt <> html
          /\ (exists e,
                to_image fmt fig = Raise e
                /\ shown = [msg_error ("Could not generate " ++ format_name fmt
                              ++ " image (is kaleido installed?). Falling back to HTML download. Error: "
                              ++ e)])
          /\ to_html fig = Ok (dl_data button)
          /\ dl_file_name button = (fname ++ ".html")%string
          /\ dl_mime button = "text/html"%string
          /\ dl_label button = "Download HTML fallback"%string)
  | Raise e =>
      to_html fig = Raise e /\ (fmt = html \/ exists e', to_image fmt fig = Raise e')
  end.
Proof.
  unfold download_chart, render.
  destruct fmt;
    try (destruct (to_image _ fig) as [data|e] eqn:Himg;
         [ left; repeat split; reflexivity
         | destruct (to_html fig) as [page|e'] eqn:Hhtml;
           [ right; repeat split; try reflexivity; try discriminate; eauto
           | split; [reflexivity | right; eauto] ] ]).
  destruct (to_html fig) as [page|e] eqn:Hhtml.
  - left. repeat split; reflexivity.
  - split; [reflexivity | left; reflexivity].
Qed.

End ChartExport.
